(** * ZeroAnalyst core pipeline: cleaner, statistics engine, insight engine

    A shallow embedding of [backend/modules/data_cleaner.py],
    [backend/modules/stats_engine.py], [backend/modules/insight_engine.py]
    and of the two endpoints of [backend/app.py] that feed them.

    Conventions of the embedding.
    - A cell of a numeric column is a finite number, held as the rational
      it denotes ([Q]), or missing ([None], NaN; NaT for timestamps); a
      table with an infinite cell is outside the embedding.  The summary
      statistics are the exact values that pandas approximates in double
      precision; the properties below read them through their presence,
      their keys and their counts only.
    - The arithmetic of the trend rule is the arithmetic of IEEE doubles
      ([Float64]), since its threshold test depends on the rounding.
    - A DataFrame is column-major: an index length and an ordered list of
      labelled, typed columns.  Column labels are unique in every frame that
      [read_csv] or [read_excel] builds; theorems that rely on this say so
      with a [NoDup] hypothesis.
    - Python exceptions are values of [Exception]; fallible code returns a
      [result].  The text of an exception, [str(e)], is worded by the
      interpreter and the libraries: it is a parameter.
    - f-strings are kept structured: an action record or an insight is a
      constructor that carries the values the source formats into the text. *)

From Stdlib Require Import List String Ascii Bool Arith ZArith QArith Qabs Qround Lia Lqa.
From Stdlib Require Import Sorted.
From Stdlib Require PrimFloat.
Import ListNotations.
Close Scope Q_scope.
Open Scope string_scope.
Open Scope list_scope.
Open Scope nat_scope.

(** ** Exceptions and results *)

Inductive Exception : Type :=
| KeyError (key : string)
| TypeError
| ZeroDivisionError
| HTTPException (status_code : nat) (detail : string).

Inductive result (A : Type) : Type :=
| Ok (a : A)
| Raise (e : Exception).
Arguments Ok {A} a.
Arguments Raise {A} e.

Definition bind {A B : Type} (r : result A) (k : A -> result B) : result B :=
  match r with
  | Ok a => k a
  | Raise e => Raise e
  end.

Notation "x <- r ;; k" := (bind r (fun x => k))
  (at level 61, r at next level, right associativity).

(** A [for] loop whose body may raise, the accumulator being the mutable
    state the body updates. *)
Fixpoint for_each {A S : Type} (body : S -> A -> result S) (xs : list A) (s : S)
  : result S :=
  match xs with
  | [] => Ok s
  | x :: xs' => s' <- body s x ;; for_each body xs' s'
  end.

(** ** Floats *)

(** [None] is NaN. *)
Definition float := option Q.

(** Comparisons in which NaN compares false with everything. *)
Definition Qltb (a b : Q) : bool := negb (Qle_bool b a).

Definition float_gt (a : float) (b : Q) : bool :=
  match a with
  | Some x => Qltb b x
  | None => false
  end.

Definition float_abs (a : float) : float := option_map Qabs a.

(** ** IEEE doubles *)

(** The doubles of numpy and of Python with the operations of the
    processor: each operation rounds its exact result to the nearest double,
    ties to even, and NaN compares false with everything. *)
Module Float64.

Definition t : Set := PrimFloat.float.

Definition zero : t := PrimFloat.zero.
Definition nan : t := PrimFloat.nan.
Definition add (a b : t) : t := PrimFloat.add a b.
Definition sub (a b : t) : t := PrimFloat.sub a b.
Definition mul (a b : t) : t := PrimFloat.mul a b.
Definition div (a b : t) : t := PrimFloat.div a b.
Definition opp (a : t) : t := PrimFloat.opp a.
Definition abs (a : t) : t := PrimFloat.abs a.

(** [a > b] and [a == b] *)
Definition gt (a b : t) : bool := PrimFloat.ltb b a.
Definition eqb (a b : t) : bool := PrimFloat.eqb a b.

(** The double of an integer literal or of a count: exact below [2^53]. *)
Fixpoint of_pos (p : positive) : t :=
  match p with
  | xH => PrimFloat.one
  | xO p' => mul PrimFloat.two (of_pos p')
  | xI p' => add (mul PrimFloat.two (of_pos p')) PrimFloat.one
  end.

Definition of_Z (z : Z) : t :=
  match z with
  | Z0 => zero
  | Zpos p => of_pos p
  | Zneg p => opp (of_pos p)
  end.

Definition of_nat (n : nat) : t := of_Z (Z.of_nat n).

End Float64.

(** ** The table engine (pandas), as far as the core uses it *)

Module Pandas.

(** A column with its dtype: int64/float64, datetime64 or object. *)
Inductive Series : Type :=
| NumCol (cells : list (option Q))
| DateCol (cells : list (option Z))
| ObjCol (cells : list (option string)).

Record DataFrame : Type := mkDataFrame {
  index_len : nat;
  columns : list (string * Series)
}.

Definition names (df : DataFrame) : list string := map fst (columns df).

(** [len(df)] and [df.shape] *)
Definition len (df : DataFrame) : nat := index_len df.
Definition shape (df : DataFrame) : nat * nat :=
  (index_len df, List.length (columns df)).

(** [df.empty]: some axis has length zero. *)
Definition empty (df : DataFrame) : bool :=
  (index_len df =? 0) || (List.length (columns df) =? 0).

Definition series_len (s : Series) : nat :=
  match s with
  | NumCol cells => List.length cells
  | DateCol cells => List.length cells
  | ObjCol cells => List.length cells
  end.

(** Every column is as long as the index. *)
Definition aligned (df : DataFrame) : Prop :=
  Forall (fun cs => series_len (snd cs) = index_len df) (columns df).

Definition is_null {A : Type} (c : option A) : bool :=
  match c with
  | None => true
  | Some _ => false
  end.

Definition count_null {A : Type} (cells : list (option A)) : nat :=
  List.length (filter is_null cells).

(** [s.isna().sum()] *)
Definition isna_sum (s : Series) : nat :=
  match s with
  | NumCol cells => count_null cells
  | DateCol cells => count_null cells
  | ObjCol cells => count_null cells
  end.

(** [pd.api.types.is_numeric_dtype] and [is_datetime64_any_dtype] *)
Definition is_numeric_dtype (s : Series) : bool :=
  match s with
  | NumCol _ => true
  | _ => false
  end.

Definition is_datetime64_any_dtype (s : Series) : bool :=
  match s with
  | DateCol _ => true
  | _ => false
  end.

(** [df[col]] *)
Fixpoint lookup {V : Type} (k : string) (l : list (string * V)) : option V :=
  match l with
  | [] => None
  | (k', v) :: l' => if String.eqb k k' then Some v else lookup k l'
  end.

Definition getitem (df : DataFrame) (col : string) : result Series :=
  match lookup col (columns df) with
  | Some s => Ok s
  | None => Raise (KeyError col)
  end.

(** [d[k] = v] on an insertion-ordered dict, and [df[col] = s] on a frame:
    an existing key keeps its place, a new one goes last. *)
Fixpoint assign {V : Type} (k : string) (v : V) (l : list (string * V))
  : list (string * V) :=
  match l with
  | [] => [(k, v)]
  | (k', v') :: l' =>
      if String.eqb k k' then (k', v) :: l' else (k', v') :: assign k v l'
  end.

Definition setitem (df : DataFrame) (col : string) (s : Series) : DataFrame :=
  mkDataFrame (index_len df) (assign col s (columns df)).

(** [df.drop(columns=[col])] *)
Definition drop (df : DataFrame) (col : string) : DataFrame :=
  mkDataFrame (index_len df)
    (filter (fun cs => negb (String.eqb col (fst cs))) (columns df)).

(** *** Rows and [drop_duplicates] *)

Inductive Cell : Type :=
| CNum (v : option Q)
| CDate (v : option Z)
| CObj (v : option string).

Definition cell_at (s : Series) (i : nat) : Cell :=
  match s with
  | NumCol cells => CNum (nth i cells None)
  | DateCol cells => CDate (nth i cells None)
  | ObjCol cells => CObj (nth i cells None)
  end.

Definition row (df : DataFrame) (i : nat) : list Cell :=
  map (fun cs => cell_at (snd cs) i) (columns df).

Definition opt_eqb {A : Type} (eqb : A -> A -> bool) (a b : option A) : bool :=
  match a, b with
  | None, None => true
  | Some x, Some y => eqb x y
  | _, _ => false
  end.

(** Two missing cells count as equal when rows are compared. *)
Definition cell_eqb (a b : Cell) : bool :=
  match a, b with
  | CNum x, CNum y => opt_eqb Qeq_bool x y
  | CDate x, CDate y => opt_eqb Z.eqb x y
  | CObj x, CObj y => opt_eqb String.eqb x y
  | _, _ => false
  end.

Fixpoint row_eqb (r1 r2 : list Cell) : bool :=
  match r1, r2 with
  | [], [] => true
  | a :: r1', b :: r2' => cell_eqb a b && row_eqb r1' r2'
  | _, _ => false
  end.

(** [df.duplicated()]: row [i] repeats an earlier row. *)
Definition duplicated (df : DataFrame) : list bool :=
  map (fun i => existsb (fun j => row_eqb (row df j) (row df i)) (seq 0 i))
      (seq 0 (index_len df)).

Fixpoint select {A : Type} (mask : list bool) (xs : list A) : list A :=
  match mask, xs with
  | true :: mask', x :: xs' => x :: select mask' xs'
  | false :: mask', _ :: xs' => select mask' xs'
  | _, _ => []
  end.

Definition series_select (mask : list bool) (s : Series) : Series :=
  match s with
  | NumCol cells => NumCol (select mask cells)
  | DateCol cells => DateCol (select mask cells)
  | ObjCol cells => ObjCol (select mask cells)
  end.

(** [df.drop_duplicates()]: an empty frame is returned as it is, otherwise
    the first occurrence of every row is kept. *)
Definition drop_duplicates (df : DataFrame) : DataFrame :=
  if empty df then df
  else
    let keep := map negb (duplicated df) in
    mkDataFrame (List.length (filter (fun b => b) keep))
      (map (fun cs => (fst cs, series_select keep (snd cs))) (columns df)).

(** *** Reductions *)

Fixpoint dropna {A : Type} (cells : list (option A)) : list A :=
  match cells with
  | [] => []
  | Some x :: cells' => x :: dropna cells'
  | None :: cells' => dropna cells'
  end.

Definition fillna {A : Type} (v : A) (cells : list (option A)) : list (option A) :=
  map (fun c => match c with None => Some v | Some x => Some x end) cells.

Fixpoint insert_sorted (x : Q) (l : list Q) : list Q :=
  match l with
  | [] => [x]
  | y :: l' => if Qle_bool x y then x :: l else y :: insert_sorted x l'
  end.

Definition sort_values (l : list Q) : list Q := fold_right insert_sorted [] l.

Definition Qsum (l : list Q) : Q := fold_right Qplus 0%Q l.

Definition Qof_nat (n : nat) : Q := inject_Z (Z.of_nat n).

(** [s.median()] over the non-null values; NaN when there is none. *)
Definition median (cells : list (option Q)) : float :=
  let xs := sort_values (dropna cells) in
  let n := List.length xs in
  if n =? 0 then None
  else if Nat.odd n then Some (nth (n / 2) xs 0%Q)
  else Some (Qred ((nth (n / 2 - 1) xs 0%Q + nth (n / 2) xs 0%Q) / 2)%Q).

(** [s.mean()] over the non-null values. *)
Definition mean (cells : list (option Q)) : float :=
  let xs := dropna cells in
  if List.length xs =? 0 then None
  else Some (Qred (Qsum xs / Qof_nat (List.length xs))%Q).

(** [s.mode()]: the most frequent non-null values, in ascending order.
    The section is generic in the value type, given its equality and
    its order. *)
Section Mode.
Context {A : Type} (eqb ltb : A -> A -> bool).

Definition occurrences (x : A) (xs : list A) : nat :=
  List.length (filter (eqb x) xs).

Fixpoint insert_asc (x : A) (l : list A) : list A :=
  match l with
  | [] => [x]
  | y :: l' =>
      if eqb x y then l
      else if ltb x y then x :: l
      else y :: insert_asc x l'
  end.

Definition max_occurrences (xs : list A) : nat :=
  fold_right (fun x m => Nat.max (occurrences x xs) m) 0 xs.

Definition mode (cells : list (option A)) : list A :=
  let xs := dropna cells in
  let top := max_occurrences xs in
  fold_right insert_asc [] (filter (fun x => occurrences x xs =? top) xs).
End Mode.

Definition mode_num : list (option Q) -> list Q := mode Qeq_bool Qltb.
Definition mode_date : list (option Z) -> list Z := mode Z.eqb Z.ltb.
Definition mode_obj : list (option string) -> list string :=
  mode String.eqb String.ltb.

End Pandas.


(** ** Column types, action records and the cleaning report *)

Inductive ColumnType : Type := numeric | categorical | datetime.

Definition ColumnType_eqb (a b : ColumnType) : bool :=
  match a, b with
  | numeric, numeric | categorical, categorical | datetime, datetime => true
  | _, _ => false
  end.

(** One entry of [cleaning_report]; the fields are what the f-string prints. *)
Inductive Action : Type :=
| RemovedDuplicates (removed : nat)
| DroppedColumn (col : string) (missing_pct : Q)
| FilledMedian (missing_count : nat) (col : string) (median_val : float)
| FilledUnknown (missing_count : nat) (col : string)
| FilledMode (missing_count : nat) (col : string) (mode_val : Pandas.Cell).

Module CleaningReport.
Record t : Type := mk {
  original_rows : nat;
  original_cols : nat;
  cleaned_rows : nat;
  cleaned_cols : nat;
  actions : list Action;
  column_types : list (string * ColumnType)
}.
End CleaningReport.

(** ** backend/modules/data_cleaner.py *)

Module DataCleaner.
Import Pandas.

Record t : Type := mk {
  df : DataFrame;
  original_shape : nat * nat;
  cleaning_report : list Action;
  column_types : list (string * ColumnType)
}.

(** [__init__]; [column_types] is set by [_detect_column_types] only. *)
Definition init (frame : DataFrame) : t := mk frame (shape frame) [] [].

Definition with_df (self : t) (frame : DataFrame) : t :=
  mk frame (original_shape self) (cleaning_report self) (column_types self).

Definition report_append (self : t) (a : Action) : t :=
  mk (df self) (original_shape self) (cleaning_report self ++ [a])
     (column_types self).

Definition with_column_types (self : t) (types : list (string * ColumnType)) : t :=
  mk (df self) (original_shape self) (cleaning_report self) types.

Definition _remove_duplicates (self : t) : t :=
  let before := len (df self) in
  let self := with_df self (drop_duplicates (df self)) in
  let after := len (df self) in
  if after <? before then report_append self (RemovedDuplicates (before - after))
  else self.

(** [(missing_count / len(self.df)) * 100] *)
Definition missing_pct (missing_count rows : nat) : Q :=
  (Qof_nat missing_count / Qof_nat rows * 100)%Q.

(** The body of the loop of [_handle_missing_values].  The division is
    reached with [missing_count > 0] only, so the index is not empty in an
    aligned frame. *)
Definition handle_missing_column (self : t) (col : string) : result t :=
  s <- getitem (df self) col ;;
  let missing_count := isna_sum s in
  if missing_count =? 0 then Ok self
  else
    let pct := missing_pct missing_count (len (df self)) in
    if Qltb 50 pct then
      Ok (report_append (with_df self (drop (df self) col))
            (DroppedColumn col pct))
    else
      match s with
      | NumCol cells =>
          let median_val := median cells in
          let filled :=
            match median_val with
            | Some m => fillna m cells
            | None => cells
            end in
          Ok (report_append (with_df self (setitem (df self) col (NumCol filled)))
                (FilledMedian missing_count col median_val))
      | ObjCol cells =>
          match mode_obj cells with
          | [] =>
              Ok (report_append
                    (with_df self
                       (setitem (df self) col (ObjCol (fillna "Unknown" cells))))
                    (FilledUnknown missing_count col))
          | mode_val :: _ =>
              Ok (report_append
                    (with_df self
                       (setitem (df self) col (ObjCol (fillna mode_val cells))))
                    (FilledMode missing_count col (CObj (Some mode_val))))
          end
      | DateCol cells =>
          match mode_date cells with
          | [] =>
              (* the mode is empty when every cell is NaT: the column turns
                 into an object column of the sentinel *)
              Ok (report_append
                    (with_df self
                       (setitem (df self) col
                          (ObjCol (map (fun _ => Some "Unknown") cells))))
                    (FilledUnknown missing_count col))
          | mode_val :: _ =>
              Ok (report_append
                    (with_df self
                       (setitem (df self) col (DateCol (fillna mode_val cells))))
                    (FilledMode missing_count col (CDate (Some mode_val))))
          end
      end.

(** The loop runs over the column index as it was when the loop started. *)
Definition _handle_missing_values (self : t) : result t :=
  for_each handle_missing_column (names (df self)) self.

Section TypeDetection.

(** [pd.to_datetime(column, errors='raise')] on an object column: [None]
    when the parse raises. *)
Variable to_datetime : list (option string) -> option (list (option Z)).

Definition detect_column (self : t) (col : string) : result t :=
  s <- getitem (df self) col ;;
  match s with
  | NumCol _ =>
      Ok (with_column_types self (assign col numeric (column_types self)))
  | DateCol _ =>
      Ok (with_column_types self (assign col datetime (column_types self)))
  | ObjCol cells =>
      match to_datetime cells with
      | Some stamps =>
          let self := with_df self (setitem (df self) col (DateCol stamps)) in
          Ok (with_column_types self (assign col datetime (column_types self)))
      | None =>
          Ok (with_column_types self (assign col categorical (column_types self)))
      end
  end.

Definition _detect_column_types (self : t) : result t :=
  for_each detect_column (names (df self)) (with_column_types self []).

Definition clean (self : t) : result (DataFrame * CleaningReport.t) :=
  let self := _remove_duplicates self in
  self <- _handle_missing_values self ;;
  self <- _detect_column_types self ;;
  Ok (df self,
      CleaningReport.mk (fst (original_shape self)) (snd (original_shape self))
        (fst (shape (df self))) (snd (shape (df self)))
        (cleaning_report self) (column_types self)).

End TypeDetection.

Module Preview.
Record t : Type := mk {
  columns : list string;
  data : list (list (string * Cell));
  shape : nat * nat;
  column_types : list (string * ColumnType)
}.
End Preview.

(** [df.head(rows).to_dict(orient='records')] *)
Definition head_records (frame : DataFrame) (rows : nat)
  : list (list (string * Cell)) :=
  map (fun i => map (fun cs => (fst cs, cell_at (snd cs) i)) (Pandas.columns frame))
      (seq 0 (Nat.min rows (len frame))).

Definition get_preview (self : t) (rows : nat) : Preview.t :=
  Preview.mk (names (df self)) (head_records (df self) rows)
    (Pandas.shape (df self)) (column_types self).

End DataCleaner.

(** A date parser to run the cleaner with: [YYYY-MM-DD], as the number
    [YYYYMMDD]; a column parses when every non-null cell does. *)
Module IsoDate.

Definition digit (c : ascii) : option Z :=
  let n := nat_of_ascii c in
  if (48 <=? n) && (n <=? 57) then Some (Z.of_nat (n - 48)) else None.

Fixpoint digits (cs : list ascii) (acc : Z) : option Z :=
  match cs with
  | [] => Some acc
  | c :: cs' =>
      match digit c with
      | Some d => digits cs' (acc * 10 + d)%Z
      | None => None
      end
  end.

Definition parse (s : string) : option Z :=
  match list_ascii_of_string s with
  | [y1; y2; y3; y4; "-"%char; m1; m2; "-"%char; d1; d2] =>
      digits [y1; y2; y3; y4; m1; m2; d1; d2] 0%Z
  | _ => None
  end.

Fixpoint to_datetime (cells : list (option string)) : option (list (option Z)) :=
  match cells with
  | [] => Some []
  | None :: cells' => option_map (cons None) (to_datetime cells')
  | Some s :: cells' =>
      match parse s, to_datetime cells' with
      | Some d, Some ds => Some (Some d :: ds)
      | _, _ => None
      end
  end.

End IsoDate.

(** The same parser, reading the text [NaT] as a missing timestamp, which
    [pd.to_datetime] does. *)
Module IsoDateNaT.

Fixpoint to_datetime (cells : list (option string)) : option (list (option Z)) :=
  match cells with
  | [] => Some []
  | None :: cells' => option_map (cons None) (to_datetime cells')
  | Some s :: cells' =>
      if String.eqb s "NaT" then option_map (cons None) (to_datetime cells')
      else
        match IsoDate.parse s, to_datetime cells' with
        | Some d, Some ds => Some (Some d :: ds)
        | _, _ => None
        end
  end.

End IsoDateNaT.

(** ** backend/modules/stats_engine.py *)

Module Overview.
Record t : Type := mk {
  total_rows : nat;
  total_columns : nat;
  numeric_columns : nat;
  categorical_columns : nat;
  datetime_columns : nat
}.
End Overview.

Module NumericStats.
Record t : Type := mk {
  mean : float;
  median : float;
  mode : float;
  std : float;
  min : float;
  max : float;
  q1 : float;
  q3 : float;
  sum : float;
  count : nat
}.
End NumericStats.

Module CategoricalStats.
Record t : Type := mk {
  unique_values : nat;
  most_common : Pandas.Cell;
  most_common_count : nat;
  top_5 : list (Pandas.Cell * nat)
}.
End CategoricalStats.

Module Correlation.
Record t : Type := mk {
  col1 : string;
  col2 : string;
  correlation : float
}.
End Correlation.

Module Correlations.
Record t : Type := mk {
  matrix : list (string * list (string * float));
  top_correlations : list Correlation.t
}.
End Correlations.

Module Stats.
(** [correlations] is [None] for the empty dict [{}]. *)
Record t : Type := mk {
  overview : Overview.t;
  numeric_stats : list (string * NumericStats.t);
  categorical_stats : list (string * CategoricalStats.t);
  correlations : option Correlations.t
}.
End Stats.

Definition float_lt (a b : float) : bool :=
  match a, b with
  | Some x, Some y => Qltb x y
  | _, _ => false
  end.

Module StatsEngine.
Import Pandas.

Definition TypeMap := list (string * ColumnType).

(** [[col for col, type_ in column_types.items() if type_ == ty]] *)
Definition cols_of_type (ty : ColumnType) (column_types : TypeMap) : list string :=
  map fst (filter (fun ct => ColumnType_eqb (snd ct) ty) column_types).

Definition count_of_type (ty : ColumnType) (column_types : TypeMap) : nat :=
  List.length (filter (fun ct => ColumnType_eqb (snd ct) ty) column_types).

Definition _get_overview (df : DataFrame) (column_types : TypeMap) : Overview.t :=
  Overview.mk (len df) (List.length (columns df))
    (count_of_type numeric column_types)
    (count_of_type categorical column_types)
    (count_of_type datetime column_types).

Section Numeric.

(** The square root of the float arithmetic. *)
Variable sqrt : Q -> Q.

Definition sum_sq_dev (m : Q) (xs : list Q) : Q :=
  Qsum (map (fun x => ((x - m) * (x - m))%Q) xs).

(** [s.std()]: sample standard deviation, NaN below two values.  This is
    the exact value, up to the square root; pandas returns its double
    precision approximation, which can be positive where this is zero. *)
Definition std (cells : list (option Q)) : float :=
  let xs := dropna cells in
  let n := List.length xs in
  if n <? 2 then None
  else
    let m := (Qsum xs / Qof_nat n)%Q in
    Some (sqrt (Qred (sum_sq_dev m xs / Qof_nat (n - 1))%Q)).

Definition Qmin_list (xs : list Q) : float :=
  match xs with
  | [] => None
  | x :: xs' => Some (fold_left (fun a b => if Qle_bool a b then a else b) xs' x)
  end.

Definition Qmax_list (xs : list Q) : float :=
  match xs with
  | [] => None
  | x :: xs' => Some (fold_left (fun a b => if Qle_bool a b then b else a) xs' x)
  end.

(** [s.quantile(q)] with linear interpolation between the closest ranks. *)
Definition quantile (q : Q) (cells : list (option Q)) : float :=
  let xs := sort_values (dropna cells) in
  let n := List.length xs in
  if n =? 0 then None
  else
    let pos := (q * Qof_nat (n - 1))%Q in
    let lo := Z.to_nat (Qfloor pos) in
    let frac := (pos - inject_Z (Qfloor pos))%Q in
    let a := nth lo xs 0%Q in
    let b := nth (Nat.min (lo + 1) (n - 1)) xs 0%Q in
    Some (Qred (a + (b - a) * frac)%Q).

(** The dict literal of [_get_numeric_stats]; the [except] clause skips a
    column that is absent or not of a numeric dtype.  The entries are the
    exact values of the summaries that pandas computes in double precision
    (int64 sums that overflow aside); columns of booleans, which pandas
    counts as numeric, are outside the embedding. *)
Definition numeric_stats_of (s : Series) : option NumericStats.t :=
  match s with
  | NumCol cells =>
      Some (NumericStats.mk
              (mean cells)
              (median cells)
              (match mode_num cells with
               | m :: _ => Some m
               | [] => Some 0%Q
               end)
              (std cells)
              (Qmin_list (dropna cells))
              (Qmax_list (dropna cells))
              (quantile (1 # 4) cells)
              (quantile (3 # 4) cells)
              (Some (Qred (Qsum (dropna cells))))
              (List.length (dropna cells)))
  | _ => None
  end.

Definition _get_numeric_stats (df : DataFrame) (column_types : TypeMap)
  : list (string * NumericStats.t) :=
  let numeric_cols := cols_of_type numeric column_types in
  fold_left
    (fun stats col =>
       match lookup col (columns df) with
       | Some s =>
           match numeric_stats_of s with
           | Some st => assign col st stats
           | None => stats
           end
       | None => stats
       end)
    numeric_cols [].

(** The non-null values of a column, as cells. *)
Definition values (s : Series) : list Cell :=
  match s with
  | NumCol cells => map (fun x => CNum (Some x)) (dropna cells)
  | DateCol cells => map (fun x => CDate (Some x)) (dropna cells)
  | ObjCol cells => map (fun x => CObj (Some x)) (dropna cells)
  end.

Fixpoint bump (v : Cell) (counts : list (Cell * nat)) : list (Cell * nat) :=
  match counts with
  | [] => [(v, 1)]
  | (w, n) :: counts' =>
      if cell_eqb v w then (w, S n) :: counts' else (w, n) :: bump v counts'
  end.

Fixpoint insert_by_count (e : Cell * nat) (l : list (Cell * nat)) : list (Cell * nat) :=
  match l with
  | [] => [e]
  | e' :: l' =>
      if snd e <? snd e' then e' :: insert_by_count e l' else e :: l
  end.

(** [s.value_counts()]: distinct non-null values with their counts, most
    frequent first; equally frequent values stay in order of first
    appearance. *)
Definition value_counts (s : Series) : list (Cell * nat) :=
  fold_right insert_by_count [] (fold_left (fun acc v => bump v acc) (values s) []).

Definition categorical_stats_of (s : Series) : CategoricalStats.t :=
  let counts := value_counts s in
  CategoricalStats.mk
    (List.length counts)
    (match counts with
     | (v, _) :: _ => v
     | [] => CObj (Some "N/A")
     end)
    (match counts with
     | (_, n) :: _ => n
     | [] => 0
     end)
    (firstn 5 counts).

Definition _get_categorical_stats (df : DataFrame) (column_types : TypeMap)
  : list (string * CategoricalStats.t) :=
  let categorical_cols := cols_of_type categorical column_types in
  fold_left
    (fun stats col =>
       match lookup col (columns df) with
       | Some s => assign col (categorical_stats_of s) stats
       | None => stats
       end)
    categorical_cols [].

(** *** Correlations *)

Fixpoint complete_pairs (xs ys : list (option Q)) : list (Q * Q) :=
  match xs, ys with
  | Some x :: xs', Some y :: ys' => (x, y) :: complete_pairs xs' ys'
  | _ :: xs', _ :: ys' => complete_pairs xs' ys'
  | _, _ => []
  end.

(** One entry of [DataFrame.corr()]: Pearson's coefficient over the rows
    where both columns have a value; NaN without such a row or with a zero
    divisor. *)
Definition pearson (xs ys : list (option Q)) : float :=
  let ps := complete_pairs xs ys in
  let n := List.length ps in
  if n =? 0 then None
  else
    let mx := (Qsum (map fst ps) / Qof_nat n)%Q in
    let my := (Qsum (map snd ps) / Qof_nat n)%Q in
    let ssx := sum_sq_dev mx (map fst ps) in
    let ssy := sum_sq_dev my (map snd ps) in
    let sxy := Qsum (map (fun p => ((fst p - mx) * (snd p - my))%Q) ps) in
    let divisor := sqrt (Qred (ssx * ssy)%Q) in
    if Qeq_bool divisor 0 then None else Some (Qred (sxy / divisor)%Q).

(** [self.df[numeric_cols]]: raises when a label is absent; [corr()] raises
    on a column that is not numeric. *)
Fixpoint numeric_frame (df : DataFrame) (cols : list string)
  : option (list (string * list (option Q))) :=
  match cols with
  | [] => Some []
  | col :: cols' =>
      match lookup col (columns df), numeric_frame df cols' with
      | Some (NumCol cells), Some rest => Some ((col, cells) :: rest)
      | _, _ => None
      end
  end.

Definition corr (frame : list (string * list (option Q)))
  : list (string * list (string * float)) :=
  map (fun c => (fst c, map (fun r => (fst r, pearson (snd r) (snd c))) frame))
      frame.

(** [corr_matrix.iloc[i, j]] *)
Definition iloc (corr_matrix : list (string * list (string * float))) (i j : nat)
  : float :=
  snd (nth i (snd (nth j corr_matrix ("", []))) ("", None)).

Fixpoint insert_desc (e : Correlation.t) (l : list Correlation.t)
  : list Correlation.t :=
  match l with
  | [] => [e]
  | e' :: l' =>
      if float_lt (float_abs (Correlation.correlation e))
                  (float_abs (Correlation.correlation e'))
      then e' :: insert_desc e l'
      else e :: l
  end.

(** [correlations.sort(key=lambda x: abs(x['correlation']), reverse=True)]:
    stable, largest absolute value first.  This is the order of [list.sort]
    when no coefficient is NaN; with a NaN key the order of [list.sort]
    depends on the comparisons its algorithm happens to make, and the
    properties on the order below are stated for coefficients without
    NaN. *)
Definition sort_correlations (l : list Correlation.t) : list Correlation.t :=
  fold_right insert_desc [] l.

Definition _get_correlations (df : DataFrame) (column_types : TypeMap)
  : option Correlations.t :=
  let numeric_cols := cols_of_type numeric column_types in
  if List.length numeric_cols <? 2 then None
  else
    match numeric_frame df numeric_cols with
    | None => None
    | Some frame =>
        let corr_matrix := corr frame in
        let k := List.length corr_matrix in
        let correlations :=
          flat_map
            (fun i =>
               map (fun j =>
                      Correlation.mk (fst (nth i corr_matrix ("", [])))
                                     (fst (nth j corr_matrix ("", [])))
                                     (iloc corr_matrix i j))
                   (seq (i + 1) (k - (i + 1))))
            (seq 0 k) in
        Some (Correlations.mk corr_matrix
                (firstn 5 (sort_correlations correlations)))
    end.

Definition calculate_all (df : DataFrame) (column_types : TypeMap) : Stats.t :=
  Stats.mk (_get_overview df column_types)
           (_get_numeric_stats df column_types)
           (_get_categorical_stats df column_types)
           (_get_correlations df column_types).

End Numeric.

End StatsEngine.

(** ** backend/modules/insight_engine.py *)

(** One insight string; the fields are what the f-string prints. *)
Inductive Insight : Type :=
| HighVariability (col : string) (cv min_val max_val : float)
| ConsistentValues (col : string) (mean_val std_val : float)
| Dominates (most_common : Pandas.Cell) (col : string) (percentage : Q)
| UniqueValues (col : string) (unique_count : nat) (most_common : Pandas.Cell)
    (percentage : Q)
| Trend (col : string) (upward : bool) (magnitude : Float64.t)
| StrongCorrelation (positive : bool) (corr_val : float) (col1 col2 : string)
| DataQuality (total_rows total_cols : nat).

Module InsightEngine.
Import Pandas.

(** Division of Python floats: a zero divisor raises, NaN propagates. *)
Definition float_div (a b : float) : result float :=
  match b with
  | Some y =>
      if Qeq_bool y 0 then Raise ZeroDivisionError
      else Ok (option_map (fun x => Qred (x / y)%Q) a)
  | None => Ok None
  end.

Definition float_mul (a : float) (b : Q) : float :=
  option_map (fun x => Qred (x * b)%Q) a.

(** The body of the loop of [_analyze_numeric_columns]. *)
Definition numeric_rule (insights : list Insight)
    (item : string * NumericStats.t) : result (list Insight) :=
  let col := fst item in
  let col_stats := snd item in
  let max_val := NumericStats.max col_stats in
  let min_val := NumericStats.min col_stats in
  let mean_val := NumericStats.mean col_stats in
  let std_val := NumericStats.std col_stats in
  if float_gt std_val 0 then
    q <- float_div std_val mean_val ;;
    let cv := float_mul q 100 in
    if float_gt cv 50 then
      Ok (insights ++ [HighVariability col cv min_val max_val])
    else
      Ok (insights ++ [ConsistentValues col mean_val std_val])
  else Ok insights.

Definition _analyze_numeric_columns (stats : Stats.t) (insights : list Insight)
  : result (list Insight) :=
  for_each numeric_rule (Stats.numeric_stats stats) insights.

(** The body of the loop of [_analyze_categorical_columns]; both operands of
    the division are Python integers. *)
Definition categorical_rule (total_rows : nat) (insights : list Insight)
    (item : string * CategoricalStats.t) : result (list Insight) :=
  let col := fst item in
  let col_stats := snd item in
  let most_common := CategoricalStats.most_common col_stats in
  let most_common_count := CategoricalStats.most_common_count col_stats in
  if total_rows =? 0 then Raise ZeroDivisionError
  else
    let percentage :=
      Qred (Qof_nat most_common_count / Qof_nat total_rows * 100)%Q in
    if Qltb 50 percentage then
      Ok (insights ++ [Dominates most_common col percentage])
    else
      let unique_count := CategoricalStats.unique_values col_stats in
      Ok (insights ++ [UniqueValues col unique_count most_common percentage]).

Definition _analyze_categorical_columns (stats : Stats.t) (insights : list Insight)
  : result (list Insight) :=
  for_each (categorical_rule (Overview.total_rows (Stats.overview stats)))
    (Stats.categorical_stats stats) insights.

(** [((second - first) / first) * 100] on numpy doubles: three operations,
    each rounded. *)
Definition change_pct (first_half_mean second_half_mean : Float64.t) : Float64.t :=
  Float64.mul
    (Float64.div (Float64.sub second_half_mean first_half_mean) first_half_mean)
    (Float64.of_Z 100).

Section Trends.

(** [np.mean] of a slice of a numeric column: the double that numpy's
    summation and division give, NaN when a value is NaN or the slice is
    empty. *)
Variable np_mean : list (option Q) -> Float64.t.

(** The body of the loop of [_analyze_trends]; [np.mean] raises on a column
    that is not numeric. *)
Definition trend_rule (df : DataFrame) (insights : list Insight) (col : string)
  : result (list Insight) :=
  s <- getitem df col ;;
  if series_len s <? 3 then Ok insights
  else
    match s with
    | NumCol values =>
        let mid_point := List.length values / 2 in
        let first_half_mean := np_mean (firstn mid_point values) in
        let second_half_mean := np_mean (skipn mid_point values) in
        if Float64.gt first_half_mean (Float64.of_Z 0) then
          let change := change_pct first_half_mean second_half_mean in
          if Float64.gt (Float64.abs change) (Float64.of_Z 10) then
            let trend := Float64.gt change (Float64.of_Z 0) in
            Ok (insights ++ [Trend col trend (Float64.abs change)])
          else Ok insights
        else Ok insights
    | _ => Raise TypeError
    end.

Definition _analyze_trends (df : DataFrame) (column_types : StatsEngine.TypeMap)
    (insights : list Insight) : result (list Insight) :=
  let numeric_cols := StatsEngine.cols_of_type numeric column_types in
  for_each (trend_rule df) (firstn 2 numeric_cols) insights.

(** [correlations.get('top_correlations', [])] *)
Definition top_correlations_of (correlations : option Correlations.t)
  : list Correlation.t :=
  match correlations with
  | Some c => Correlations.top_correlations c
  | None => []
  end.

Definition _analyze_correlations (stats : Stats.t) (insights : list Insight)
  : list Insight :=
  let top_corr := top_correlations_of (Stats.correlations stats) in
  match top_corr with
  | strongest :: _ =>
      let corr_val := Correlation.correlation strongest in
      if float_gt (float_abs corr_val) (7 # 10) then
        insights ++ [StrongCorrelation (float_gt corr_val 0) corr_val
                       (Correlation.col1 strongest) (Correlation.col2 strongest)]
      else insights
  | [] => insights
  end.

Definition _analyze_data_quality (stats : Stats.t) (insights : list Insight)
  : list Insight :=
  let overview := Stats.overview stats in
  let total_rows := Overview.total_rows overview in
  let total_cols := Overview.total_columns overview in
  insights ++ [DataQuality total_rows total_cols].

Definition generate_insights (df : DataFrame)
    (column_types : StatsEngine.TypeMap) (stats : Stats.t)
  : result (list Insight) :=
  insights <- _analyze_numeric_columns stats [] ;;
  insights <- _analyze_categorical_columns stats insights ;;
  insights <- _analyze_trends df column_types insights ;;
  let insights := _analyze_correlations stats insights in
  let insights := _analyze_data_quality stats insights in
  Ok (firstn 7 insights).

End Trends.

End InsightEngine.

(** ** backend/app.py: the upload and the analysis endpoints *)

Module App.
Import Pandas.

(** [except HTTPException: raise] /
    [except Exception as e: raise HTTPException(500, f'<prefix>: {str(e)}')];
    [str_of] is [str]. *)
Definition http_guard {A : Type} (str_of : Exception -> string) (prefix : string)
    (r : result A) : result A :=
  match r with
  | Ok a => Ok a
  | Raise (HTTPException code d) => Raise (HTTPException code d)
  | Raise e => Raise (HTTPException 500 (prefix ++ ": " ++ str_of e)%string)
  end.

Module Preview.
Record t : Type := mk {
  rows : nat;
  columns : nat;
  column_names : list string
}.
End Preview.

(** [upload_file], from the point where the file has been read into a
    frame. *)
Definition upload_file (str_of : Exception -> string) (df : DataFrame)
  : result Preview.t :=
  http_guard str_of "Error processing file"
    (if empty df then Raise (HTTPException 400 "File is empty")
     else Ok (Preview.mk (len df) (List.length (columns df)) (names df))).

Module Results.
Record t (Charts : Type) : Type := mk {
  cleaning_report : CleaningReport.t;
  preview : DataCleaner.Preview.t;
  statistics : Stats.t;
  charts : Charts;
  insights : list Insight
}.
Arguments mk {Charts}.
Arguments cleaning_report {Charts}.
Arguments preview {Charts}.
Arguments statistics {Charts}.
Arguments charts {Charts}.
Arguments insights {Charts}.
End Results.

Section Analyze.

Variable to_datetime : list (option string) -> option (list (option Z)).
Variable sqrt : Q -> Q.
Variable np_mean : list (option Q) -> Float64.t.
Variable str_of : Exception -> string.

(** The chart collaborator, [ChartGenerator(...).generate_all()]. *)
Variable Charts : Type.
Variable generate_all : DataFrame -> StatsEngine.TypeMap -> result Charts.

(** [analyze_data]; [file] is the frame read from [request.filepath], [None]
    when the path does not exist.  The cleaner object after [clean()] holds
    the cleaned frame and the type map that the report carries, which is
    what [get_preview] reads.  [clean_nan_values] maps NaN to [None], which
    is what NaN is here already. *)
Definition analyze_data (file : option DataFrame) : result (Results.t Charts) :=
  http_guard str_of "Error analyzing data"
    (match file with
     | None => Raise (HTTPException 400 "Invalid file path")
     | Some df =>
         cleaned <- DataCleaner.clean to_datetime (DataCleaner.init df) ;;
         let cleaned_df := fst cleaned in
         let cleaning_report := snd cleaned in
         let column_types := CleaningReport.column_types cleaning_report in
         let stats := StatsEngine.calculate_all sqrt cleaned_df column_types in
         charts <- generate_all cleaned_df column_types ;;
         insights <-
           InsightEngine.generate_insights np_mean cleaned_df column_types stats ;;
         let preview :=
           DataCleaner.get_preview
             (DataCleaner.mk cleaned_df (shape df)
                (CleaningReport.actions cleaning_report) column_types) 10 in
         Ok (Results.mk cleaning_report preview stats charts insights)
     end).

End Analyze.

End App.

(** A square root to run the statistics with: six decimal places, rounded
    down. *)
Module Approx.

Definition sqrt (q : Q) : Q :=
  Qred (Z.sqrt (Qnum q * 1000000000000 / Z.pos (Qden q)) # 1000000).

End Approx.

(** ** backend/app.py: helper functions *)

Module AppHelpers.

(** Text is a sequence of bytes; [lower] acts on the ASCII letters, which
    is all that a comparison with an ASCII word can see. *)
Definition lower_char (c : ascii) : ascii :=
  let n := nat_of_ascii c in
  if (65 <=? n) && (n <=? 90) then ascii_of_nat (n + 32) else c.

Fixpoint lower (s : string) : string :=
  match s with
  | EmptyString => EmptyString
  | String c s' => String (lower_char c) (lower s')
  end.

(** [c in s] *)
Fixpoint contains_char (c : ascii) (s : string) : bool :=
  match s with
  | EmptyString => false
  | String c' s' => Ascii.eqb c c' || contains_char c s'
  end.

(** [s.rsplit('.', 1)]: the text before and the text after the last dot,
    [None] for the one-element list of a text without a dot. *)
Fixpoint rsplit_dot (s : string) : option (string * string) :=
  match s with
  | EmptyString => None
  | String c s' =>
      match rsplit_dot s' with
      | Some (before, after) => Some (String c before, after)
      | None => if Ascii.eqb c "."%char then Some (EmptyString, s') else None
      end
  end.

Definition ALLOWED_EXTENSIONS : list string := ["csv"; "xlsx"; "xls"].

Definition allowed_file (filename : string) : bool :=
  contains_char "."%char filename
  && match rsplit_dot filename with
     | Some (_, ext) => existsb (String.eqb (lower ext)) ALLOWED_EXTENSIONS
     | None => false
     end.

(** Python floats with their special values. *)
Inductive PyFloat : Type :=
| Finite (q : Q)
| NaN
| PosInf
| NegInf.

(** The objects [clean_nan_values] meets in a result: dicts, lists, floats,
    and everything else ([None], text, integers, booleans, tuples), which
    it returns as it is.  The keys of a dict are objects of the last
    kind. *)
#[warnings="-register-all"] Inductive PyObj : Type :=
| PDict (items : list (PyObj * PyObj))
| PList (items : list PyObj)
| PFloat (f : PyFloat)
| PNone
| PStr (s : string)
| PInt (z : Z)
| PBool (b : bool)
| PTuple (items : list PyObj).

(** [np.isnan(obj) or np.isinf(obj)] *)
Definition isnan_or_isinf (f : PyFloat) : bool :=
  match f with
  | Finite _ => false
  | _ => true
  end.

Fixpoint clean_nan_values (obj : PyObj) : PyObj :=
  match obj with
  | PDict items =>
      PDict (map (fun kv => (fst kv, clean_nan_values (snd kv))) items)
  | PList items => PList (map clean_nan_values items)
  | PFloat f => if isnan_or_isinf f then PNone else PFloat f
  | other => other
  end.

End AppHelpers.

(** ** backend/modules/plotly_chart_generator.py and its endpoint *)

Module PlotlyChartGenerator.
Import Pandas.

(** [col in self.df.columns] *)
Definition has_column (df : DataFrame) (col : string) : bool :=
  existsb (String.eqb col) (names df).

(** [self.column_types.get(col) != ty] *)
Definition type_is (column_types : StatsEngine.TypeMap) (col : string)
    (ty : ColumnType) : bool :=
  match lookup col column_types with
  | Some ty' => ColumnType_eqb ty' ty
  | None => false
  end.

Section Figures.

(** The figures are built by the plotting library; building one may
    raise. *)
Variable Figure : Type.
Variable line_figure bar_figure histogram_figure box_figure pie_figure :
  DataFrame -> StatsEngine.TypeMap -> string -> result Figure.
Variable scatter_figure :
  DataFrame -> StatsEngine.TypeMap -> string -> string -> result Figure.

(** The two guards every generator starts with, then the figure. *)
Definition guarded (ty : ColumnType)
    (figure : DataFrame -> StatsEngine.TypeMap -> string -> result Figure)
    (df : DataFrame) (column_types : StatsEngine.TypeMap) (column_name : string)
  : result (option Figure) :=
  if negb (has_column df column_name) then Ok None
  else if negb (type_is column_types column_name ty) then Ok None
  else fig <- figure df column_types column_name ;; Ok (Some fig).

Definition generate_line_chart := guarded numeric line_figure.
Definition generate_bar_chart := guarded categorical bar_figure.
Definition generate_histogram := guarded numeric histogram_figure.
Definition generate_box_plot := guarded numeric box_figure.

(** The whole body of [generate_pie_chart] is inside [try]: an exception
    gives [None]. *)
Definition generate_pie_chart (df : DataFrame)
    (column_types : StatsEngine.TypeMap) (column_name : string)
  : result (option Figure) :=
  match guarded categorical pie_figure df column_types column_name with
  | Ok r => Ok r
  | Raise _ => Ok None
  end.

Definition generate_scatter (df : DataFrame)
    (column_types : StatsEngine.TypeMap) (x_col y_col : string)
  : result (option Figure) :=
  if negb (has_column df x_col) || negb (has_column df y_col) then Ok None
  else if negb (type_is column_types x_col numeric)
          || negb (type_is column_types y_col numeric) then Ok None
  else fig <- scatter_figure df column_types x_col y_col ;; Ok (Some fig).

End Figures.

End PlotlyChartGenerator.

Module ChartEndpoint.
Import Pandas.

Definition dquote : string := String (ascii_of_nat 34) EmptyString.

(** [cleaning_report['column_types'].get(column_name, 'unknown')] inside
    the f-string *)
Definition col_type_text (column_types : StatsEngine.TypeMap) (column_name : string)
  : string :=
  match lookup column_name column_types with
  | Some numeric => "numeric"
  | Some categorical => "categorical"
  | Some datetime => "datetime"
  | None => "unknown"
  end.

Definition cannot_generate (chart_type column_name col_type : string) : string :=
  ("Cannot generate " ++ chart_type ++ " chart for column " ++ dquote
   ++ column_name ++ dquote ++ " (type: " ++ col_type ++ ")")%string.

Module Response.
Record t (Figure : Type) : Type := mk {
  chart : Figure;
  column_name : string;
  chart_type : string
}.
Arguments mk {Figure}.
Arguments chart {Figure}.
Arguments column_name {Figure}.
Arguments chart_type {Figure}.
End Response.

Section Endpoint.

Variable to_datetime : list (option string) -> option (list (option Z)).
Variable str_of : Exception -> string.
Variable Figure : Type.
Variable line_figure bar_figure histogram_figure box_figure pie_figure :
  DataFrame -> StatsEngine.TypeMap -> string -> result Figure.

(** [generate_plotly_chart]; [file] is the frame read from
    [request.filepath], [None] when the path does not exist.  A figure
    dict is never empty, so [not chart_config] means [None]. *)
Definition generate_plotly_chart (file : option DataFrame)
    (column_name chart_type : string) : result (Response.t Figure) :=
  App.http_guard str_of "Error generating chart"
    (match file with
     | None => Raise (HTTPException 400 "Invalid file path")
     | Some df =>
         if String.eqb column_name "" then
           Raise (HTTPException 400 "Column name is required")
         else
           cleaned <- DataCleaner.clean to_datetime (DataCleaner.init df) ;;
           let cleaned_df := fst cleaned in
           let column_types := CleaningReport.column_types (snd cleaned) in
           chart_config <-
             (if String.eqb chart_type "line" then
                PlotlyChartGenerator.generate_line_chart Figure line_figure
                  cleaned_df column_types column_name
              else if String.eqb chart_type "bar" then
                PlotlyChartGenerator.generate_bar_chart Figure bar_figure
                  cleaned_df column_types column_name
              else if String.eqb chart_type "histogram" then
                PlotlyChartGenerator.generate_histogram Figure histogram_figure
                  cleaned_df column_types column_name
              else if String.eqb chart_type "box" then
                PlotlyChartGenerator.generate_box_plot Figure box_figure
                  cleaned_df column_types column_name
              else if String.eqb chart_type "pie" then
                PlotlyChartGenerator.generate_pie_chart Figure pie_figure
                  cleaned_df column_types column_name
              else Raise (HTTPException 400 "Invalid chart type")) ;;
           match chart_config with
           | None =>
               Raise (HTTPException 400
                        (cannot_generate chart_type column_name
                           (col_type_text column_types column_name)))
           | Some fig => Ok (Response.mk fig column_name chart_type)
           end
     end).

End Endpoint.

End ChartEndpoint.

(** ** backend/modules/agent_engine.py: the suggested questions *)

Module AgentEngine.

(** A data context that is not the empty dict; the key ['column_types'] may
    be absent. *)
Module DataContext.
Record t : Type := mk {
  filename : string;
  rows : nat;
  columns : list string;
  column_types : option StatsEngine.TypeMap;
  statistics : option Stats.t
}.
End DataContext.

(** [data_context] is [None] for the empty dict, which is what the
    constructor stores when it is given nothing. *)
Definition generate_suggested_questions (data_context : option DataContext.t)
  : list string :=
  match data_context with
  | None =>
      ["Upload a dataset to get started";
       "What kind of analysis can you do?";
       "How do I use ZeroAnalyst?"]
  | Some ctx =>
      let suggestions :=
        ["Give me an overview of this dataset";
         "What are the key insights from this data?"] in
      let suggestions :=
        match DataContext.column_types ctx with
        | Some column_types =>
            let numeric_cols := StatsEngine.cols_of_type numeric column_types in
            let categorical_cols :=
              StatsEngine.cols_of_type categorical column_types in
            let suggestions :=
              match numeric_cols with
              | first :: rest =>
                  let suggestions :=
                    suggestions ++ [("Show me the trend for " ++ first)%string] in
                  match rest with
                  | second :: _ =>
                      suggestions
                      ++ [("What's the correlation between " ++ first
                           ++ " and " ++ second ++ "?")%string]
                  | [] => suggestions
                  end
              | [] => suggestions
              end in
            match categorical_cols with
            | first :: _ =>
                suggestions ++ [("Break down the data by " ++ first)%string]
            | [] => suggestions
            end
        | None => suggestions
        end in
      let suggestions :=
        suggestions ++ ["Are there any anomalies or outliers?"] in
      let suggestions :=
        suggestions ++ ["What patterns can you find in this data?"] in
      firstn 6 suggestions
  end.

End AgentEngine.

(** ** backend/modules/tool_registry.py: the dataset summary *)

Module ToolRegistry.
Import Pandas.

(** One line of the summary: the count, the names shown, and whether the
    ellipsis follows. *)
Module Line.
Record t : Type := mk {
  count : nat;
  shown : list string;
  ellipsis : bool
}.
End Line.

(** The values [_get_data_summary] formats into its text. *)
Module Summary.
Record t : Type := mk {
  total_rows : nat;
  total_columns : nat;
  numeric_columns : Line.t;
  categorical_columns : Line.t;
  datetime_columns : Line.t;
  missing_values : nat
}.
End Summary.




End ToolRegistry.

(** ** Sample tables *)

Module Samples.
Import Pandas.

Definition num (z : Z) : option Q := Some (inject_Z z).

(** Ten rows: an id, a category with "A" six times and "B" four times, and
    a column without any value. *)
Definition scenario_a : DataFrame :=
  mkDataFrame 10
    [("id", NumCol (map num [1; 2; 3; 4; 5; 6; 7; 8; 9; 10]%Z));
     ("category",
      ObjCol (map Some ["A"; "A"; "A"; "A"; "A"; "A"; "B"; "B"; "B"; "B"]));
     ("empty_col", ObjCol (repeat None 10))].

(** Three of the five cells of "a" are missing, in three equal rows. *)
Definition repeated_gaps : DataFrame :=
  mkDataFrame 5
    [("a", NumCol [None; None; None; num 5; num 6]);
     ("b", NumCol (map num [1; 1; 1; 2; 3]%Z))].

(** Two rows that differ only by a missing cell. *)
Definition gap_twin : DataFrame :=
  mkDataFrame 2
    [("a", NumCol [num 1; num 1]);
     ("b", NumCol [None; num 5])].

(** One missing reading among four. *)
Definition readings : DataFrame :=
  mkDataFrame 4
    [("sensor", ObjCol [Some "n"; Some "e"; Some "s"; Some "w"]);
     ("value", NumCol [num 1; None; num 3; num 8])].

(** What [read_csv] makes of a file that holds a header line only. *)
Definition header_only : DataFrame := mkDataFrame 0 [("a", ObjCol [])].

(** A column [y = 2x] and a constant column. *)
Definition doubled : DataFrame :=
  mkDataFrame 4
    [("x", NumCol (map num [1; 2; 3; 4]%Z));
     ("y", NumCol (map num [2; 4; 6; 8]%Z));
     ("z", NumCol (map num [5; 5; 5; 5]%Z))].

(** Losses that double: the first half averages -10, the second -20. *)
Definition losses : DataFrame :=
  mkDataFrame 4 [("balance", NumCol (map num [-9; -11; -19; -21]%Z))].

(** Seven text columns of two distinct rows. *)
Definition seven_labels : DataFrame :=
  mkDataFrame 2
    (map (fun c => (c, ObjCol [Some "x"; Some "y"]))
         ["c1"; "c2"; "c3"; "c4"; "c5"; "c6"; "c7"]).

(** The statistics of one constant column: mean 5, standard deviation 0. *)
Definition constant_stats : NumericStats.t :=
  NumericStats.mk (num 5) (num 5) (num 5) (num 0) (num 5) (num 5) (num 5) (num 5)
    (num 20) 4.

Definition flat_bundle : Stats.t :=
  Stats.mk (Overview.mk 4 1 1 0 0) [("z", constant_stats)] [] None.

Definition all_numeric (frame : DataFrame) : StatsEngine.TypeMap :=
  map (fun c => (c, numeric)) (names frame).

Definition all_categorical (frame : DataFrame) : StatsEngine.TypeMap :=
  map (fun c => (c, categorical)) (names frame).

(** The mean of a slice whose sum is a double, as numpy computes it then:
    the sum is exact and the division rounds once.  This is so for the
    integer columns of the samples. *)
Definition mean64 (xs : list (option Q)) : Float64.t :=
  if (List.length xs =? 0) || existsb is_null xs then Float64.nan
  else
    let total := Qred (Qsum (dropna xs)) in
    Float64.div
      (Float64.div (Float64.of_Z (Qnum total)) (Float64.of_pos (Qden total)))
      (Float64.of_nat (List.length xs)).

(** A wording of the exceptions to run the endpoints with. *)
Definition exception_text (e : Exception) : string :=
  match e with
  | KeyError key => ("'" ++ key ++ "'")%string
  | TypeError => "unsupported operand type"
  | ZeroDivisionError => "float division by zero"
  | HTTPException _ detail => detail
  end.

(** A chart collaborator that draws nothing. *)
Definition no_charts (_ : DataFrame) (_ : StatsEngine.TypeMap) : result unit :=
  Ok tt.

End Samples.

(** ** More sample data *)

Module MoreSamples.
Import Pandas.


(** A column centred on zero. *)
Definition centred : DataFrame :=
  mkDataFrame 4 [("offset", NumCol (map Samples.num [-2; -1; 1; 2]%Z))].

(** The rows of [gap_twin] with a third row, and a column of days whose
    last cell is the text [NaT]. *)
Definition dated_twin : DataFrame :=
  mkDataFrame 3
    [("a", NumCol [Samples.num 1; Samples.num 1; Samples.num 2]);
     ("b", NumCol [None; Samples.num 5; Samples.num 5]);
     ("day", ObjCol [Some "2024-01-01"; Some "2024-01-01"; Some "NaT"])].

(** Readings that settle from 4 to 3. *)
Definition settling : DataFrame :=
  mkDataFrame 6 [("level", NumCol (map Samples.num [4; 3; 3; 3; 3; 3]%Z))].

(** A figure collaborator that draws the name of the column. *)
Definition named_figure (_ : DataFrame) (_ : StatsEngine.TypeMap) (col : string)
  : result string := Ok col.

(** A result with a NaN in a list, an infinity in a dict, and a tuple. *)
Definition raw_result : AppHelpers.PyObj :=
  AppHelpers.PDict
    [(AppHelpers.PStr "std", AppHelpers.PFloat AppHelpers.NaN);
     (AppHelpers.PStr "values",
      AppHelpers.PList [AppHelpers.PFloat (AppHelpers.Finite 1);
                        AppHelpers.PFloat AppHelpers.PosInf;
                        AppHelpers.PNone]);
     (AppHelpers.PStr "shape",
      AppHelpers.PTuple [AppHelpers.PInt 4; AppHelpers.PInt 2])].

End MoreSamples.

(** * Views used to state and prove the properties *)

(** ** The cleaner, column by column *)

Module CleanerView.
Import Pandas DataCleaner.

(** What the loop body does to the one column it looks at: the column that
    replaces it ([None] when it is dropped) and the records it appends. *)
Definition treat_column (rows : nat) (col : string) (s : Series)
  : option Series * list Action :=
  let missing_count := isna_sum s in
  if missing_count =? 0 then (Some s, [])
  else
    let pct := missing_pct missing_count rows in
    if Qltb 50 pct then (None, [DroppedColumn col pct])
    else
      match s with
      | NumCol cells =>
          (Some (NumCol match median cells with
                        | Some m => fillna m cells
                        | None => cells
                        end),
           [FilledMedian missing_count col (median cells)])
      | ObjCol cells =>
          match mode_obj cells with
          | [] => (Some (ObjCol (fillna "Unknown" cells)),
                   [FilledUnknown missing_count col])
          | mode_val :: _ =>
              (Some (ObjCol (fillna mode_val cells)),
               [FilledMode missing_count col (CObj (Some mode_val))])
          end
      | DateCol cells =>
          match mode_date cells with
          | [] => (Some (ObjCol (map (fun _ => Some "Unknown") cells)),
                   [FilledUnknown missing_count col])
          | mode_val :: _ =>
              (Some (DateCol (fillna mode_val cells)),
               [FilledMode missing_count col (CDate (Some mode_val))])
          end
      end.

(** The columns and the records that the pass leaves, column after column. *)
Definition survivor (rows : nat) (cs : string * Series) : list (string * Series) :=
  match fst (treat_column rows (fst cs) (snd cs)) with
  | Some s' => [(fst cs, s')]
  | None => []
  end.

Definition treat_columns (rows : nat) (l : list (string * Series)) :=
  flat_map (survivor rows) l.

Definition treat_actions (rows : nat) (l : list (string * Series)) : list Action :=
  flat_map (fun cs => snd (treat_column rows (fst cs) (snd cs))) l.

(** The column an action record names. *)
Definition action_col (a : Action) : option string :=
  match a with
  | RemovedDuplicates _ => None
  | DroppedColumn col _ => Some col
  | FilledMedian _ col _ => Some col
  | FilledUnknown _ col => Some col
  | FilledMode _ col _ => Some col
  end.

Section Detection.
Variable to_datetime : list (option string) -> option (list (option Z)).

(** What [_detect_column_types] makes of one column: the column, converted
    when it parses as dates, and its tag. *)
Definition detected (cs : string * Series) : (string * Series) * ColumnType :=
  match snd cs with
  | NumCol _ => (cs, numeric)
  | DateCol _ => (cs, datetime)
  | ObjCol cells =>
      match to_datetime cells with
      | Some stamps => ((fst cs, DateCol stamps), datetime)
      | None => (cs, categorical)
      end
  end.

Definition converted (cs : string * Series) : string * Series := fst (detected cs).
Definition tagged (cs : string * Series) : string * ColumnType :=
  (fst cs, snd (detected cs)).

(** A column of timestamps with gaps that the date conversion produced from
    a text column without gaps. *)
Definition parsed_with_gaps (s : Series) : Prop :=
  exists cells stamps,
    count_null cells = 0
    /\ to_datetime cells = Some stamps
    /\ s = DateCol stamps
    /\ 0 < count_null stamps.

End Detection.

Section Clean.
Variable to_datetime : list (option string) -> option (list (option Z)).

(** The frame after [_remove_duplicates], after [_handle_missing_values]
    and after [_detect_column_types]. *)
Definition deduplicated (frame : DataFrame) : DataFrame := drop_duplicates frame.

Definition imputed (frame : DataFrame) : DataFrame :=
  let d := deduplicated frame in
  mkDataFrame (index_len d) (treat_columns (index_len d) (columns d)).

Definition cleaned (frame : DataFrame) : DataFrame :=
  mkDataFrame (index_len (imputed frame))
    (map (converted to_datetime) (columns (imputed frame))).

(** The records of [_remove_duplicates] and the report of [clean]. *)
Definition dedup_actions (frame : DataFrame) : list Action :=
  if len (drop_duplicates frame) <? len frame
  then [RemovedDuplicates (len frame - len (drop_duplicates frame))]
  else [].

Definition cleaned_report (frame : DataFrame) : CleaningReport.t :=
  let d := deduplicated frame in
  CleaningReport.mk (index_len frame) (List.length (columns frame))
    (index_len (cleaned frame)) (List.length (columns (cleaned frame)))
    (dedup_actions frame ++ treat_actions (index_len d) (columns d))
    (map (tagged to_datetime) (columns (imputed frame))).

End Clean.

End CleanerView.

(** ** Counting pairs *)

Module Counting.

(** The number of ways to choose [k] among [n]. *)
Fixpoint binom (n k : nat) : nat :=
  match n, k with
  | _, 0 => 1
  | 0, S _ => 0
  | S n', S k' => binom n' k' + binom n' k
  end.

End Counting.

(** ** Loops that only append, and what they raise *)

Module InsightView.

(** What one turn of a loop body appends to the list it is given. *)
Definition emitted {A B : Type} (body : list B -> A -> result (list B)) (x : A)
  : list B :=
  match body [] x with
  | Ok l => l
  | Raise _ => []
  end.

(** A loop body that leaves the list it is given in place and only adds to
    its end. *)
Definition appends {A B : Type} (body : list B -> A -> result (list B)) : Prop :=
  forall acc x acc', body acc x = Ok acc' -> acc' = acc ++ emitted body x.

(** An observation other than the closing data-quality summary. *)
Definition not_summary (o : Insight) : Prop := forall r c, o <> DataQuality r c.

(** The exceptions the endpoints raise themselves, as opposed to those of
    the stages they call. *)
Definition is_http (e : Exception) : bool :=
  match e with
  | HTTPException _ _ => true
  | _ => false
  end.

End InsightView.

(** ** Readings of reports, columns, insights and results *)

Module Readings.
Import Pandas.

(** The rows and the columns that a list of action records accounts for. *)
Definition removed_rows (actions : list Action) : nat :=
  fold_right (fun a total =>
                match a with
                | RemovedDuplicates k => k + total
                | _ => total
                end) 0 actions.

Definition drops (col : string) (a : Action) : bool :=
  match a with
  | DroppedColumn c _ => String.eqb c col
  | _ => false
  end.

Definition dropped_in (actions : list Action) (col : string) : bool :=
  existsb (drops col) actions.

Definition dropped_count (actions : list Action) : nat :=
  List.length (filter (fun a => match a with
                                | DroppedColumn _ _ => true
                                | _ => false
                                end) actions).

(** The tag that goes with a dtype once detection has run. *)
Definition dtype_tag (s : Series) : ColumnType :=
  match s with
  | NumCol _ => numeric
  | DateCol _ => datetime
  | ObjCol _ => categorical
  end.

(** No row of the frame repeats an earlier one. *)
Definition rows_distinct (df : DataFrame) : Prop :=
  Forall (fun b => b = false) (duplicated df).

(** The kinds of observation, by the rule that emits them. *)
Definition is_variability (o : Insight) : bool :=
  match o with
  | HighVariability _ _ _ _ | ConsistentValues _ _ _ => true
  | _ => false
  end.

Definition is_categorical_obs (o : Insight) : bool :=
  match o with
  | Dominates _ _ _ | UniqueValues _ _ _ _ => true
  | _ => false
  end.

Definition is_trend (o : Insight) : bool :=
  match o with
  | Trend _ _ _ => true
  | _ => false
  end.

Definition is_correlation (o : Insight) : bool :=
  match o with
  | StrongCorrelation _ _ _ _ => true
  | _ => false
  end.

(** An entry of the numeric statistics on which the variability rule
    divides by zero, and a bundle on which some rule does. *)
Definition zero_mean_entry (item : string * NumericStats.t) : bool :=
  float_gt (NumericStats.std (snd item)) 0
  && match NumericStats.mean (snd item) with
     | Some m => Qeq_bool m 0
     | None => false
     end.

Definition divides_by_zero (stats : Stats.t) : bool :=
  existsb zero_mean_entry (Stats.numeric_stats stats)
  || ((Overview.total_rows (Stats.overview stats) =? 0)
      && negb (List.length (Stats.categorical_stats stats) =? 0)).



(** No NaN and no infinity is left where [clean_nan_values] looks: in the
    values of dicts and the items of lists. *)
Fixpoint json_safe (obj : AppHelpers.PyObj) : bool :=
  match obj with
  | AppHelpers.PDict items => forallb (fun kv => json_safe (snd kv)) items
  | AppHelpers.PList items => forallb json_safe items
  | AppHelpers.PFloat f => negb (AppHelpers.isnan_or_isinf f)
  | _ => true
  end.

(** The column type a chart type asks for, and the figure collaborator it
    uses. *)
Definition required_type (chart_type : string) : option ColumnType :=
  if String.eqb chart_type "line" then Some numeric
  else if String.eqb chart_type "bar" then Some categorical
  else if String.eqb chart_type "histogram" then Some numeric
  else if String.eqb chart_type "box" then Some numeric
  else if String.eqb chart_type "pie" then Some categorical
  else None.

Definition figure_for {F : Type} (line_figure bar_figure histogram_figure
    box_figure pie_figure : F) (chart_type : string) : F :=
  if String.eqb chart_type "line" then line_figure
  else if String.eqb chart_type "bar" then bar_figure
  else if String.eqb chart_type "histogram" then histogram_figure
  else if String.eqb chart_type "box" then box_figure
  else pie_figure.



End Readings.

(** * Properties of the cleaner *)

(** ** Comparisons *)

Lemma Qltb_lt (a b : Q) : Qltb a b = true <-> (a < b)%Q.
Proof.
  unfold Qltb. rewrite negb_true_iff. split; intro H.
  - apply Qnot_le_lt. intro Hle. apply Qle_bool_iff in Hle. congruence.
  - destruct (Qle_bool b a) eqn:E; [|reflexivity].
    apply Qle_bool_iff in E. exfalso. exact (Qlt_not_le _ _ H E).
Qed.


Lemma Qof_nat_pos (n : nat) : 0 < n -> (0 < Pandas.Qof_nat n)%Q.
Proof.
  intro Hn. unfold Pandas.Qof_nat. change 0%Q with (inject_Z 0).
  rewrite <- Zlt_Qlt. lia.
Qed.

(** The percentage test of the cleaner is the test "more than half". *)
Lemma missing_fraction_gt_half (c n : nat) :
  (1 # 2 < Pandas.Qof_nat c / Pandas.Qof_nat n)%Q
  <-> Qltb 50 (DataCleaner.missing_pct c n) = true.
Proof.
  rewrite Qltb_lt. unfold DataCleaner.missing_pct. split; intro H; lra.
Qed.

Lemma fraction_gt_half_nat (c n : nat) :
  0 < n -> (1 # 2 < Pandas.Qof_nat c / Pandas.Qof_nat n)%Q <-> n < 2 * c.
Proof.
  intro Hn. pose proof (Qof_nat_pos n Hn) as Hpos.
  assert (E : (Pandas.Qof_nat c / Pandas.Qof_nat n * Pandas.Qof_nat n
               == Pandas.Qof_nat c)%Q).
  { field. intro H0. rewrite H0 in Hpos. exact (Qlt_irrefl _ Hpos). }
  assert (Hz : (Pandas.Qof_nat n < 2 * Pandas.Qof_nat c)%Q <-> n < 2 * c).
  { unfold Pandas.Qof_nat. change 2%Q with (inject_Z 2).
    rewrite <- inject_Z_mult, <- Zlt_Qlt. lia. }
  rewrite <- Hz. split; intro H.
  - apply (Qmult_lt_r _ _ _ Hpos) in H. lra.
  - apply (Qmult_lt_r _ _ (Pandas.Qof_nat n) Hpos). lra.
Qed.

Lemma missing_pct_gt_50 (c n : nat) :
  0 < n -> Qltb 50 (DataCleaner.missing_pct c n) = true <-> n < 2 * c.
Proof.
  intro Hn. rewrite <- missing_fraction_gt_half. now apply fraction_gt_half_nat.
Qed.

Lemma missing_pct_full (n : nat) : 0 < n -> (DataCleaner.missing_pct n n == 100)%Q.
Proof.
  intro Hn. pose proof (Qof_nat_pos n Hn) as Hpos. unfold DataCleaner.missing_pct.
  field. intro H0. rewrite H0 in Hpos. exact (Qlt_irrefl _ Hpos).
Qed.

(** ** Labelled lists with distinct keys *)

Section Labelled.
Context {V : Type}.
Implicit Types (l pre post : list (string * V)) (k : string).

Lemma lookup_app_fresh k v pre post :
  ~ In k (map fst pre) ->
  Pandas.lookup k (pre ++ (k, v) :: post) = Some v.
Proof.
  induction pre as [|[k' v'] pre IH]; simpl; intro Hk.
  - now rewrite String.eqb_refl.
  - destruct (String.eqb_spec k k') as [->|_]; [tauto|]. apply IH. tauto.
Qed.

Lemma lookup_none k l : ~ In k (map fst l) -> Pandas.lookup k l = None.
Proof.
  induction l as [|[k' v'] l IH]; simpl; intro Hk; [reflexivity|].
  destruct (String.eqb_spec k k') as [->|_]; [tauto|]. apply IH. tauto.
Qed.

Lemma lookup_in k v l : Pandas.lookup k l = Some v -> In (k, v) l.
Proof.
  induction l as [|[k' v'] l IH]; simpl; [discriminate|].
  destruct (String.eqb_spec k k') as [->|_].
  - intros [= ->]. now left.
  - intro H. right. now apply IH.
Qed.

Lemma in_lookup k v l : NoDup (map fst l) -> In (k, v) l -> Pandas.lookup k l = Some v.
Proof.
  induction l as [|[k' v'] l IH]; simpl; [tauto|].
  intros Hnd [[= -> ->]|Hin].
  - now rewrite String.eqb_refl.
  - inversion Hnd as [|? ? Hk' Hnd']; subst.
    destruct (String.eqb_spec k k') as [->|_].
    + exfalso. apply Hk'. change k' with (fst (k', v)). now apply in_map.
    + now apply IH.
Qed.

Lemma assign_app_fresh k v v' pre post :
  ~ In k (map fst pre) ->
  Pandas.assign k v' (pre ++ (k, v) :: post) = pre ++ (k, v') :: post.
Proof.
  induction pre as [|[k' w] pre IH]; simpl; intro Hk.
  - now rewrite String.eqb_refl.
  - destruct (String.eqb_spec k k') as [->|_]; [tauto|]. f_equal. apply IH. tauto.
Qed.

Lemma assign_fresh k v l :
  ~ In k (map fst l) -> Pandas.assign k v l = l ++ [(k, v)].
Proof.
  induction l as [|[k' w] l IH]; simpl; intro Hk; [reflexivity|].
  destruct (String.eqb_spec k k') as [->|_]; [tauto|]. f_equal. apply IH. tauto.
Qed.

Lemma remove_fresh k l :
  ~ In k (map fst l) ->
  filter (fun cs => negb (String.eqb k (fst cs))) l = l.
Proof.
  induction l as [|[k' w] l IH]; simpl; intro Hk; [reflexivity|].
  destruct (String.eqb_spec k k') as [->|_]; [tauto|]. simpl. f_equal. apply IH. tauto.
Qed.

Lemma remove_app_fresh k v pre post :
  ~ In k (map fst pre) -> ~ In k (map fst post) ->
  filter (fun cs => negb (String.eqb k (fst cs))) (pre ++ (k, v) :: post)
  = pre ++ post.
Proof.
  intros Hpre Hpost. rewrite filter_app. simpl. rewrite String.eqb_refl. simpl.
  now rewrite !remove_fresh.
Qed.

Lemma NoDup_keys_split k v pre post :
  NoDup (map fst (pre ++ (k, v) :: post)) ->
  ~ In k (map fst pre) /\ ~ In k (map fst post) /\ NoDup (map fst (pre ++ post)).
Proof.
  rewrite !map_app. simpl. intro H.
  pose proof (NoDup_remove_1 _ _ _ H) as H1.
  pose proof (NoDup_remove_2 _ _ _ H) as H2.
  rewrite in_app_iff in H2. tauto.
Qed.

End Labelled.

(** ** The missing-value pass, column by column *)

Module CleanerFacts.
Import Pandas DataCleaner CleanerView.

Lemma handle_missing_column_step rows sh rep ty col s pre post :
  ~ In col (map fst pre) -> ~ In col (map fst post) ->
  handle_missing_column
    (mk (mkDataFrame rows (pre ++ (col, s) :: post)) sh rep ty) col
  = Ok (mk (mkDataFrame rows (pre ++ survivor rows (col, s) ++ post)) sh
          (rep ++ snd (treat_column rows col s)) ty).
Proof.
  intros Hpre Hpost.
  unfold handle_missing_column, getitem, survivor, treat_column; simpl.
  rewrite lookup_app_fresh by assumption. simpl.
  destruct (isna_sum s =? 0).
  { simpl. now rewrite app_nil_r. }
  unfold len; simpl.
  destruct (Qltb 50 (missing_pct (isna_sum s) rows)).
  { simpl. unfold report_append, with_df, drop; simpl.
    now rewrite remove_app_fresh. }
  destruct s as [cells|cells|cells]; simpl.
  - unfold report_append, with_df, setitem; simpl.
    now rewrite assign_app_fresh.
  - destruct (mode_date cells); simpl;
      unfold report_append, with_df, setitem; simpl;
      now rewrite assign_app_fresh.
  - destruct (mode_obj cells); simpl;
      unfold report_append, with_df, setitem; simpl;
      now rewrite assign_app_fresh.
Qed.

Lemma survivor_keys rows cs :
  forall k, In k (map fst (survivor rows cs)) -> k = fst cs.
Proof.
  intro k. unfold survivor.
  destruct (fst (treat_column rows (fst cs) (snd cs))); simpl;
    intuition congruence.
Qed.

Lemma handle_missing_loop rows sh ty post :
  forall pre rep,
    NoDup (map fst (pre ++ post)) ->
    for_each handle_missing_column (map fst post)
      (mk (mkDataFrame rows (pre ++ post)) sh rep ty)
    = Ok (mk (mkDataFrame rows (pre ++ treat_columns rows post)) sh
            (rep ++ treat_actions rows post) ty).
Proof.
  induction post as [|[col s] post IH]; intros pre rep Hnd; simpl.
  - now rewrite !app_nil_r.
  - destruct (NoDup_keys_split _ _ _ _ Hnd) as (Hpre & Hpost & Hnd').
    rewrite handle_missing_column_step by assumption. simpl.
    rewrite app_assoc, IH.
    + now rewrite <- !app_assoc.
    + rewrite map_app, map_app. rewrite map_app in Hnd'.
      unfold survivor; simpl.
      destruct (fst (treat_column rows col s)); simpl.
      * rewrite <- app_assoc. simpl.
        rewrite map_app in Hnd. exact Hnd.
      * now rewrite app_nil_r.
Qed.

(** [_handle_missing_values] never raises on a frame with distinct labels,
    and treats every column on its own. *)
Lemma handle_missing_values_eq (self : t) :
  NoDup (names (df self)) ->
  _handle_missing_values self
  = Ok (mk (mkDataFrame (index_len (df self))
              (treat_columns (index_len (df self)) (columns (df self))))
          (original_shape self)
          (cleaning_report self
             ++ treat_actions (index_len (df self)) (columns (df self)))
          (column_types self)).
Proof.
  destruct self as [[rows cols] sh rep ty]. unfold names; simpl. intro Hnd.
  unfold _handle_missing_values, names; simpl.
  exact (handle_missing_loop rows sh ty cols [] rep Hnd).
Qed.

Lemma treat_columns_keys rows l k :
  In k (map fst (treat_columns rows l)) -> In k (map fst l).
Proof.
  induction l as [|cs l IH]; simpl; [tauto|].
  rewrite map_app, in_app_iff. intros [H|H].
  - left. symmetry. now apply (survivor_keys rows cs).
  - right. now apply IH.
Qed.

Lemma treat_columns_NoDup rows l :
  NoDup (map fst l) -> NoDup (map fst (treat_columns rows l)).
Proof.
  induction l as [|cs l IH]; simpl; intro Hnd; [constructor|].
  inversion Hnd as [|? ? Hk Hnd']; subst.
  rewrite map_app. unfold survivor at 1.
  destruct (fst (treat_column rows (fst cs) (snd cs))); simpl.
  - constructor; [|now apply IH].
    intro Hin. apply Hk. now apply treat_columns_keys in Hin.
  - now apply IH.
Qed.

(** ** Type detection, column by column *)

Section Detection.
Variable to_datetime : list (option string) -> option (list (option Z)).

Lemma converted_key cs : fst ((converted to_datetime) cs) = fst cs.
Proof.
  unfold converted, detected. destruct cs as [k [c|c|c]]; simpl; try reflexivity.
  now destruct (to_datetime c).
Qed.

Lemma converted_keys l : map fst (map (converted to_datetime) l) = map fst l.
Proof.
  rewrite map_map. apply map_ext. intro cs. apply converted_key.
Qed.

Lemma tagged_keys l : map fst (map (tagged to_datetime) l) = map fst l.
Proof.
  rewrite map_map. now apply map_ext.
Qed.

Lemma detect_column_step rows sh rep ty col s pre post :
  ~ In col (map fst pre) -> ~ In col (map fst ty) ->
  detect_column to_datetime
    (mk (mkDataFrame rows (pre ++ (col, s) :: post)) sh rep ty) col
  = Ok (mk (mkDataFrame rows (pre ++ (converted to_datetime) (col, s) :: post)) sh rep
          (ty ++ [(tagged to_datetime) (col, s)])).
Proof.
  intros Hpre Hty.
  unfold detect_column, getitem, converted, tagged, detected; simpl.
  rewrite lookup_app_fresh by assumption. simpl.
  destruct s as [cells|cells|cells]; simpl;
    [| |destruct (to_datetime cells); simpl];
    unfold with_column_types, with_df, setitem; simpl;
    rewrite ?assign_app_fresh by assumption;
    rewrite (assign_fresh col _ ty) by assumption; reflexivity.
Qed.

Lemma detect_loop rows sh rep post :
  forall pre ty,
    NoDup (map fst (pre ++ post)) ->
    (forall k, In k (map fst post) -> ~ In k (map fst ty)) ->
    for_each (detect_column to_datetime) (map fst post)
      (mk (mkDataFrame rows (pre ++ post)) sh rep ty)
    = Ok (mk (mkDataFrame rows (pre ++ map (converted to_datetime) post)) sh rep
            (ty ++ map (tagged to_datetime) post)).
Proof.
  induction post as [|[col s] post IH]; intros pre ty Hnd Hty; simpl.
  - now rewrite !app_nil_r.
  - destruct (NoDup_keys_split _ _ _ _ Hnd) as (Hpre & Hpost & Hnd').
    rewrite detect_column_step; [|assumption|apply Hty; now left]. simpl.
    change (pre ++ (converted to_datetime) (col, s) :: post)
      with (pre ++ [(converted to_datetime) (col, s)] ++ post).
    rewrite app_assoc, IH.
    + now rewrite <- !app_assoc.
    + rewrite <- app_assoc. simpl.
      rewrite map_app in *. simpl. now rewrite converted_key.
    + intros k Hk. rewrite map_app, in_app_iff. simpl.
      intros [Hin|[<-|[]]].
      * apply (Hty k); [now right|assumption].
      * tauto.
Qed.

Lemma detect_column_types_eq (self : t) :
  NoDup (names (df self)) ->
  _detect_column_types to_datetime self
  = Ok (mk (mkDataFrame (index_len (df self)) (map (converted to_datetime) (columns (df self))))
          (original_shape self) (cleaning_report self)
          (map (tagged to_datetime) (columns (df self)))).
Proof.
  destruct self as [[rows cols] sh rep ty]. unfold names; simpl. intro Hnd.
  unfold _detect_column_types, names, with_column_types; simpl.
  apply (detect_loop rows sh rep cols [] []); simpl; auto.
Qed.

End Detection.

(** ** Deduplication keeps the labels and the dtypes *)

Lemma drop_duplicates_names frame : names (drop_duplicates frame) = names frame.
Proof.
  unfold drop_duplicates, names. destruct (empty frame); [reflexivity|]. simpl.
  rewrite map_map. now apply map_ext.
Qed.

(** ** The whole of [clean] *)

Section Clean.
Variable to_datetime : list (option string) -> option (list (option Z)).

Lemma imputed_NoDup frame : NoDup (names frame) -> NoDup (names (imputed frame)).
Proof.
  intro Hnd. unfold imputed, names; simpl. apply treat_columns_NoDup.
  fold (names (deduplicated frame)). unfold deduplicated.
  now rewrite drop_duplicates_names.
Qed.

(** On a frame with distinct labels [clean] returns, and returns this. *)
Lemma clean_eq frame :
  NoDup (names frame) ->
  clean to_datetime (init frame) = Ok ((cleaned to_datetime) frame, (cleaned_report to_datetime) frame).
Proof.
  intro Hnd. unfold clean.
  assert (Hd : NoDup (names (df (_remove_duplicates (init frame))))).
  { unfold _remove_duplicates, init; simpl.
    destruct (_ <? _); simpl; now rewrite drop_duplicates_names. }
  rewrite handle_missing_values_eq by exact Hd. simpl.
  assert (Hdf : df (_remove_duplicates (init frame)) = deduplicated frame).
  { unfold _remove_duplicates, init; simpl. now destruct (_ <? _). }
  assert (Hrep : cleaning_report (_remove_duplicates (init frame))
                 = dedup_actions frame).
  { unfold _remove_duplicates, init, dedup_actions; simpl.
    now destruct (_ <? _). }
  assert (Hsh : original_shape (_remove_duplicates (init frame)) = shape frame).
  { unfold _remove_duplicates, init; simpl. now destruct (_ <? _). }
  rewrite Hdf, Hrep, Hsh.
  rewrite detect_column_types_eq; simpl.
  - reflexivity.
  - apply (imputed_NoDup frame Hnd).
Qed.

End Clean.

(** ** Missing cells, selection of rows, deduplication *)

Lemma count_null_dropna {A : Type} (cells : list (option A)) :
  count_null cells + List.length (dropna cells) = List.length cells.
Proof.
  unfold count_null. induction cells as [|[x|] cells IH]; simpl; lia.
Qed.

Lemma count_null_fillna {A : Type} (v : A) (cells : list (option A)) :
  count_null (fillna v cells) = 0.
Proof.
  unfold count_null, fillna. induction cells as [|[x|] cells IH]; simpl; auto.
Qed.

Lemma count_null_all_some {A B : Type} (v : A) (cells : list B) :
  count_null (map (fun _ => Some v) cells) = 0.
Proof.
  unfold count_null. induction cells; simpl; auto.
Qed.

Lemma fillna_length {A : Type} (v : A) (cells : list (option A)) :
  List.length (fillna v cells) = List.length cells.
Proof. apply length_map. Qed.

Lemma fillna_nth {A : Type} (v : A) (cells : list (option A)) (i : nat) :
  i < List.length cells ->
  nth i (fillna v cells) None
  = match nth i cells None with
    | None => Some v
    | Some x => Some x
    end.
Proof.
  revert i. induction cells as [|c cells IH]; simpl; intros i Hi; [lia|].
  destruct i as [|i]; [now destruct c|]. apply IH. lia.
Qed.

Lemma select_count_null {A : Type} (mask : list bool) (cells : list (option A)) :
  count_null (select mask cells) <= count_null cells.
Proof.
  unfold count_null. revert cells.
  induction mask as [|[|] mask IH]; intros [|[x|] cells]; simpl;
    try lia; specialize (IH cells); lia.
Qed.

Lemma select_all_null {A : Type} (mask : list bool) (cells : list (option A)) :
  count_null cells = List.length cells ->
  count_null (select mask cells) = List.length (select mask cells).
Proof.
  unfold count_null. revert cells.
  induction mask as [|[|] mask IH]; intros [|[x|] cells]; simpl; intro H;
    try reflexivity;
    try (pose proof (filter_length_le is_null cells); lia);
    try (f_equal; apply IH; lia); apply IH; lia.
Qed.

Lemma select_length {A : Type} (mask : list bool) (xs : list A) :
  List.length xs = List.length mask ->
  List.length (select mask xs) = List.length (filter (fun b => b) mask).
Proof.
  revert xs. induction mask as [|[|] mask IH]; intros [|x xs]; simpl; intro H;
    try reflexivity; try discriminate; try (f_equal; apply IH; lia); apply IH; lia.
Qed.

Lemma series_select_isna mask s : isna_sum (series_select mask s) <= isna_sum s.
Proof. destruct s; simpl; apply select_count_null. Qed.

Lemma series_select_all_null mask s :
  isna_sum s = series_len s ->
  isna_sum (series_select mask s) = series_len (series_select mask s).
Proof. destruct s; simpl; apply select_all_null. Qed.

Lemma series_select_len mask s :
  series_len s = List.length mask ->
  series_len (series_select mask s) = List.length (filter (fun b => b) mask).
Proof. destruct s; simpl; apply select_length. Qed.

Lemma duplicated_length frame : List.length (duplicated frame) = index_len frame.
Proof. unfold duplicated. now rewrite length_map, length_seq. Qed.

Lemma lookup_map_values {V W : Type} (g : V -> W) k (l : list (string * V)) :
  lookup k (map (fun cs => (fst cs, g (snd cs))) l) = option_map g (lookup k l).
Proof.
  induction l as [|[k' v] l IH]; simpl; [reflexivity|].
  now destruct (String.eqb k k').
Qed.

(** A column of the deduplicated frame is a selection of rows of the column
    it comes from. *)
Lemma drop_duplicates_lookup frame col s :
  lookup col (columns frame) = Some s ->
  exists mask,
    lookup col (columns (drop_duplicates frame)) = Some (series_select mask s)
    /\ (series_len s = index_len frame ->
        series_len (series_select mask s) = index_len (drop_duplicates frame))
    /\ (0 < index_len frame -> 0 < index_len (drop_duplicates frame)).
Proof.
  intro Hs. unfold drop_duplicates.
  destruct (empty frame) eqn:He.
  - exists (repeat true (series_len s)). 
    assert (Hid : series_select (repeat true (series_len s)) s = s).
    { assert (Hsel : forall (A : Type) (xs : list A),
                 select (repeat true (List.length xs)) xs = xs).
      { intros A xs. induction xs; simpl; congruence. }
      destruct s; simpl; now rewrite Hsel. }
    rewrite Hid. auto.
  - exists (map negb (duplicated frame)). simpl.
    rewrite (lookup_map_values (series_select (map negb (duplicated frame)))).
    rewrite Hs. simpl. repeat split.
    + intro Hlen. apply series_select_len.
      now rewrite length_map, duplicated_length.
    + intro Hpos. unfold duplicated.
      destruct (index_len frame) as [|n]; [lia|]. simpl. lia.
Qed.

Lemma drop_duplicates_aligned frame : aligned frame -> aligned (drop_duplicates frame).
Proof.
  unfold aligned, drop_duplicates. intro Ha.
  destruct (empty frame); [assumption|]. simpl.
  rewrite Forall_map. apply (Forall_impl _ (P := fun cs => series_len (snd cs) = index_len frame));
    [|assumption].
  intros cs Hlen. simpl. apply series_select_len.
  now rewrite length_map, duplicated_length.
Qed.

Lemma drop_duplicates_no_null frame :
  Forall (fun cs => isna_sum (snd cs) = 0) (columns frame) ->
  Forall (fun cs => isna_sum (snd cs) = 0) (columns (drop_duplicates frame)).
Proof.
  unfold drop_duplicates. intro Hn. destruct (empty frame); [assumption|]. simpl.
  rewrite Forall_map. apply (Forall_impl _ (P := fun cs => isna_sum (snd cs) = 0));
    [|assumption].
  intros cs H0. simpl.
  pose proof (series_select_isna (map negb (duplicated frame)) (snd cs)). lia.
Qed.

(** ** The median of a column that is not all missing *)

Lemma insert_sorted_length x l : List.length (insert_sorted x l) = S (List.length l).
Proof.
  induction l as [|y l IH]; simpl; [reflexivity|].
  destruct (Qle_bool x y); simpl; congruence.
Qed.

Lemma sort_values_length l : List.length (sort_values l) = List.length l.
Proof.
  unfold sort_values. induction l as [|x l IH]; simpl; [reflexivity|].
  now rewrite insert_sorted_length, IH.
Qed.

Lemma median_some cells :
  0 < List.length (dropna cells) -> exists m, median cells = Some m.
Proof.
  intro Hpos. unfold median. rewrite sort_values_length.
  destruct (List.length (dropna cells) =? 0) eqn:E.
  - apply Nat.eqb_eq in E. lia.
  - destruct (Nat.odd _); eauto.
Qed.

(** A column that keeps at most half of its cells missing has a value. *)
Lemma kept_column_has_value {A : Type} (cells : list (option A)) (rows : nat) :
  List.length cells = rows ->
  count_null cells <> 0 ->
  Qltb 50 (missing_pct (count_null cells) rows) = false ->
  0 < List.length (dropna cells).
Proof.
  intros Hlen Hc Hpct. pose proof (count_null_dropna cells) as Hsum.
  assert (Hrows : 0 < rows) by lia.
  destruct (Nat.lt_ge_cases rows (2 * count_null cells)) as [Hlt|Hge].
  - apply (missing_pct_gt_50 _ _ Hrows) in Hlt. congruence.
  - lia.
Qed.

(** ** What the missing-value pass does to one column *)

Lemma treat_column_action_col rows col s a :
  In a (snd (treat_column rows col s)) -> action_col a = Some col.
Proof.
  unfold treat_column.
  destruct (isna_sum s =? 0); simpl; [tauto|].
  destruct (Qltb 50 _); simpl; [now intros [<-|[]]|].
  destruct s as [c|c|c]; simpl.
  - now intros [<-|[]].
  - destruct (mode_date c); simpl; now intros [<-|[]].
  - destruct (mode_obj c); simpl; now intros [<-|[]].
Qed.

Lemma treat_column_clean rows col s :
  isna_sum s = 0 -> treat_column rows col s = (Some s, []).
Proof. unfold treat_column. now intros ->. Qed.

Lemma treat_column_dropped rows col s :
  isna_sum s <> 0 ->
  Qltb 50 (missing_pct (isna_sum s) rows) = true ->
  treat_column rows col s
  = (None, [DroppedColumn col (missing_pct (isna_sum s) rows)]).
Proof.
  intros Hc Hp. unfold treat_column.
  destruct (isna_sum s =? 0) eqn:E; [apply Nat.eqb_eq in E; contradiction|].
  now rewrite Hp.
Qed.

Lemma treat_column_median rows col cells :
  count_null cells <> 0 ->
  Qltb 50 (missing_pct (count_null cells) rows) = false ->
  treat_column rows col (NumCol cells)
  = (Some (NumCol match median cells with
                  | Some m => fillna m cells
                  | None => cells
                  end),
     [FilledMedian (count_null cells) col (median cells)]).
Proof.
  intros Hc Hp. unfold treat_column. simpl.
  destruct (count_null cells =? 0) eqn:E; [apply Nat.eqb_eq in E; contradiction|].
  now rewrite Hp.
Qed.

(** A survivor of an aligned column has no missing cell. *)
Lemma treat_column_no_null rows col s s' :
  series_len s = rows ->
  fst (treat_column rows col s) = Some s' -> isna_sum s' = 0.
Proof.
  intros Hlen. unfold treat_column.
  destruct (isna_sum s =? 0) eqn:E; simpl.
  { apply Nat.eqb_eq in E. now intros [= <-]. }
  apply Nat.eqb_neq in E.
  destruct (Qltb 50 _) eqn:Hp; simpl; [discriminate|].
  destruct s as [c|c|c]; simpl in *.
  - destruct (median_some c (kept_column_has_value c rows Hlen E Hp)) as [m ->].
    intros [= <-]. simpl. apply count_null_fillna.
  - destruct (mode_date c); intros [= <-]; simpl.
    + apply count_null_all_some.
    + apply count_null_fillna.
  - destruct (mode_obj c); intros [= <-]; simpl; apply count_null_fillna.
Qed.

Lemma survivor_in rows l col s s' :
  In (col, s) l -> fst (treat_column rows col s) = Some s' ->
  In (col, s') (treat_columns rows l).
Proof.
  intros Hin Hs. unfold treat_columns. apply in_flat_map.
  exists (col, s). split; [assumption|]. unfold survivor; simpl.
  rewrite Hs. now left.
Qed.

Lemma dropped_not_in rows l col s :
  NoDup (map fst l) -> In (col, s) l ->
  fst (treat_column rows col s) = None ->
  ~ In col (map fst (treat_columns rows l)).
Proof.
  induction l as [|[k v] l IH]; simpl; [tauto|].
  intros Hnd Hin Hs. inversion Hnd as [|? ? Hk Hnd']; subst.
  rewrite map_app, in_app_iff. intros [H|H].
  - pose proof (survivor_keys _ _ _ H) as Hkey. simpl in Hkey. subst k.
    destruct Hin as [[= <-]|Hin].
    + unfold survivor in H. simpl in H. now rewrite Hs in H.
    + apply Hk. change col with (fst (col, s)). now apply in_map.
  - destruct Hin as [[= -> ->]|Hin].
    + apply Hk. now apply treat_columns_keys in H.
    + now apply (IH Hnd' Hin Hs).
Qed.

Lemma treat_actions_in rows l col s a :
  In (col, s) l -> In a (snd (treat_column rows col s)) ->
  In a (treat_actions rows l).
Proof.
  intros Hin Ha. unfold treat_actions. apply in_flat_map.
  exists (col, s). now split.
Qed.

Lemma treat_actions_source rows l a :
  In a (treat_actions rows l) ->
  exists col s, In (col, s) l /\ In a (snd (treat_column rows col s)).
Proof.
  unfold treat_actions. rewrite in_flat_map. intros [[col s] [Hin Ha]].
  now exists col, s.
Qed.

Lemma treat_clean_columns rows l :
  Forall (fun cs => isna_sum (snd cs) = 0) l ->
  treat_columns rows l = l /\ treat_actions rows l = [].
Proof.
  induction 1 as [|[k v] l H0 _ [IH1 IH2]]; [now split|].
  simpl in H0. split.
  - change (treat_columns rows ((k, v) :: l))
      with (survivor rows (k, v) ++ treat_columns rows l).
    rewrite IH1. unfold survivor; simpl.
    now rewrite (treat_column_clean rows k v H0).
  - change (treat_actions rows ((k, v) :: l))
      with (snd (treat_column rows k v) ++ treat_actions rows l).
    now rewrite IH2, (treat_column_clean rows k v H0).
Qed.

Lemma treat_columns_no_null rows l :
  Forall (fun cs => series_len (snd cs) = rows) l ->
  Forall (fun cs => isna_sum (snd cs) = 0) (treat_columns rows l).
Proof.
  induction 1 as [|[k v] l Hlen _ IH]; [constructor|].
  change (treat_columns rows ((k, v) :: l))
    with (survivor rows (k, v) ++ treat_columns rows l).
  apply Forall_app. split; [|assumption].
  unfold survivor; simpl in *.
  destruct (fst (treat_column rows k v)) eqn:E; constructor; [|constructor].
  simpl. exact (treat_column_no_null rows k v s Hlen E).
Qed.

Lemma dedup_actions_shape frame a :
  In a (dedup_actions frame) -> exists k, 0 < k /\ a = RemovedDuplicates k.
Proof.
  unfold dedup_actions.
  destruct (len (drop_duplicates frame) <? len frame) eqn:E; simpl; [|tauto].
  apply Nat.ltb_lt in E. intros [<-|[]].
  exists (len frame - len (drop_duplicates frame)). split; [lia|reflexivity].
Qed.

Lemma dedup_actions_length frame : List.length (dedup_actions frame) <= 1.
Proof. unfold dedup_actions. destruct (_ <? _); simpl; lia. Qed.

Ltac distinct_labels :=
  repeat (constructor; [simpl; intuition discriminate|]); constructor.

(** ** The claims on the cleaner *)

Section CleanerClaims.
Variable to_datetime : list (option string) -> option (list (option Z)).

(** C10.  After every run of the cleaner on a table with distinct column
    labels, the keys of the type map are the columns of the cleaned table,
    in the same order, without extra or missing key, and every key has
    exactly one type, one of numeric, categorical and datetime. *)
Theorem type_map_keys_are_cleaned_columns (frame : DataFrame) :
  NoDup (names frame) ->
  exists cleaned_df report,
    clean to_datetime (init frame) = Ok (cleaned_df, report)
    /\ map fst (CleaningReport.column_types report) = names cleaned_df
    /\ NoDup (map fst (CleaningReport.column_types report))
    /\ forall col, In col (names cleaned_df) ->
         exists ty : ColumnType,
           lookup col (CleaningReport.column_types report) = Some ty
           /\ forall ty', In (col, ty') (CleaningReport.column_types report) ->
                          ty' = ty.
Proof.
  intro Hnd. exists (cleaned to_datetime frame), (cleaned_report to_datetime frame).
  split; [now apply clean_eq|].
  assert (Hkeys : map fst (map (tagged to_datetime) (columns (imputed frame)))
                  = names (cleaned to_datetime frame)).
  { unfold cleaned, names; simpl. now rewrite tagged_keys, converted_keys. }
  assert (Hnd' : NoDup (map fst (map (tagged to_datetime) (columns (imputed frame))))).
  { rewrite tagged_keys. now apply imputed_NoDup. }
  simpl. repeat split; try assumption.
  intros col Hcol. rewrite <- Hkeys in Hcol.
  apply in_map_iff in Hcol. destruct Hcol as [[k ty] [Hk Hin]]. simpl in Hk. subst k.
  exists ty. split.
  - now apply in_lookup.
  - intros ty' Hin'. apply (in_lookup _ _ _ Hnd') in Hin, Hin'. congruence.
Qed.

(** C3, amended.  A column whose missing fraction exceeds one half in the
    table as it is after deduplication (null count divided by the number
    of rows that deduplication keeps) is absent from the cleaned type map
    and from the cleaned table. *)
Theorem majority_missing_after_dedup_is_absent
    (frame : DataFrame) (col : string) (s : Series) :
  NoDup (names frame) ->
  getitem (drop_duplicates frame) col = Ok s ->
  (1 # 2 < Qof_nat (isna_sum s) / Qof_nat (len (drop_duplicates frame)))%Q ->
  exists cleaned_df report,
    clean to_datetime (init frame) = Ok (cleaned_df, report)
    /\ ~ In col (map fst (CleaningReport.column_types report))
    /\ ~ In col (names cleaned_df).
Proof.
  intros Hnd Hget Hfrac.
  exists (cleaned to_datetime frame), (cleaned_report to_datetime frame).
  split; [now apply clean_eq|].
  unfold getitem in Hget.
  destruct (lookup col (columns (drop_duplicates frame))) as [s0|] eqn:Hl;
    [|discriminate].
  injection Hget as ->. apply lookup_in in Hl.
  assert (Hc : isna_sum s <> 0).
  { intro H0. rewrite H0 in Hfrac.
    assert (E : (Qof_nat 0 / Qof_nat (len (drop_duplicates frame)) == 0)%Q).
    { unfold Qof_nat, Qdiv. simpl. ring. }
    rewrite E in Hfrac. discriminate Hfrac. }
  apply missing_fraction_gt_half in Hfrac.
  assert (Habs : ~ In col (map fst (treat_columns (index_len (drop_duplicates frame))
                                      (columns (drop_duplicates frame))))).
  { apply (dropped_not_in _ _ col s).
    - fold (names (drop_duplicates frame)). now rewrite drop_duplicates_names.
    - assumption.
    - now rewrite treat_column_dropped. }
  simpl. rewrite tagged_keys. unfold names, cleaned; simpl.
  rewrite converted_keys. now split.
Qed.

(** C7, amended.  In a table with at least one row, a column whose every
    value is missing is dropped by the missingness rule, with a drop record
    of 100 percent; it is not filled with the sentinel, and the cleaner
    completes without raising. *)
Theorem all_missing_column_is_dropped
    (frame : DataFrame) (col : string) (s : Series) :
  NoDup (names frame) -> aligned frame -> 0 < len frame ->
  getitem frame col = Ok s ->
  isna_sum s = series_len s ->
  exists cleaned_df report pct,
    clean to_datetime (init frame) = Ok (cleaned_df, report)
    /\ ~ In col (names cleaned_df)
    /\ In (DroppedColumn col pct) (CleaningReport.actions report)
    /\ (pct == 100)%Q
    /\ forall n, ~ In (FilledUnknown n col) (CleaningReport.actions report).
Proof.
  intros Hnd Hal Hrows Hget Hall.
  unfold getitem in Hget.
  destruct (lookup col (columns frame)) as [s0|] eqn:Hl; [|discriminate].
  injection Hget as ->.
  assert (Hlen : series_len s = index_len frame).
  { apply lookup_in in Hl. unfold aligned in Hal. rewrite Forall_forall in Hal.
    exact (Hal _ Hl). }
  destruct (drop_duplicates_lookup frame col s Hl) as (mask & Hl' & Hlen' & Hpos).
  specialize (Hlen' Hlen). specialize (Hpos Hrows).
  set (d := drop_duplicates frame) in *.
  set (s' := series_select mask s) in *.
  assert (Hall' : isna_sum s' = index_len d).
  { rewrite <- Hlen'. now apply series_select_all_null. }
  assert (Hdrop : treat_column (index_len d) col s'
                  = (None, [DroppedColumn col (missing_pct (index_len d) (index_len d))])).
  { rewrite treat_column_dropped; rewrite Hall'; try reflexivity; try lia.
    apply missing_pct_gt_50; lia. }
  assert (Hndd : NoDup (map fst (columns d))).
  { fold (names d). unfold d. now rewrite drop_duplicates_names. }
  apply lookup_in in Hl'.
  exists (cleaned to_datetime frame), (cleaned_report to_datetime frame),
         (missing_pct (index_len d) (index_len d)).
  split; [now apply clean_eq|]. split; [|split; [|split]].
  - unfold names, cleaned; simpl. rewrite converted_keys.
    apply (dropped_not_in _ _ col s' Hndd Hl'). exact (f_equal fst Hdrop).
  - simpl. apply in_or_app. right.
    apply (treat_actions_in (index_len d) _ col s' _ Hl').
    rewrite Hdrop. now left.
  - now apply missing_pct_full.
  - intros n Hin. simpl in Hin. apply in_app_or in Hin. destruct Hin as [Hin|Hin].
    + apply dedup_actions_shape in Hin. destruct Hin as (k & _ & Hk). discriminate.
    + apply treat_actions_source in Hin. destruct Hin as (c & s2 & Hin2 & Ha).
      pose proof (treat_column_action_col _ _ _ _ Ha) as Hc. simpl in Hc.
      injection Hc as <-.
      apply (in_lookup _ _ _ Hndd) in Hin2, Hl'.
      assert (s2 = s') by congruence. subst s2.
      change (index_len (deduplicated frame)) with (index_len d) in Ha.
      rewrite Hdrop in Ha. simpl in Ha. destruct Ha as [Ha|[]]. discriminate.
Qed.

(** C8.  For a numeric column with missing values that the missingness rule
    does not drop (missing fraction at most one half), every imputed cell of
    the cleaned table equals the median of the non-null values the column
    has just before imputation, that is after deduplication; the other
    cells keep their value. *)
Theorem imputed_cells_equal_median
    (frame : DataFrame) (col : string) (xs : list (option Q)) :
  NoDup (names frame) -> aligned frame ->
  getitem (drop_duplicates frame) col = Ok (NumCol xs) ->
  0 < count_null xs ->
  (Qof_nat (count_null xs) / Qof_nat (len (drop_duplicates frame)) <= 1 # 2)%Q ->
  exists m ys cleaned_df report,
    clean to_datetime (init frame) = Ok (cleaned_df, report)
    /\ median xs = Some m
    /\ getitem cleaned_df col = Ok (NumCol ys)
    /\ List.length ys = List.length xs
    /\ forall i, i < List.length xs ->
         nth i ys None = match nth i xs None with
                         | None => Some m
                         | Some x => Some x
                         end.
Proof.
  intros Hnd Hal Hget Hnull Hfrac.
  unfold getitem in Hget.
  destruct (lookup col (columns (drop_duplicates frame))) as [s0|] eqn:Hl;
    [|discriminate].
  injection Hget as ->. apply lookup_in in Hl.
  set (d := drop_duplicates frame) in *.
  assert (Hlen : List.length xs = index_len d).
  { pose proof (drop_duplicates_aligned frame Hal) as Had. fold d in Had.
    unfold aligned in Had. rewrite Forall_forall in Had. exact (Had _ Hl). }
  assert (Hp : Qltb 50 (missing_pct (count_null xs) (index_len d)) = false).
  { destruct (Qltb 50 _) eqn:E; [|reflexivity].
    apply missing_fraction_gt_half in E. exfalso.
    exact (Qlt_not_le _ _ E Hfrac). }
  assert (Hc : count_null xs <> 0) by lia.
  destruct (median_some xs (kept_column_has_value xs _ Hlen Hc Hp)) as [m Hm].
  exists m, (fillna m xs), (cleaned to_datetime frame), (cleaned_report to_datetime frame).
  split; [now apply clean_eq|]. split; [assumption|]. split; [|split].
  - unfold getitem. erewrite in_lookup; [reflexivity| |].
    + fold (names (cleaned to_datetime frame)). unfold cleaned, names; simpl.
      rewrite converted_keys. now apply imputed_NoDup.
    + unfold cleaned; simpl.
      change (col, NumCol (fillna m xs))
        with (converted to_datetime (col, NumCol (fillna m xs))).
      apply in_map. apply (survivor_in _ _ col (NumCol xs)); [assumption|].
      rewrite treat_column_median by assumption. simpl. now rewrite Hm.
  - apply fillna_length.
  - intros i Hi. now apply fillna_nth.
Qed.

(** After [clean], a column has no missing value unless it is a column of
    timestamps that the date conversion produced with gaps. *)
Lemma cleaned_columns_cases (frame : DataFrame) :
  aligned frame ->
  Forall (fun cs => isna_sum (snd cs) = 0
                    \/ parsed_with_gaps to_datetime (snd cs))
         (columns (cleaned to_datetime frame)).
Proof.
  intro Hal. unfold cleaned; simpl. rewrite Forall_map.
  pose proof (drop_duplicates_aligned frame Hal) as Had.
  apply treat_columns_no_null in Had.
  apply (Forall_impl _ (P := fun cs => isna_sum (snd cs) = 0)); [|exact Had].
  intros [k v] H0. simpl in H0. unfold converted, detected; simpl.
  destruct v as [c|c|c]; simpl; try (left; assumption).
  destruct (to_datetime c) as [stamps|] eqn:E; simpl; [|left; assumption].
  destruct (count_null stamps) as [|n] eqn:En; [now left|].
  right. exists c, stamps. repeat split; try assumption. lia.
Qed.

(** A column of the deduplicated frame comes from a column of the frame
    with at least as many missing values. *)
Lemma drop_duplicates_in (frame : DataFrame) col s :
  In (col, s) (columns (drop_duplicates frame)) ->
  exists s0, In (col, s0) (columns frame) /\ isna_sum s <= isna_sum s0.
Proof.
  unfold drop_duplicates. destruct (empty frame).
  - intro Hin. exists s. split; [assumption|lia].
  - simpl. intro Hin. apply in_map_iff in Hin.
    destruct Hin as ([k v] & [= <- <-] & Hin). exists v.
    split; [assumption|apply series_select_isna].
Qed.

Lemma treat_column_acts rows col s a :
  In a (snd (treat_column rows col s)) -> isna_sum s <> 0.
Proof.
  unfold treat_column. destruct (isna_sum s =? 0) eqn:E; simpl; [tauto|].
  intros _. now apply Nat.eqb_neq.
Qed.

(** C2, amended.  A second run of the cleaner on the output of a first run
    adds no drop or imputation record for a numeric or a categorical
    column.  Every record it adds is either one duplicate-removal record,
    for rows that imputation or a column drop of the first run made equal,
    or a record on a column of timestamps in which the date conversion of
    the first run left gaps (text such as [NaT]).  When the output of the
    first run has no missing value, the second run keeps the columns and
    adds at most one record, a duplicate removal. *)
Theorem second_run_only_removes_duplicates (frame : DataFrame) :
  NoDup (names frame) -> aligned frame ->
  exists df1 report1 df2 report2,
    clean to_datetime (init frame) = Ok (df1, report1)
    /\ clean to_datetime (init df1) = Ok (df2, report2)
    /\ (forall a, In a (CleaningReport.actions report2) ->
          (exists k, 0 < k /\ a = RemovedDuplicates k)
          \/ (exists col s,
                action_col a = Some col
                /\ In (col, s) (columns df1)
                /\ parsed_with_gaps to_datetime s))
    /\ ((forall col s, In (col, s) (columns df1) -> isna_sum s = 0) ->
        names df2 = names df1
        /\ List.length (CleaningReport.actions report2) <= 1
        /\ forall a, In a (CleaningReport.actions report2) ->
             exists k, 0 < k /\ a = RemovedDuplicates k).
Proof.
  intros Hnd Hal.
  set (df1 := cleaned to_datetime frame).
  assert (Hnd1 : NoDup (names df1)).
  { unfold df1, cleaned, names; simpl. rewrite converted_keys.
    now apply imputed_NoDup. }
  exists df1, (cleaned_report to_datetime frame),
         (cleaned to_datetime df1), (cleaned_report to_datetime df1).
  split; [now apply clean_eq|]. split; [now apply clean_eq|].
  split.
  - intros a Ha. cbn [cleaned_report CleaningReport.actions] in Ha.
    apply in_app_or in Ha. destruct Ha as [Ha|Ha].
    + left. now apply dedup_actions_shape in Ha.
    + right. apply treat_actions_source in Ha.
      destruct Ha as (col & s & Hin & Ha).
      pose proof (treat_column_action_col _ _ _ _ Ha) as Hcol.
      pose proof (treat_column_acts _ _ _ _ Ha) as Hgap.
      unfold deduplicated in Hin. apply drop_duplicates_in in Hin.
      destruct Hin as (s0 & Hin0 & Hle).
      exists col, s0. split; [assumption|]. split; [assumption|].
      pose proof (cleaned_columns_cases frame Hal) as Hcases.
      rewrite Forall_forall in Hcases.
      destruct (Hcases _ Hin0) as [H0|Hp]; [simpl in H0; lia|exact Hp].
  - intro Hfull.
    assert (Hclean1 : Forall (fun cs => isna_sum (snd cs) = 0) (columns df1)).
    { apply Forall_forall. intros [col s] Hin. exact (Hfull col s Hin). }
    pose proof (drop_duplicates_no_null df1 Hclean1) as Hclean2.
    destruct (treat_clean_columns (index_len (drop_duplicates df1)) _ Hclean2)
      as [Hcols Hacts].
    split; [|split].
    + unfold cleaned at 1. unfold names at 1. simpl. rewrite converted_keys.
      unfold deduplicated. rewrite Hcols.
      fold (names (drop_duplicates df1)). apply drop_duplicates_names.
    + simpl. unfold deduplicated. rewrite Hacts, app_nil_r.
      apply dedup_actions_length.
    + intros a Ha. simpl in Ha. unfold deduplicated in Ha.
      rewrite Hacts, app_nil_r in Ha. now apply dedup_actions_shape in Ha.
Qed.

End CleanerClaims.

(** ** The cleaner on the sample tables *)

Lemma type_map_keys_are_cleaned_columns_witness :
  NoDup (names Samples.scenario_a)
  /\ exists cleaned_df report,
       clean IsoDate.to_datetime (init Samples.scenario_a) = Ok (cleaned_df, report)
       /\ map fst (CleaningReport.column_types report) = names cleaned_df
       /\ NoDup (map fst (CleaningReport.column_types report))
       /\ forall col, In col (names cleaned_df) ->
            exists ty : ColumnType,
              lookup col (CleaningReport.column_types report) = Some ty
              /\ forall ty', In (col, ty') (CleaningReport.column_types report) ->
                             ty' = ty.
Proof.
  split.
  - distinct_labels.
  - apply (type_map_keys_are_cleaned_columns IsoDate.to_datetime Samples.scenario_a).
    distinct_labels.
Defined.

(** In [repeated_gaps] column "a" misses three cells of five, yet the
    cleaner keeps it: deduplication leaves one missing cell of three, which
    the median fills. *)
Lemma majority_missing_before_dedup_survives :
  exists s cleaned_df report,
    getitem Samples.repeated_gaps "a" = Ok s
    /\ (1 # 2 < Qof_nat (isna_sum s) / Qof_nat (len Samples.repeated_gaps))%Q
    /\ clean IsoDate.to_datetime (init Samples.repeated_gaps)
       = Ok (cleaned_df, report)
    /\ In "a" (map fst (CleaningReport.column_types report)).
Proof.
  eexists _, _, _. split; [reflexivity|]. split; [reflexivity|].
  split; [vm_compute; reflexivity|]. simpl. now left.
Qed.

Lemma majority_missing_after_dedup_is_absent_witness :
  NoDup (names Samples.scenario_a)
  /\ getitem (drop_duplicates Samples.scenario_a) "empty_col"
     = Ok (ObjCol (repeat None 10))
  /\ (1 # 2 < Qof_nat (isna_sum (ObjCol (repeat None 10)))
              / Qof_nat (len (drop_duplicates Samples.scenario_a)))%Q
  /\ exists cleaned_df report,
       clean IsoDate.to_datetime (init Samples.scenario_a) = Ok (cleaned_df, report)
       /\ ~ In "empty_col" (map fst (CleaningReport.column_types report))
       /\ ~ In "empty_col" (names cleaned_df).
Proof.
  assert (Hnd : NoDup (names Samples.scenario_a)) by distinct_labels.
  assert (Hget : getitem (drop_duplicates Samples.scenario_a) "empty_col"
                 = Ok (ObjCol (repeat None 10))) by (vm_compute; reflexivity).
  assert (Hfrac : (1 # 2 < Qof_nat (isna_sum (ObjCol (repeat None 10)))
                           / Qof_nat (len (drop_duplicates Samples.scenario_a)))%Q)
    by (vm_compute; reflexivity).
  repeat split; try assumption.
  exact (majority_missing_after_dedup_is_absent IsoDate.to_datetime
           Samples.scenario_a "empty_col" _ Hnd Hget Hfrac).
Defined.

(** The all-missing column of [scenario_a] is dropped; no cell of it is
    ever set to the sentinel. *)
Lemma all_missing_column_gets_no_sentinel :
  exists s cleaned_df report,
    getitem Samples.scenario_a "empty_col" = Ok s
    /\ isna_sum s = series_len s
    /\ clean IsoDate.to_datetime (init Samples.scenario_a) = Ok (cleaned_df, report)
    /\ getitem cleaned_df "empty_col" = Raise (KeyError "empty_col")
    /\ CleaningReport.actions report
       = [DroppedColumn "empty_col" (missing_pct 10 10)].
Proof.
  eexists _, _, _. split; [reflexivity|]. split; [reflexivity|].
  split; [vm_compute; reflexivity|]. split; reflexivity.
Qed.

Lemma all_missing_column_is_dropped_witness :
  NoDup (names Samples.scenario_a) /\ aligned Samples.scenario_a
  /\ 0 < len Samples.scenario_a
  /\ getitem Samples.scenario_a "empty_col" = Ok (ObjCol (repeat None 10))
  /\ isna_sum (ObjCol (repeat None 10)) = series_len (ObjCol (repeat None 10))
  /\ exists cleaned_df report pct,
       clean IsoDate.to_datetime (init Samples.scenario_a) = Ok (cleaned_df, report)
       /\ ~ In "empty_col" (names cleaned_df)
       /\ In (DroppedColumn "empty_col" pct) (CleaningReport.actions report)
       /\ (pct == 100)%Q
       /\ forall n, ~ In (FilledUnknown n "empty_col") (CleaningReport.actions report).
Proof.
  assert (Hnd : NoDup (names Samples.scenario_a)) by distinct_labels.
  assert (Hal : aligned Samples.scenario_a) by (repeat constructor).
  assert (Hrows : 0 < len Samples.scenario_a) by (vm_compute; lia).
  assert (Hget : getitem Samples.scenario_a "empty_col"
                 = Ok (ObjCol (repeat None 10))) by reflexivity.
  assert (Hall : isna_sum (ObjCol (repeat None 10))
                 = series_len (ObjCol (repeat None 10))) by reflexivity.
  repeat split; try assumption.
  exact (all_missing_column_is_dropped IsoDate.to_datetime
           Samples.scenario_a "empty_col" _ Hnd Hal Hrows Hget Hall).
Defined.

Lemma imputed_cells_equal_median_witness :
  NoDup (names Samples.readings) /\ aligned Samples.readings
  /\ getitem (drop_duplicates Samples.readings) "value"
     = Ok (NumCol [Samples.num 1; None; Samples.num 3; Samples.num 8])
  /\ 0 < count_null [Samples.num 1; None; Samples.num 3; Samples.num 8]
  /\ (Qof_nat (count_null [Samples.num 1; None; Samples.num 3; Samples.num 8])
      / Qof_nat (len (drop_duplicates Samples.readings)) <= 1 # 2)%Q
  /\ exists m ys cleaned_df report,
       clean IsoDate.to_datetime (init Samples.readings) = Ok (cleaned_df, report)
       /\ median [Samples.num 1; None; Samples.num 3; Samples.num 8] = Some m
       /\ getitem cleaned_df "value" = Ok (NumCol ys)
       /\ List.length ys = 4
       /\ forall i, i < 4 ->
            nth i ys None
            = match nth i [Samples.num 1; None; Samples.num 3; Samples.num 8] None with
              | None => Some m
              | Some x => Some x
              end.
Proof.
  assert (Hnd : NoDup (names Samples.readings)) by distinct_labels.
  assert (Hal : aligned Samples.readings) by (repeat constructor).
  assert (Hget : getitem (drop_duplicates Samples.readings) "value"
                 = Ok (NumCol [Samples.num 1; None; Samples.num 3; Samples.num 8]))
    by (vm_compute; reflexivity).
  assert (Hnull : 0 < count_null [Samples.num 1; None; Samples.num 3; Samples.num 8])
    by (vm_compute; lia).
  assert (Hfrac :
            (Qof_nat (count_null [Samples.num 1; None; Samples.num 3; Samples.num 8])
             / Qof_nat (len (drop_duplicates Samples.readings)) <= 1 # 2)%Q)
    by (vm_compute; discriminate).
  repeat split; try assumption.
  exact (imputed_cells_equal_median IsoDate.to_datetime
           Samples.readings "value" _ Hnd Hal Hget Hnull Hfrac).
Defined.

(** The median fills the gap of [gap_twin] with the value of the other row;
    the second run finds the two rows equal and removes one. *)
Lemma second_run_removes_a_duplicate :
  exists df1 report1 df2 report2,
    clean IsoDate.to_datetime (init Samples.gap_twin) = Ok (df1, report1)
    /\ clean IsoDate.to_datetime (init df1) = Ok (df2, report2)
    /\ CleaningReport.actions report2 = [RemovedDuplicates 1].
Proof.
  eexists _, _, _, _. split; [vm_compute; reflexivity|].
  split; [vm_compute; reflexivity|]. reflexivity.
Qed.

Lemma second_run_only_removes_duplicates_witness :
  NoDup (names Samples.gap_twin) /\ aligned Samples.gap_twin
  /\ exists df1 report1 df2 report2,
       clean IsoDate.to_datetime (init Samples.gap_twin) = Ok (df1, report1)
       /\ clean IsoDate.to_datetime (init df1) = Ok (df2, report2)
       /\ (forall a, In a (CleaningReport.actions report2) ->
             (exists k, 0 < k /\ a = RemovedDuplicates k)
             \/ (exists col s,
                   action_col a = Some col
                   /\ In (col, s) (columns df1)
                   /\ parsed_with_gaps IsoDate.to_datetime s))
       /\ (forall col s, In (col, s) (columns df1) -> isna_sum s = 0)
       /\ names df2 = names df1
       /\ List.length (CleaningReport.actions report2) <= 1
       /\ forall a, In a (CleaningReport.actions report2) ->
            exists k, 0 < k /\ a = RemovedDuplicates k.
Proof.
  assert (Hnd : NoDup (names Samples.gap_twin)) by distinct_labels.
  assert (Hal : aligned Samples.gap_twin) by (repeat constructor).
  split; [assumption|]. split; [assumption|].
  destruct (second_run_only_removes_duplicates IsoDate.to_datetime
              Samples.gap_twin Hnd Hal)
    as (df1 & report1 & df2 & report2 & Hrun1 & Hrun2 & Hacts & Hfull).
  exists df1, report1, df2, report2.
  split; [exact Hrun1|]. split; [exact Hrun2|]. split; [exact Hacts|].
  assert (Hclean : forall col s, In (col, s) (columns df1) -> isna_sum s = 0).
  { rewrite (clean_eq IsoDate.to_datetime Samples.gap_twin Hnd) in Hrun1.
    assert (Hdf : df1 = cleaned IsoDate.to_datetime Samples.gap_twin)
      by (injection Hrun1; intros _ Hq; symmetry; exact Hq).
    rewrite Hdf. intros col s Hin. vm_compute in Hin.
    destruct Hin as [Hin|[Hin|[]]];
      injection Hin; intros <- _; reflexivity. }
  split; [exact Hclean|]. exact (Hfull Hclean).
Defined.

(** The day column of [dated_twin] parses as dates, its text [NaT] as a
    missing timestamp.  The first run leaves that gap in its output; the
    second run removes the row that the median made a duplicate and fills
    the gap with the mode. *)
Lemma second_run_fills_a_parsed_gap :
  exists df1 report1 df2 report2,
    clean IsoDateNaT.to_datetime (init MoreSamples.dated_twin) = Ok (df1, report1)
    /\ getitem df1 "day"
       = Ok (DateCol [Some 20240101%Z; Some 20240101%Z; None])
    /\ clean IsoDateNaT.to_datetime (init df1) = Ok (df2, report2)
    /\ CleaningReport.actions report2
       = [RemovedDuplicates 1;
          FilledMode 1 "day" (CDate (Some 20240101%Z))].
Proof.
  eexists _, _, _, _. split; [vm_compute; reflexivity|].
  split; [reflexivity|]. split; [vm_compute; reflexivity|]. reflexivity.
Qed.

End CleanerFacts.

(** * Properties of the statistics engine *)

Module StatsFacts.
Import Pandas StatsEngine Counting.

Lemma binom_1 n : binom n 1 = n.
Proof.
  induction n as [|n IH]; [reflexivity|].
  change (binom (S n) 1) with (binom n 0 + binom n 1). rewrite IH.
  destruct n; simpl; lia.
Qed.

Lemma binom_S_2 n : binom (S n) 2 = n + binom n 2.
Proof. change (binom (S n) 2) with (binom n 1 + binom n 2). now rewrite binom_1. Qed.

(** The double loop over [i < j < k] runs [C(k,2)] times. *)
Lemma pair_loop_length {A : Type} (g : nat -> nat -> A) (k : nat) :
  forall n a, a + n = k ->
    List.length
      (flat_map (fun i => map (g i) (seq (i + 1) (k - (i + 1)))) (seq a n))
    = binom n 2.
Proof.
  induction n as [|n IH]; intros a Hk; [reflexivity|].
  simpl seq. simpl flat_map. rewrite length_app, length_map, length_seq.
  rewrite (IH (S a)) by lia. rewrite binom_S_2. lia.
Qed.

Lemma insert_desc_length e l : List.length (insert_desc e l) = S (List.length l).
Proof.
  induction l as [|e' l IH]; simpl; [reflexivity|].
  destruct (float_lt _ _); simpl; congruence.
Qed.

Lemma sort_correlations_length l :
  List.length (sort_correlations l) = List.length l.
Proof.
  unfold sort_correlations. induction l as [|e l IH]; simpl; [reflexivity|].
  now rewrite insert_desc_length, IH.
Qed.

Lemma numeric_frame_some frame cols :
  (forall col, In col cols ->
     exists cells, lookup col (columns frame) = Some (NumCol cells)) ->
  exists selected,
    numeric_frame frame cols = Some selected
    /\ List.length selected = List.length cols.
Proof.
  induction cols as [|col cols IH]; intro H; simpl.
  - now exists [].
  - destruct (H col (or_introl eq_refl)) as [cells ->].
    destruct IH as (rest & -> & Hlen); [intros c Hc; apply H; now right|].
    exists ((col, cells) :: rest). simpl. now rewrite Hlen.
Qed.

Section Correlations.
Variable sqrt : Q -> Q.

(** When every column the type map calls numeric is a numeric column of the
    frame, the ranked list holds [min(5, C(k,2))] pairs. *)
Lemma get_correlations_length frame (column_types : TypeMap) :
  (forall col, In col (cols_of_type numeric column_types) ->
     exists cells, lookup col (columns frame) = Some (NumCol cells)) ->
  let k := List.length (cols_of_type numeric column_types) in
  List.length
    (InsightEngine.top_correlations_of (_get_correlations sqrt frame column_types))
  = Nat.min 5 (binom k 2)
  /\ (k < 2 -> _get_correlations sqrt frame column_types = None)
  /\ (2 <= k -> _get_correlations sqrt frame column_types <> None).
Proof.
  intros Hnum k. unfold _get_correlations. fold k.
  destruct (k <? 2) eqn:Hk.
  - apply Nat.ltb_lt in Hk. split; [|split; [reflexivity|lia]].
    simpl. destruct k as [|[|k]]; [reflexivity|reflexivity|lia].
  - apply Nat.ltb_ge in Hk.
    destruct (numeric_frame_some frame _ Hnum) as (selected & -> & Hlen).
    split; [|split; [lia|discriminate]].
    unfold InsightEngine.top_correlations_of.
    cbn [Correlations.top_correlations].
    rewrite length_firstn, sort_correlations_length.
    assert (Hc : List.length (corr sqrt selected) = k)
      by (unfold corr; now rewrite length_map).
    rewrite Hc. now rewrite (pair_loop_length _ k k 0 eq_refl).
Qed.

End Correlations.

(** The columns the cleaner calls numeric are numeric columns of the
    cleaned frame. *)
Lemma cleaned_numeric_columns to_datetime frame col :
  NoDup (names frame) ->
  In col (cols_of_type numeric
            (CleaningReport.column_types (CleanerView.cleaned_report to_datetime frame))) ->
  exists cells,
    lookup col (columns (CleanerView.cleaned to_datetime frame)) = Some (NumCol cells).
Proof.
  intros Hnd Hin. unfold cols_of_type in Hin. simpl in Hin.
  apply in_map_iff in Hin. destruct Hin as [[k ty] [Hk Hin]]. simpl in Hk. subst k.
  apply filter_In in Hin. destruct Hin as [Hin Hty]. simpl in Hty.
  apply in_map_iff in Hin. destruct Hin as [[k v] [Htag Hin]].
  unfold CleanerView.tagged, CleanerView.detected in Htag. simpl in Htag.
  destruct v as [c|c|c].
  - injection Htag as -> <-. exists c. apply in_lookup.
    + fold (names (CleanerView.cleaned to_datetime frame)).
      unfold CleanerView.cleaned, names; simpl.
      rewrite CleanerFacts.converted_keys. now apply CleanerFacts.imputed_NoDup.
    + unfold CleanerView.cleaned; simpl.
      change (col, NumCol c) with (CleanerView.converted to_datetime (col, NumCol c)).
      now apply in_map.
  - injection Htag as _ <-. discriminate.
  - destruct (to_datetime c); injection Htag as _ <-; discriminate.
Qed.

(** C9.  For the cleaned table of any input with distinct column labels,
    with [k] numeric columns in its type map, the ranked list of the
    statistics engine holds [min(5, C(k,2))] correlations; when [k < 2] the
    correlations section is the empty dict, whose list reads as empty. *)
Theorem top_correlations_count
    (sqrt : Q -> Q)
    (to_datetime : list (option string) -> option (list (option Z)))
    (frame : DataFrame) :
  NoDup (names frame) ->
  exists cleaned_df report,
    DataCleaner.clean to_datetime (DataCleaner.init frame) = Ok (cleaned_df, report)
    /\ let column_types := CleaningReport.column_types report in
       let k := count_of_type numeric column_types in
       let correlations := _get_correlations sqrt cleaned_df column_types in
       List.length (InsightEngine.top_correlations_of correlations)
       = Nat.min 5 (binom k 2)
       /\ (k < 2 -> correlations = None)
       /\ (2 <= k -> correlations <> None).
Proof.
  intro Hnd.
  exists (CleanerView.cleaned to_datetime frame),
         (CleanerView.cleaned_report to_datetime frame).
  split; [now apply CleanerFacts.clean_eq|].
  intros column_types k correlations.
  assert (Hk : k = List.length (cols_of_type numeric column_types)).
  { unfold k, count_of_type, cols_of_type. now rewrite length_map. }
  rewrite Hk.
  apply (get_correlations_length sqrt).
  intros col Hcol. now apply (cleaned_numeric_columns to_datetime frame col Hnd).
Qed.

Lemma top_correlations_count_witness :
  NoDup (names Samples.doubled)
  /\ exists cleaned_df report,
       DataCleaner.clean IsoDate.to_datetime (DataCleaner.init Samples.doubled)
       = Ok (cleaned_df, report)
       /\ let column_types := CleaningReport.column_types report in
          let k := count_of_type numeric column_types in
          let correlations := _get_correlations Approx.sqrt cleaned_df column_types in
          List.length (InsightEngine.top_correlations_of correlations)
          = Nat.min 5 (binom k 2)
          /\ (k < 2 -> correlations = None)
          /\ (2 <= k -> correlations <> None).
Proof.
  split.
  - CleanerFacts.distinct_labels.
  - apply (top_correlations_count Approx.sqrt IsoDate.to_datetime Samples.doubled).
    CleanerFacts.distinct_labels.
Defined.

End StatsFacts.

(** * Properties of the insight engine *)

Module InsightFacts.
Import Pandas InsightEngine InsightView.

(** ** Loops that only append *)

Lemma for_each_emits {A B : Type} (body : list B -> A -> result (list B)) :
  appends body ->
  forall xs acc out,
    for_each body xs acc = Ok out -> out = acc ++ flat_map (emitted body) xs.
Proof.
  intros Happ xs. induction xs as [|x xs IH]; simpl; intros acc out H.
  - injection H as <-. now rewrite app_nil_r.
  - destruct (body acc x) as [acc'|e] eqn:E; simpl in H; [|discriminate].
    apply IH in H. rewrite (Happ _ _ _ E) in H. now rewrite <- app_assoc in H.
Qed.

Lemma numeric_rule_appends : appends numeric_rule.
Proof.
  intros acc [col st] acc'. unfold emitted, numeric_rule. simpl.
  destruct (float_gt (NumericStats.std st) 0); [|now intros [= <-]; rewrite app_nil_r].
  destruct (float_div (NumericStats.std st) (NumericStats.mean st)) as [q|e];
    simpl; [|discriminate].
  destruct (float_gt (float_mul q 100) 50); now intros [= <-].
Qed.

Lemma categorical_rule_appends total_rows : appends (categorical_rule total_rows).
Proof.
  intros acc [col st] acc'. unfold emitted, categorical_rule. simpl.
  destruct (total_rows =? 0); [discriminate|].
  destruct (Qltb 50 _); now intros [= <-].
Qed.

Lemma trend_rule_appends np_mean frame : appends (trend_rule np_mean frame).
Proof.
  intros acc col acc'. unfold emitted, trend_rule.
  destruct (getitem frame col) as [s|e]; simpl; [|discriminate].
  destruct (series_len s <? 3); [now intros [= <-]; rewrite app_nil_r|].
  destruct s as [values|c|c]; try discriminate.
  destruct (Float64.gt _ _); [|now intros [= <-]; rewrite app_nil_r].
  destruct (Float64.gt (Float64.abs _) _); intros [= <-];
    [reflexivity|now rewrite app_nil_r].
Qed.

(** ** What each rule can emit *)

Lemma numeric_emitted_shape col st o :
  In o (emitted numeric_rule (col, st)) ->
  float_gt (NumericStats.std st) 0 = true
  /\ ((exists cv lo hi, o = HighVariability col cv lo hi)
      \/ (exists m s, o = ConsistentValues col m s)).
Proof.
  unfold emitted, numeric_rule. simpl.
  destruct (float_gt (NumericStats.std st) 0); [|intros []].
  destruct (float_div _ _) as [q|e]; simpl; [|intros []].
  destruct (float_gt (float_mul q 100) 50); simpl; intros [<-|[]];
    (split; [reflexivity|]); [left|right]; eauto.
Qed.

Lemma categorical_emitted_shape total_rows col st o :
  In o (emitted (categorical_rule total_rows) (col, st)) ->
  (exists v p, o = Dominates v col p) \/ (exists n v p, o = UniqueValues col n v p).
Proof.
  unfold emitted, categorical_rule. simpl.
  destruct (total_rows =? 0); [intros []|].
  destruct (Qltb 50 _); simpl; intros [<-|[]]; [left|right]; eauto.
Qed.

Lemma trend_emitted_shape np_mean frame col o :
  In o (emitted (trend_rule np_mean frame) col) -> exists up mag, o = Trend col up mag.
Proof.
  unfold emitted, trend_rule.
  destruct (getitem frame col) as [s|e]; simpl; [|intros []].
  destruct (series_len s <? 3); [intros []|].
  destruct s as [values|c|c]; try (intros []).
  destruct (Float64.gt _ _); [|intros []].
  destruct (Float64.gt (Float64.abs _) _); cbn [app]; [|intros []].
  intros [<-|[]]. eauto.
Qed.

(** The trend of a numeric column of three values or more. *)
Lemma trend_emitted_numeric (np_mean : list (option Q) -> Float64.t)
    frame col values :
  getitem frame col = Ok (NumCol values) ->
  3 <= List.length values ->
  let f := np_mean (firstn (List.length values / 2) values) in
  let s := np_mean (skipn (List.length values / 2) values) in
  emitted (trend_rule np_mean frame) col
  = if Float64.gt f (Float64.of_Z 0) then
      if Float64.gt (Float64.abs (change_pct f s)) (Float64.of_Z 10) then
        [Trend col (Float64.gt (change_pct f s) (Float64.of_Z 0))
           (Float64.abs (change_pct f s))]
      else []
    else [].
Proof.
  intros Hget Hlen. cbv zeta. unfold emitted, trend_rule. rewrite Hget.
  cbn [bind series_len].
  destruct (List.length values <? 3) eqn:E; [apply Nat.ltb_lt in E; lia|].
  destruct (Float64.gt _ (Float64.of_Z 0)); [|reflexivity].
  now destruct (Float64.gt (Float64.abs _) _).
Qed.

(** ** The claims on the insight engine *)

(** C4, amended.  For a numeric column of the statistics bundle whose
    standard deviation is 0, the numeric-variability rule emits no
    observation at all: neither the "consistent values" one nor the "high
    variability" one.  The rule looks at a column only when its standard
    deviation is positive. *)
Theorem zero_std_column_gets_no_variability_insight
    (stats : Stats.t) (col : string) (st : NumericStats.t) (z : Q)
    (out : list Insight) :
  NoDup (map fst (Stats.numeric_stats stats)) ->
  In (col, st) (Stats.numeric_stats stats) ->
  NumericStats.std st = Some z -> (z == 0)%Q ->
  _analyze_numeric_columns stats [] = Ok out ->
  (forall cv lo hi, ~ In (HighVariability col cv lo hi) out)
  /\ (forall m s, ~ In (ConsistentValues col m s) out).
Proof.
  intros Hnd Hin Hstd Hz Hrun.
  apply (for_each_emits _ numeric_rule_appends) in Hrun. simpl in Hrun. subst out.
  assert (Hnone : forall o, In o (flat_map (emitted numeric_rule) (Stats.numeric_stats stats)) ->
            (exists cv lo hi, o = HighVariability col cv lo hi)
            \/ (exists m s, o = ConsistentValues col m s) -> False).
  { intros o Ho Hshape. apply in_flat_map in Ho. destruct Ho as [[c st'] [Hin' Ho]].
    apply numeric_emitted_shape in Ho. destruct Ho as [Hgt Hc].
    assert (c = col).
    { destruct Hshape as [(cv & lo & hi & ->)|(m & s & ->)];
        destruct Hc as [(? & ? & ? & [= ->])|(? & ? & [= ->])]; try reflexivity;
        discriminate. }
    subst c.
    apply (in_lookup _ _ _ Hnd) in Hin, Hin'.
    assert (st' = st) by congruence. subst st'.
    rewrite Hstd in Hgt. simpl in Hgt. apply Qltb_lt in Hgt.
    rewrite Hz in Hgt. exact (Qlt_irrefl _ Hgt). }
  split.
  - intros cv lo hi H. apply (Hnone _ H). left. eauto.
  - intros m s H. apply (Hnone _ H). right. eauto.
Qed.

Lemma zero_std_column_gets_no_variability_insight_witness :
  NoDup (map fst (Stats.numeric_stats Samples.flat_bundle))
  /\ In ("z", Samples.constant_stats) (Stats.numeric_stats Samples.flat_bundle)
  /\ NumericStats.std Samples.constant_stats = Some 0%Q
  /\ (0 == 0)%Q
  /\ _analyze_numeric_columns Samples.flat_bundle [] = Ok []
  /\ (forall cv lo hi, ~ In (HighVariability "z" cv lo hi) [])
  /\ (forall m s, ~ In (ConsistentValues "z" m s) []).
Proof.
  assert (Hnd : NoDup (map fst (Stats.numeric_stats Samples.flat_bundle)))
    by CleanerFacts.distinct_labels.
  assert (Hin : In ("z", Samples.constant_stats)
                   (Stats.numeric_stats Samples.flat_bundle)) by (simpl; auto).
  assert (Hstd : NumericStats.std Samples.constant_stats = Some 0%Q) by reflexivity.
  assert (Hz : (0 == 0)%Q) by reflexivity.
  assert (Hrun : _analyze_numeric_columns Samples.flat_bundle [] = Ok [])
    by reflexivity.
  repeat split; try assumption;
    apply (zero_std_column_gets_no_variability_insight
             Samples.flat_bundle "z" Samples.constant_stats 0%Q [] Hnd Hin Hstd Hz Hrun).
Defined.

(** The constant column of [flat_bundle] has a nonzero mean and a zero
    standard deviation, and the rule says nothing about it. *)
Lemma constant_column_not_reported_consistent :
  In ("z", Samples.constant_stats) (Stats.numeric_stats Samples.flat_bundle)
  /\ NumericStats.std Samples.constant_stats = Some 0%Q
  /\ NumericStats.mean Samples.constant_stats = Some 5%Q
  /\ _analyze_numeric_columns Samples.flat_bundle [] = Ok [].
Proof. repeat split. simpl. auto. Qed.

(** C5, amended.  For each of the first two numeric columns of the type map
    with at least three values, the trend rule skips emission whenever the
    first-half mean is not positive (zero, negative or NaN); when it is
    positive, the rule computes [change_pct = ((mean(second) - mean(first))
    / mean(first)) * 100] in double precision, each operation rounded, and
    emits a trend observation exactly when the computed [|change_pct|]
    exceeds 10, upward when [change_pct > 0], with [|change_pct|] as
    magnitude.  The means are the doubles that [np.mean] returns. *)
Theorem trend_emitted_iff_positive_base
    (np_mean : list (option Q) -> Float64.t)
    (frame : DataFrame) (column_types : StatsEngine.TypeMap)
    (out : list Insight) (col : string) (values : list (option Q)) :
  _analyze_trends np_mean frame column_types [] = Ok out ->
  In col (firstn 2 (StatsEngine.cols_of_type numeric column_types)) ->
  getitem frame col = Ok (NumCol values) ->
  3 <= List.length values ->
  let f := np_mean (firstn (List.length values / 2) values) in
  let s := np_mean (skipn (List.length values / 2) values) in
  let change :=
    Float64.mul (Float64.div (Float64.sub s f) f) (Float64.of_Z 100) in
  ((exists up mag, In (Trend col up mag) out)
   <-> Float64.gt f (Float64.of_Z 0) = true
       /\ Float64.gt (Float64.abs change) (Float64.of_Z 10) = true)
  /\ (forall up mag, In (Trend col up mag) out ->
        up = Float64.gt change (Float64.of_Z 0) /\ mag = Float64.abs change).
Proof.
  intros Hrun Hcol Hget Hlen f s change.
  apply (for_each_emits _ (trend_rule_appends np_mean frame)) in Hrun.
  simpl in Hrun. subst out.
  pose proof (trend_emitted_numeric np_mean frame col values Hget Hlen) as Hem.
  cbv zeta in Hem. fold f s in Hem. fold (change_pct f s) in change.
  fold change in Hem. clearbody change f s.
  assert (Hown : forall up mag,
            In (Trend col up mag)
               (flat_map (emitted (trend_rule np_mean frame))
                  (firstn 2 (StatsEngine.cols_of_type numeric column_types)))
            <-> In (Trend col up mag) (emitted (trend_rule np_mean frame) col)).
  { intros up mag. rewrite in_flat_map. split.
    - intros (c & _ & Hin).
      destruct (trend_emitted_shape _ _ _ _ Hin) as (? & ? & [= <-]). exact Hin.
    - intro Hin. now exists col. }
  split.
  - split.
    + intros (up & mag & Hin). apply Hown in Hin. rewrite Hem in Hin.
      destruct (Float64.gt f _); [|destruct Hin].
      destruct (Float64.gt (Float64.abs change) _); [|destruct Hin].
      now split.
    + intros [Hpos Hbig].
      exists (Float64.gt change (Float64.of_Z 0)), (Float64.abs change).
      apply Hown. rewrite Hem, Hpos, Hbig. now left.
  - intros up mag Hin. apply Hown in Hin. rewrite Hem in Hin.
    destruct (Float64.gt f _); [|destruct Hin].
    destruct (Float64.gt (Float64.abs change) _); [|destruct Hin].
    destruct Hin as [[= <- <-]|[]]. now split.
Qed.

Lemma trend_emitted_iff_positive_base_witness :
  exists out,
    _analyze_trends Samples.mean64 Samples.doubled
      (Samples.all_numeric Samples.doubled) [] = Ok out
    /\ In "y" (firstn 2 (StatsEngine.cols_of_type numeric
                           (Samples.all_numeric Samples.doubled)))
    /\ getitem Samples.doubled "y" = Ok (NumCol (map Samples.num [2; 4; 6; 8]%Z))
    /\ 3 <= List.length (map Samples.num [2; 4; 6; 8]%Z)
    /\ Samples.mean64 (map Samples.num [2; 4]%Z) = Float64.of_Z 3
    /\ Samples.mean64 (map Samples.num [6; 8]%Z) = Float64.of_Z 7
    /\ exists up mag, In (Trend "y" up mag) out.
Proof.
  assert (Hrun : exists out,
             _analyze_trends Samples.mean64 Samples.doubled
               (Samples.all_numeric Samples.doubled) [] = Ok out)
    by (eexists; vm_compute; reflexivity).
  destruct Hrun as [out Hrun]. exists out.
  assert (Hcol : In "y" (firstn 2 (StatsEngine.cols_of_type numeric
                                     (Samples.all_numeric Samples.doubled))))
    by (simpl; auto).
  assert (Hget : getitem Samples.doubled "y"
                 = Ok (NumCol (map Samples.num [2; 4; 6; 8]%Z))) by reflexivity.
  assert (Hlen : 3 <= List.length (map Samples.num [2; 4; 6; 8]%Z))
    by (simpl; lia).
  repeat (split; [assumption|]).
  split; [vm_compute; reflexivity|]. split; [vm_compute; reflexivity|].
  apply (proj2 (proj1 (trend_emitted_iff_positive_base Samples.mean64
                         Samples.doubled (Samples.all_numeric Samples.doubled)
                         out "y" _ Hrun Hcol Hget Hlen))).
  split; vm_compute; reflexivity.
Defined.

(** The losses of [losses] double from a first-half mean of -10 to a
    second-half mean of -20: the first-half mean is not zero, the change is
    100 percent, and the rule emits nothing. *)
Lemma doubling_losses_show_no_trend :
  exists values,
    getitem Samples.losses "balance" = Ok (NumCol values)
    /\ 3 <= List.length values
    /\ Samples.mean64 (firstn (List.length values / 2) values)
       = Float64.of_Z (-10)
    /\ Samples.mean64 (skipn (List.length values / 2) values)
       = Float64.of_Z (-20)
    /\ Float64.eqb (Float64.of_Z (-10)) (Float64.of_Z 0) = false
    /\ change_pct (Float64.of_Z (-10)) (Float64.of_Z (-20)) = Float64.of_Z 100
    /\ Float64.gt (Float64.abs (Float64.of_Z 100)) (Float64.of_Z 10) = true
    /\ _analyze_trends Samples.mean64 Samples.losses
         (Samples.all_numeric Samples.losses) [] = Ok [].
Proof.
  eexists. split; [reflexivity|]. split; [simpl; lia|].
  repeat split; vm_compute; reflexivity.
Qed.

(** The rounding decides at the threshold.  The exact change of
    [4, 3, 3 | 3, 3, 3] is -10 percent, which is not beyond the threshold;
    the first-half mean 10/3 is rounded, and the computed change is a
    little beyond -10, so the rule emits a downward trend. *)
Lemma rounding_tips_the_threshold :
  exists mag,
    _analyze_trends Samples.mean64 MoreSamples.settling
      (Samples.all_numeric MoreSamples.settling) []
    = Ok [Trend "level" false mag]
    /\ Float64.gt mag (Float64.of_Z 10) = true.
Proof.
  eexists. split; vm_compute; reflexivity.
Qed.

(** ** The closing summary and the cap *)

Lemma in_firstn {A : Type} (n : nat) (l : list A) (x : A) :
  In x (firstn n l) -> In x l.
Proof.
  intro H. rewrite <- (firstn_skipn n l). apply in_or_app. now left.
Qed.

Lemma emitted_not_summary {A : Type}
    (body : list Insight -> A -> result (list Insight)) (xs : list A) :
  (forall x o, In o (emitted body x) -> not_summary o) ->
  Forall not_summary (flat_map (emitted body) xs).
Proof.
  intro H. apply Forall_forall. intros o Ho.
  apply in_flat_map in Ho. destruct Ho as (x & _ & Ho). exact (H x o Ho).
Qed.

Lemma numeric_not_summary item o :
  In o (emitted numeric_rule item) -> not_summary o.
Proof.
  destruct item as [col st]. intros H r c.
  destruct (numeric_emitted_shape _ _ _ H) as [_ [(? & ? & ? & ->)|(? & ? & ->)]];
    discriminate.
Qed.

Lemma categorical_not_summary total_rows item o :
  In o (emitted (categorical_rule total_rows) item) -> not_summary o.
Proof.
  destruct item as [col st]. intros H r c.
  destruct (categorical_emitted_shape _ _ _ _ H) as [(? & ? & ->)|(? & ? & ? & ->)];
    discriminate.
Qed.

Lemma trend_not_summary np_mean frame col o :
  In o (emitted (trend_rule np_mean frame) col) -> not_summary o.
Proof.
  intros H r c.
  destruct (trend_emitted_shape _ _ _ _ H) as (? & ? & ->). discriminate.
Qed.

Lemma analyze_correlations_not_summary stats insights :
  Forall not_summary insights ->
  Forall not_summary (_analyze_correlations stats insights).
Proof.
  intro H. unfold _analyze_correlations.
  destruct (top_correlations_of (Stats.correlations stats)) as [|strongest rest];
    [assumption|].
  destruct (float_gt _ _); [|assumption].
  apply Forall_app. split; [assumption|]. constructor; [|constructor].
  intros r c. discriminate.
Qed.

(** C6, amended.  Whenever the insight engine returns a list, the list has
    at most 7 entries and is the first 7 entries of the observations of the
    first four rules followed by one data-quality observation with the total
    row and column counts.  It therefore holds exactly one data-quality
    observation, as its last entry, when the first four rules emit at most
    6 observations, and none when they emit 7 or more. *)
Theorem insights_capped_and_summary_last
    (np_mean : list (option Q) -> Float64.t)
    (frame : DataFrame) (column_types : StatsEngine.TypeMap) (stats : Stats.t)
    (out : list Insight) :
  generate_insights np_mean frame column_types stats = Ok out ->
  List.length out <= 7
  /\ exists earlier,
       let summary :=
         DataQuality (Overview.total_rows (Stats.overview stats))
                     (Overview.total_columns (Stats.overview stats)) in
       (forall r c, ~ In (DataQuality r c) earlier)
       /\ out = firstn 7 (earlier ++ [summary])
       /\ (List.length earlier <= 6 -> out = earlier ++ [summary])
       /\ (7 <= List.length earlier -> forall r c, ~ In (DataQuality r c) out).
Proof.
  unfold generate_insights. intro H.
  destruct (_analyze_numeric_columns stats []) as [l1|e] eqn:E1;
    cbn [bind] in H; [|discriminate].
  destruct (_analyze_categorical_columns stats l1) as [l2|e] eqn:E2;
    cbn [bind] in H; [|discriminate].
  destruct (_analyze_trends np_mean frame column_types l2) as [l3|e] eqn:E3;
    cbn [bind] in H; [|discriminate].
  assert (Hout : out = firstn 7 (_analyze_data_quality stats
                                   (_analyze_correlations stats l3)))
    by (injection H; intro Hq; symmetry; exact Hq).
  clear H. subst out.
  apply (for_each_emits _ numeric_rule_appends) in E1.
  apply (for_each_emits _ (categorical_rule_appends _)) in E2.
  apply (for_each_emits _ (trend_rule_appends np_mean frame)) in E3.
  assert (H3 : Forall not_summary l3).
  { subst l3 l2 l1. rewrite app_nil_l.
    apply Forall_app. split; [apply Forall_app; split|].
    - apply emitted_not_summary. apply numeric_not_summary.
    - apply emitted_not_summary. apply categorical_not_summary.
    - apply emitted_not_summary. apply trend_not_summary. }
  pose proof (analyze_correlations_not_summary stats l3 H3) as He.
  set (earlier := _analyze_correlations stats l3) in *.
  assert (Hno : forall r c, ~ In (DataQuality r c) earlier).
  { intros r c Hin. rewrite Forall_forall in He. exact (He _ Hin r c eq_refl). }
  unfold _analyze_data_quality.
  split; [apply firstn_le_length|].
  exists earlier. cbv zeta. split; [exact Hno|]. split; [reflexivity|]. split.
  - intro Hlen. apply firstn_all2. rewrite length_app. simpl. lia.
  - intros Hlen r c Hin. rewrite firstn_app in Hin.
    replace (7 - List.length earlier) with 0 in Hin by lia.
    rewrite firstn_0, app_nil_r in Hin. apply in_firstn in Hin.
    exact (Hno r c Hin).
Qed.

Lemma insights_capped_and_summary_last_witness :
  generate_insights Samples.mean64 Samples.doubled (Samples.all_numeric Samples.doubled)
    (StatsEngine.calculate_all Approx.sqrt Samples.doubled
       (Samples.all_numeric Samples.doubled))
  = Ok [HighVariability "x" (Some (645497 # 12500)%Q) (Some 1%Q) (Some 4%Q);
        HighVariability "y" (Some (645497 # 12500)%Q) (Some 2%Q) (Some 8%Q);
        Trend "x" true (change_pct (Float64.of_Z 3) (Float64.of_Z 7));
        Trend "y" true (change_pct (Float64.of_Z 3) (Float64.of_Z 7));
        StrongCorrelation true (Some 1%Q) "x" "y";
        DataQuality 4 3]
  /\ 6 <= 7.
Proof.
  assert (Hrun :
    generate_insights Samples.mean64 Samples.doubled (Samples.all_numeric Samples.doubled)
      (StatsEngine.calculate_all Approx.sqrt Samples.doubled
         (Samples.all_numeric Samples.doubled))
    = Ok [HighVariability "x" (Some (645497 # 12500)%Q) (Some 1%Q) (Some 4%Q);
          HighVariability "y" (Some (645497 # 12500)%Q) (Some 2%Q) (Some 8%Q);
          Trend "x" true (change_pct (Float64.of_Z 3) (Float64.of_Z 7));
          Trend "y" true (change_pct (Float64.of_Z 3) (Float64.of_Z 7));
          StrongCorrelation true (Some 1%Q) "x" "y";
          DataQuality 4 3]) by (vm_compute; reflexivity).
  split; [exact Hrun|].
  exact (proj1 (insights_capped_and_summary_last _ _ _ _ _ Hrun)).
Defined.

(** Seven text columns give seven observations of the categorical rule;
    the cap cuts the closing summary off. *)
Lemma seven_columns_lose_the_summary :
  exists out,
    generate_insights Samples.mean64 Samples.seven_labels
      (Samples.all_categorical Samples.seven_labels)
      (StatsEngine.calculate_all Approx.sqrt Samples.seven_labels
         (Samples.all_categorical Samples.seven_labels))
    = Ok out
    /\ List.length out = 7
    /\ forall r c, ~ In (DataQuality r c) out.
Proof.
  eexists. split; [vm_compute; reflexivity|]. split; [reflexivity|].
  intros r c H. simpl in H.
  repeat (destruct H as [H|H]; [discriminate H|]). exact H.
Qed.

(** ** When the engine returns *)

Lemma for_each_ok {A S : Type} (body : S -> A -> result S) (xs : list A) :
  (forall s x, In x xs -> exists s', body s x = Ok s') ->
  forall s, exists s', for_each body xs s = Ok s'.
Proof.
  induction xs as [|x xs IH]; intros Hbody s; simpl; [eauto|].
  destruct (Hbody s x (or_introl eq_refl)) as [s1 ->]. simpl.
  apply IH. intros s0 y Hy. apply Hbody. now right.
Qed.

(** The engine returns a list when no column with a positive standard
    deviation has a zero mean, the row count is not zero or there is no
    categorical column, and the first two numeric columns of the type map
    are numeric columns of the table. *)
Lemma generate_insights_returns
    (np_mean : list (option Q) -> Float64.t)
    (frame : DataFrame) (column_types : StatsEngine.TypeMap) (stats : Stats.t) :
  (forall col st m,
      In (col, st) (Stats.numeric_stats stats) ->
      NumericStats.mean st = Some m -> ~ (m == 0)%Q) ->
  (Overview.total_rows (Stats.overview stats) <> 0
   \/ Stats.categorical_stats stats = []) ->
  (forall col, In col (firstn 2 (StatsEngine.cols_of_type numeric column_types)) ->
     exists values, getitem frame col = Ok (NumCol values)) ->
  exists out, generate_insights np_mean frame column_types stats = Ok out.
Proof.
  intros Hmean Hrows Hcols. unfold generate_insights.
  destruct (for_each_ok numeric_rule (Stats.numeric_stats stats)) with (s := @nil Insight)
    as [l1 E1].
  { intros acc [col st] Hin. unfold numeric_rule. simpl.
    destruct (float_gt (NumericStats.std st) 0); [|eauto].
    unfold float_div. destruct (NumericStats.mean st) as [m|] eqn:Em; simpl.
    - destruct (Qeq_bool m 0) eqn:E0.
      + apply Qeq_bool_iff in E0. exfalso. exact (Hmean col st m Hin Em E0).
      + simpl. destruct (float_gt _ 50); eauto.
    - eauto. }
  unfold _analyze_numeric_columns. rewrite E1. cbn [bind].
  destruct (for_each_ok (categorical_rule (Overview.total_rows (Stats.overview stats)))
              (Stats.categorical_stats stats)) with (s := l1) as [l2 E2].
  { intros acc [col st] Hin. unfold categorical_rule. simpl.
    destruct Hrows as [Hr|He]; [|rewrite He in Hin; destruct Hin].
    destruct (_ =? 0) eqn:E0; [apply Nat.eqb_eq in E0; contradiction|].
    destruct (Qltb 50 _); eauto. }
  unfold _analyze_categorical_columns. rewrite E2. cbn [bind].
  destruct (for_each_ok (trend_rule np_mean frame)
              (firstn 2 (StatsEngine.cols_of_type numeric column_types)))
    with (s := l2) as [l3 E3].
  { intros acc col Hin. unfold trend_rule.
    destruct (Hcols col Hin) as [values ->]. cbn [bind series_len].
    destruct (_ <? 3); [eauto|].
    destruct (Float64.gt _ _); [|eauto].
    destruct (Float64.gt (Float64.abs _) _); eauto. }
  unfold _analyze_trends. rewrite E3. cbn [bind]. eauto.
Qed.

End InsightFacts.

(** * The endpoints and the empty table *)

Module AppFacts.
Import Pandas App InsightView.

(** C1.  The upload endpoint rejects a table without rows with status 400
    before anything else happens, but the analysis endpoint does not: a
    table of zero rows goes through the cleaner, the statistics and the
    insight rules, and the endpoint answers with a result. *)
Theorem zero_row_table_is_analyzed :
  len Samples.header_only = 0
  /\ (forall str_of,
        upload_file str_of Samples.header_only
        = Raise (HTTPException 400 "File is empty"))
  /\ DataCleaner.clean IsoDate.to_datetime (DataCleaner.init Samples.header_only)
     = Ok (mkDataFrame 0 [("a", DateCol [])],
           CleaningReport.mk 0 1 0 1 [] [("a", datetime)])
  /\ forall np_mean str_of (Charts : Type) (drawn : Charts),
       exists results,
         analyze_data IsoDate.to_datetime Approx.sqrt np_mean str_of Charts
           (fun _ _ => Ok drawn) (Some Samples.header_only)
         = Ok results
         /\ Results.cleaning_report results
            = CleaningReport.mk 0 1 0 1 [] [("a", datetime)]
         /\ Results.insights results = [DataQuality 0 1].
Proof.
  split; [reflexivity|]. split; [reflexivity|]. split; [reflexivity|].
  intros np_mean str_of Charts drawn. eexists.
  split; [reflexivity|]. split; reflexivity.
Qed.

Lemma for_each_raise {A S : Type} (body : S -> A -> result S) xs :
  forall s e, for_each body xs s = Raise e -> exists s' x, body s' x = Raise e.
Proof.
  induction xs as [|x xs IH]; simpl; intros s e H; [discriminate|].
  destruct (body s x) as [s'|e'] eqn:E; simpl in H.
  - now apply IH in H.
  - injection H as ->. now exists s, x.
Qed.

Lemma getitem_raise frame col e :
  getitem frame col = Raise e -> is_http e = false.
Proof.
  unfold getitem. destruct (lookup col (columns frame)); [discriminate|].
  now intros [= <-].
Qed.

Lemma clean_raise to_datetime self e :
  DataCleaner.clean to_datetime self = Raise e -> is_http e = false.
Proof.
  unfold DataCleaner.clean.
  destruct (DataCleaner._handle_missing_values _) as [s1|e1] eqn:E1; cbn [bind].
  - destruct (DataCleaner._detect_column_types _ _) as [s2|e2] eqn:E2; cbn [bind];
      [discriminate|].
    intros [= ->]. apply for_each_raise in E2. destruct E2 as (s' & col & E2).
    unfold DataCleaner.detect_column in E2.
    destruct (getitem (DataCleaner.df s') col) as [s|e0] eqn:Eg; cbn [bind] in E2.
    + destruct s as [c|c|c]; try discriminate. now destruct (to_datetime c).
    + injection E2 as ->. exact (getitem_raise _ _ _ Eg).
  - intros [= ->]. apply for_each_raise in E1. destruct E1 as (s' & col & E1).
    unfold DataCleaner.handle_missing_column in E1.
    destruct (getitem (DataCleaner.df s') col) as [s|e0] eqn:Eg; cbn [bind] in E1.
    + destruct (isna_sum s =? 0); [discriminate|].
      destruct (Qltb 50 _); [discriminate|].
      destruct s as [c|c|c]; try discriminate.
      * now destruct (mode_date c).
      * now destruct (mode_obj c).
    + injection E1 as ->. exact (getitem_raise _ _ _ Eg).
Qed.

Lemma generate_insights_raise np_mean frame column_types stats e :
  InsightEngine.generate_insights np_mean frame column_types stats = Raise e ->
  is_http e = false.
Proof.
  unfold InsightEngine.generate_insights.
  destruct (InsightEngine._analyze_numeric_columns stats []) as [l1|e1] eqn:E1;
    cbn [bind].
  - destruct (InsightEngine._analyze_categorical_columns stats l1) as [l2|e2] eqn:E2;
      cbn [bind].
    + destruct (InsightEngine._analyze_trends np_mean frame column_types l2) as [l3|e3] eqn:E3;
        cbn [bind]; [discriminate|].
      intros [= ->]. apply for_each_raise in E3. destruct E3 as (acc & col & E3).
      unfold InsightEngine.trend_rule in E3.
      destruct (getitem frame col) as [s|e0] eqn:Eg; cbn [bind] in E3.
      * destruct (series_len s <? 3); [discriminate|].
        destruct s as [c|c|c].
        -- destruct (Float64.gt _ _); [|discriminate].
           now destruct (Float64.gt (Float64.abs _) _).
        -- now injection E3 as <-.
        -- now injection E3 as <-.
      * injection E3 as ->. exact (getitem_raise _ _ _ Eg).
    + intros [= ->]. apply for_each_raise in E2. destruct E2 as (acc & item & E2).
      unfold InsightEngine.categorical_rule in E2.
      destruct (_ =? 0); [now injection E2 as <-|].
      now destruct (Qltb 50 _).
  - intros [= ->]. apply for_each_raise in E1. destruct E1 as (acc & item & E1).
    unfold InsightEngine.numeric_rule in E1.
    destruct (float_gt (NumericStats.std (snd item)) 0); [|discriminate].
    unfold InsightEngine.float_div in E1.
    destruct (NumericStats.mean (snd item)) as [y|]; cbn [bind] in E1.
    + destruct (Qeq_bool y 0); cbn [bind] in E1; [now injection E1 as <-|].
      now destruct (float_gt _ 50).
    + now destruct (float_gt _ 50).
Qed.

(** The analysis endpoint never answers a table it was given with a status
    other than 500, unless the chart collaborator itself raises an HTTP
    error: no table is rejected as invalid input. *)
Lemma analyze_data_rejects_nothing
    (to_datetime : list (option string) -> option (list (option Z)))
    (sqrt : Q -> Q) (np_mean : list (option Q) -> Float64.t)
    (str_of : Exception -> string) (Charts : Type)
    (generate_all : DataFrame -> StatsEngine.TypeMap -> result Charts)
    (frame : DataFrame) (code : nat) (detail : string) :
  (forall d t e, generate_all d t = Raise e -> is_http e = false) ->
  analyze_data to_datetime sqrt np_mean str_of Charts generate_all (Some frame)
  = Raise (HTTPException code detail) ->
  code = 500.
Proof.
  intros Hcharts. unfold analyze_data.
  destruct (DataCleaner.clean to_datetime (DataCleaner.init frame)) as [c|e] eqn:Ec;
    cbn [bind].
  - destruct (generate_all _ _) as [ch|e] eqn:Eg; cbn [bind].
    + destruct (InsightEngine.generate_insights _ _ _) as [i|e] eqn:Ei; cbn [bind].
      * discriminate.
      * apply generate_insights_raise in Ei.
        destruct e; try discriminate; simpl; congruence.
    + apply Hcharts in Eg. destruct e; try discriminate; simpl; congruence.
  - apply clean_raise in Ec. destruct e; try discriminate; simpl; congruence.
Qed.

End AppFacts.

(** * Further properties of the cleaner *)

Module CleanerMore.
Import Pandas DataCleaner CleanerView CleanerFacts Readings.

(** ** Accounting *)

Lemma drop_duplicates_len_le frame :
  index_len (drop_duplicates frame) <= index_len frame.
Proof.
  unfold drop_duplicates. destruct (empty frame); simpl; [lia|].
  etransitivity; [apply filter_length_le|].
  now rewrite length_map, duplicated_length.
Qed.

Lemma drop_duplicates_width frame :
  List.length (columns (drop_duplicates frame)) = List.length (columns frame).
Proof.
  unfold drop_duplicates. destruct (empty frame); simpl; [reflexivity|].
  apply length_map.
Qed.

Lemma removed_rows_app a b : removed_rows (a ++ b) = removed_rows a + removed_rows b.
Proof.
  induction a as [|x a IH]; simpl; [reflexivity|]. destruct x; rewrite ?IH; lia.
Qed.

Lemma dropped_count_app a b : dropped_count (a ++ b) = dropped_count a + dropped_count b.
Proof. unfold dropped_count. now rewrite filter_app, length_app. Qed.

Lemma treat_column_accounts rows col s :
  List.length (survivor rows (col, s))
  + dropped_count (snd (treat_column rows col s)) = 1
  /\ removed_rows (snd (treat_column rows col s)) = 0.
Proof.
  unfold survivor, treat_column. simpl.
  destruct (isna_sum s =? 0); simpl; [split; reflexivity|].
  destruct (Qltb 50 _); simpl; [split; reflexivity|].
  destruct s as [c|c|c]; simpl; [split; reflexivity| |].
  - destruct (mode_date c); split; reflexivity.
  - destruct (mode_obj c); split; reflexivity.
Qed.

Lemma treat_columns_account rows l :
  List.length (treat_columns rows l) + dropped_count (treat_actions rows l)
  = List.length l
  /\ removed_rows (treat_actions rows l) = 0.
Proof.
  induction l as [|[col s] l [IH1 IH2]]; [split; reflexivity|].
  change (treat_columns rows ((col, s) :: l))
    with (survivor rows (col, s) ++ treat_columns rows l).
  change (treat_actions rows ((col, s) :: l))
    with (snd (treat_column rows col s) ++ treat_actions rows l).
  rewrite length_app, dropped_count_app, removed_rows_app.
  destruct (treat_column_accounts rows col s) as [H1 H2]. simpl. split; lia.
Qed.

Lemma dedup_actions_account frame :
  index_len frame
  = index_len (drop_duplicates frame) + removed_rows (dedup_actions frame)
  /\ dropped_count (dedup_actions frame) = 0.
Proof.
  pose proof (drop_duplicates_len_le frame) as Hle.
  unfold dedup_actions, len.
  destruct (index_len (drop_duplicates frame) <? index_len frame) eqn:E; simpl.
  - split; [lia|reflexivity].
  - apply Nat.ltb_ge in E. split; [lia|reflexivity].
Qed.

Section Accounting.
Variable to_datetime : list (option string) -> option (list (option Z)).

(** X1.  The report of [clean] accounts for every row and every column: it
    carries the shapes of the input and of the cleaned table, the original
    row count is the cleaned row count plus the rows of the
    duplicate-removal record, and the original column count is the cleaned
    column count plus the number of drop records. *)
Theorem report_accounts_for_rows_and_columns (frame : DataFrame) :
  NoDup (names frame) ->
  exists cleaned_df report,
    clean to_datetime (init frame) = Ok (cleaned_df, report)
    /\ CleaningReport.original_rows report = len frame
    /\ CleaningReport.original_cols report = List.length (columns frame)
    /\ CleaningReport.cleaned_rows report = len cleaned_df
    /\ CleaningReport.cleaned_cols report = List.length (columns cleaned_df)
    /\ CleaningReport.original_rows report
       = CleaningReport.cleaned_rows report
         + removed_rows (CleaningReport.actions report)
    /\ CleaningReport.original_cols report
       = CleaningReport.cleaned_cols report
         + dropped_count (CleaningReport.actions report).
Proof.
  intro Hnd. exists (cleaned to_datetime frame), (cleaned_report to_datetime frame).
  split; [now apply clean_eq|].
  destruct (dedup_actions_account frame) as [Hrows Hd0].
  destruct (treat_columns_account (index_len (drop_duplicates frame))
              (columns (drop_duplicates frame))) as [Hcols Hr0].
  simpl. unfold len, deduplicated. simpl.
  rewrite removed_rows_app, dropped_count_app, Hr0, Hd0, length_map.
  rewrite drop_duplicates_width in Hcols.
  repeat split; lia.
Qed.

End Accounting.

Lemma report_accounts_for_rows_and_columns_witness :
  NoDup (names Samples.repeated_gaps)
  /\ exists cleaned_df report,
       clean IsoDate.to_datetime (init Samples.repeated_gaps)
       = Ok (cleaned_df, report)
       /\ CleaningReport.original_rows report = len Samples.repeated_gaps
       /\ CleaningReport.original_cols report
          = List.length (columns Samples.repeated_gaps)
       /\ CleaningReport.cleaned_rows report = len cleaned_df
       /\ CleaningReport.cleaned_cols report = List.length (columns cleaned_df)
       /\ CleaningReport.original_rows report
          = CleaningReport.cleaned_rows report
            + removed_rows (CleaningReport.actions report)
       /\ CleaningReport.original_cols report
          = CleaningReport.cleaned_cols report
            + dropped_count (CleaningReport.actions report).
Proof.
  split.
  - distinct_labels.
  - apply (report_accounts_for_rows_and_columns IsoDate.to_datetime
             Samples.repeated_gaps).
    distinct_labels.
Defined.

(** ** Where a missing value can be left *)

(** X2.  After [clean], on a table with distinct labels whose columns are as
    long as its index, a numeric column and a text column have no missing
    value, and a column of timestamps has one only if the date conversion
    produced it, with its gaps, from a text column without gaps: the gaps
    are then those of the parser (text such as [NaT]), and nothing fills
    them. *)
Theorem missing_values_come_from_date_parsing_only
    (to_datetime : list (option string) -> option (list (option Z)))
    (frame : DataFrame) :
  NoDup (names frame) -> aligned frame ->
  exists cleaned_df report,
    clean to_datetime (init frame) = Ok (cleaned_df, report)
    /\ forall col s,
         getitem cleaned_df col = Ok s ->
         match s with
         | NumCol cells => count_null cells = 0
         | ObjCol cells => count_null cells = 0
         | DateCol stamps =>
             count_null stamps = 0
             \/ exists cells,
                  count_null cells = 0 /\ to_datetime cells = Some stamps
         end.
Proof.
  intros Hnd Hal.
  exists (cleaned to_datetime frame), (cleaned_report to_datetime frame).
  split; [now apply clean_eq|].
  intros col s Hget. unfold getitem in Hget.
  destruct (lookup col (columns (cleaned to_datetime frame))) as [s0|] eqn:Hl;
    [|discriminate].
  assert (Hs : s0 = s) by (injection Hget; intro Hq; exact Hq).
  subst s0. apply lookup_in in Hl.
  pose proof (cleaned_columns_cases to_datetime frame Hal) as Hall.
  rewrite Forall_forall in Hall. specialize (Hall _ Hl). cbn [snd] in Hall.
  destruct Hall as [H0|(cells & stamps & Hc & Htd & -> & Hgap)].
  - destruct s; simpl in H0; try assumption. now left.
  - right. now exists cells.
Qed.

Lemma missing_values_come_from_date_parsing_only_witness :
  NoDup (names MoreSamples.dated_twin) /\ aligned MoreSamples.dated_twin
  /\ exists cleaned_df report,
       clean IsoDateNaT.to_datetime (init MoreSamples.dated_twin)
       = Ok (cleaned_df, report)
       /\ getitem cleaned_df "b" = Ok (NumCol (map Samples.num [5; 5; 5]%Z))
       /\ getitem cleaned_df "day"
          = Ok (DateCol [Some 20240101%Z; Some 20240101%Z; None])
       /\ IsoDateNaT.to_datetime
            [Some "2024-01-01"; Some "2024-01-01"; Some "NaT"]
          = Some [Some 20240101%Z; Some 20240101%Z; None].
Proof.
  assert (Hnd : NoDup (names MoreSamples.dated_twin)) by distinct_labels.
  assert (Hal : aligned MoreSamples.dated_twin) by (repeat constructor).
  split; [assumption|]. split; [assumption|].
  destruct (missing_values_come_from_date_parsing_only IsoDateNaT.to_datetime
              MoreSamples.dated_twin Hnd Hal)
    as (cleaned_df & report & Hclean & _).
  exists cleaned_df, report. split; [exact Hclean|].
  rewrite (clean_eq IsoDateNaT.to_datetime MoreSamples.dated_twin Hnd) in Hclean.
  assert (Hdf : cleaned_df = cleaned IsoDateNaT.to_datetime MoreSamples.dated_twin)
    by (injection Hclean; intros _ Hq; symmetry; exact Hq).
  subst cleaned_df. repeat split; vm_compute; reflexivity.
Defined.

(** ** Which columns survive, and in which order *)

Lemma dropped_in_app a b col :
  dropped_in (a ++ b) col = dropped_in a col || dropped_in b col.
Proof. unfold dropped_in. apply existsb_app. Qed.

Lemma dropped_in_iff actions col :
  dropped_in actions col = true <-> exists pct, In (DroppedColumn col pct) actions.
Proof.
  unfold dropped_in. rewrite existsb_exists. split.
  - intros (a & Hin & Hd).
    destruct a as [k|c p|n c m|n c|n c m]; simpl in Hd; try discriminate.
    apply String.eqb_eq in Hd. subst. now exists p.
  - intros (pct & Hin). exists (DroppedColumn col pct). split; [assumption|].
    simpl. apply String.eqb_refl.
Qed.

Lemma dropped_in_names actions col :
  dropped_in actions col = true ->
  exists a, In a actions /\ action_col a = Some col.
Proof.
  intro H. apply dropped_in_iff in H. destruct H as (pct & Hin).
  now exists (DroppedColumn col pct).
Qed.

Lemma treat_actions_foreign rows l col :
  ~ In col (map fst l) -> dropped_in (treat_actions rows l) col = false.
Proof.
  intro Hout. destruct (dropped_in _ col) eqn:E; [|reflexivity]. exfalso.
  apply dropped_in_names in E. destruct E as (a & Hin & Ha).
  apply treat_actions_source in Hin. destruct Hin as (c & s & Hcs & Hsrc).
  apply treat_column_action_col in Hsrc. rewrite Hsrc in Ha. injection Ha as ->.
  apply Hout. change col with (fst (col, s)). now apply in_map.
Qed.

Lemma treat_column_foreign rows col s c :
  c <> col -> dropped_in (snd (treat_column rows col s)) c = false.
Proof.
  intro Hne. destruct (dropped_in _ c) eqn:E; [|reflexivity]. exfalso.
  apply dropped_in_names in E. destruct E as (a & Hin & Ha).
  apply treat_column_action_col in Hin. congruence.
Qed.

Lemma treat_column_own rows col s :
  dropped_in (snd (treat_column rows col s)) col
  = match fst (treat_column rows col s) with
    | None => true
    | Some _ => false
    end.
Proof.
  unfold treat_column.
  destruct (isna_sum s =? 0); simpl; [reflexivity|].
  destruct (Qltb 50 _); simpl; [now rewrite String.eqb_refl|].
  destruct s as [c|c|c]; simpl; [reflexivity| |].
  - now destruct (mode_date c).
  - now destruct (mode_obj c).
Qed.

Lemma treat_columns_names rows l :
  NoDup (map fst l) ->
  map fst (treat_columns rows l)
  = filter (fun c => negb (dropped_in (treat_actions rows l) c)) (map fst l).
Proof.
  induction l as [|[k v] l IH]; intro Hnd; [reflexivity|].
  inversion Hnd as [|? ? Hk Hnd']; subst.
  change (treat_columns rows ((k, v) :: l))
    with (survivor rows (k, v) ++ treat_columns rows l).
  change (treat_actions rows ((k, v) :: l))
    with (snd (treat_column rows k v) ++ treat_actions rows l).
  rewrite map_app. cbn [map fst filter].
  rewrite dropped_in_app, (treat_actions_foreign rows l k Hk), orb_false_r.
  rewrite treat_column_own.
  assert (Hrest :
    filter (fun c => negb (dropped_in (snd (treat_column rows k v)
                                       ++ treat_actions rows l) c)) (map fst l)
    = filter (fun c => negb (dropped_in (treat_actions rows l) c)) (map fst l)).
  { apply filter_ext_in. intros c Hc. rewrite dropped_in_app.
    rewrite treat_column_foreign; [reflexivity|].
    intros ->. contradiction. }
  rewrite Hrest, <- (IH Hnd'). unfold survivor. simpl.
  now destruct (fst (treat_column rows k v)).
Qed.

Lemma dedup_actions_no_drop frame col : dropped_in (dedup_actions frame) col = false.
Proof. unfold dedup_actions. now destruct (_ <? _). Qed.

Section Survivors.
Variable to_datetime : list (option string) -> option (list (option Z)).

(** X3.  The cleaner keeps the columns in their original order and removes
    exactly those for which the report holds a drop record; a drop record
    always names a column of the input. *)
Theorem surviving_columns_keep_their_order (frame : DataFrame) :
  NoDup (names frame) ->
  exists cleaned_df report,
    clean to_datetime (init frame) = Ok (cleaned_df, report)
    /\ names cleaned_df
       = filter (fun c => negb (dropped_in (CleaningReport.actions report) c))
                (names frame)
    /\ (forall col, In col (names frame) ->
          (In col (names cleaned_df)
           <-> forall pct, ~ In (DroppedColumn col pct)
                               (CleaningReport.actions report)))
    /\ (forall col pct,
          In (DroppedColumn col pct) (CleaningReport.actions report) ->
          In col (names frame)).
Proof.
  intro Hnd. exists (cleaned to_datetime frame), (cleaned_report to_datetime frame).
  split; [now apply clean_eq|].
  assert (Hnd' : NoDup (map fst (columns (drop_duplicates frame)))).
  { fold (names (drop_duplicates frame)). now rewrite drop_duplicates_names. }
  assert (Hnames :
    names (cleaned to_datetime frame)
    = filter (fun c => negb (dropped_in
                (CleaningReport.actions (cleaned_report to_datetime frame)) c))
             (names frame)).
  { unfold cleaned, names at 1; simpl. rewrite converted_keys.
    unfold deduplicated. rewrite (treat_columns_names _ _ Hnd').
    fold (names (drop_duplicates frame)). rewrite drop_duplicates_names.
    apply filter_ext. intro c.
    now rewrite dropped_in_app, dedup_actions_no_drop. }
  split; [exact Hnames|]. split.
  - intros col Hcol. rewrite Hnames, filter_In, negb_true_iff. split.
    + intros [_ Hd] pct Hin.
      assert (dropped_in (CleaningReport.actions (cleaned_report to_datetime frame)) col
              = true) by (apply dropped_in_iff; eauto).
      congruence.
    + intro Hno. split; [assumption|].
      destruct (dropped_in _ col) eqn:E; [|reflexivity].
      apply dropped_in_iff in E. destruct E as (pct & Hin). now destruct (Hno pct).
  - intros col pct Hin. simpl in Hin. apply in_app_or in Hin.
    destruct Hin as [Hin|Hin].
    + apply dedup_actions_shape in Hin. destruct Hin as (k & _ & Hk). discriminate.
    + apply treat_actions_source in Hin. destruct Hin as (c & s & Hcs & Hsrc).
      apply treat_column_action_col in Hsrc. simpl in Hsrc. injection Hsrc as <-.
      rewrite <- (drop_duplicates_names frame). unfold names.
      change col with (fst (col, s)). now apply in_map.
Qed.

(** X4.  The type map of the report tells the dtype of every column of the
    cleaned table: numeric for a numeric column, datetime for a datetime
    column, categorical for an object column; and an object column of the
    cleaned table is one that the date parser refused. *)
Theorem type_map_tags_follow_dtypes (frame : DataFrame) :
  NoDup (names frame) ->
  exists cleaned_df report,
    clean to_datetime (init frame) = Ok (cleaned_df, report)
    /\ forall col s,
         getitem cleaned_df col = Ok s ->
         lookup col (CleaningReport.column_types report) = Some (dtype_tag s)
         /\ forall cells, s = ObjCol cells -> to_datetime cells = None.
Proof.
  intro Hnd. exists (cleaned to_datetime frame), (cleaned_report to_datetime frame).
  split; [now apply clean_eq|].
  intros col s Hget. unfold getitem in Hget.
  destruct (lookup col (columns (cleaned to_datetime frame))) as [s0|] eqn:Hl;
    [|discriminate].
  injection Hget as ->. apply lookup_in in Hl.
  unfold cleaned in Hl; simpl in Hl. apply in_map_iff in Hl.
  destruct Hl as ([k v] & Hconv & Hin).
  assert (Htag : tagged to_datetime (k, v) = (col, dtype_tag s)
                 /\ forall cells, s = ObjCol cells -> to_datetime cells = None).
  { unfold converted, tagged, detected in *. simpl in *.
    destruct v as [c|c|c]; simpl in *.
    - injection Hconv as -> <-. split; [reflexivity|discriminate].
    - injection Hconv as -> <-. split; [reflexivity|discriminate].
    - destruct (to_datetime c) eqn:E; simpl in *; injection Hconv as -> <-.
      + split; [reflexivity|discriminate].
      + split; [reflexivity|]. now intros cells [= <-]. }
  destruct Htag as [Htag Hobj]. split; [|exact Hobj].
  simpl. apply in_lookup.
  - rewrite tagged_keys. now apply imputed_NoDup.
  - rewrite <- Htag. now apply in_map.
Qed.

End Survivors.

Lemma surviving_columns_keep_their_order_witness :
  NoDup (names Samples.scenario_a)
  /\ exists cleaned_df report,
       clean IsoDate.to_datetime (init Samples.scenario_a) = Ok (cleaned_df, report)
       /\ names cleaned_df
          = filter (fun c => negb (dropped_in (CleaningReport.actions report) c))
                   (names Samples.scenario_a)
       /\ (forall col, In col (names Samples.scenario_a) ->
             (In col (names cleaned_df)
              <-> forall pct, ~ In (DroppedColumn col pct)
                                  (CleaningReport.actions report)))
       /\ (forall col pct,
             In (DroppedColumn col pct) (CleaningReport.actions report) ->
             In col (names Samples.scenario_a)).
Proof.
  split.
  - distinct_labels.
  - apply (surviving_columns_keep_their_order IsoDate.to_datetime Samples.scenario_a).
    distinct_labels.
Defined.

Lemma type_map_tags_follow_dtypes_witness :
  NoDup (names Samples.scenario_a)
  /\ exists cleaned_df report,
       clean IsoDate.to_datetime (init Samples.scenario_a) = Ok (cleaned_df, report)
       /\ forall col s,
            getitem cleaned_df col = Ok s ->
            lookup col (CleaningReport.column_types report) = Some (dtype_tag s)
            /\ forall cells, s = ObjCol cells -> IsoDate.to_datetime cells = None.
Proof.
  split.
  - distinct_labels.
  - apply (type_map_tags_follow_dtypes IsoDate.to_datetime Samples.scenario_a).
    distinct_labels.
Defined.

(** ** A table that needs no cleaning *)

Lemma select_all_true {A : Type} (mask : list bool) (xs : list A) :
  Forall (fun b => b = true) mask -> List.length xs = List.length mask ->
  select mask xs = xs.
Proof.
  intro Hm. revert xs. induction Hm as [|b mask Hb _ IH]; intros [|x xs] Hlen;
    simpl in *; try reflexivity; try discriminate.
  subst b. f_equal. apply IH. lia.
Qed.

Lemma select_all_columns (mask : list bool) (cols : list (string * Series)) :
  Forall (fun b => b = true) mask ->
  Forall (fun cs => series_len (snd cs) = List.length mask) cols ->
  map (fun cs => (fst cs, series_select mask (snd cs))) cols = cols.
Proof.
  intros Hm Hal. induction Hal as [|[k v] cols Hlen _ IH]; simpl; [reflexivity|].
  rewrite IH. f_equal. f_equal. simpl in Hlen.
  destruct v as [c|c|c]; simpl in *; f_equal; now apply select_all_true.
Qed.

Lemma drop_duplicates_distinct frame :
  aligned frame -> rows_distinct frame -> drop_duplicates frame = frame.
Proof.
  intros Hal Hd. unfold drop_duplicates. destruct (empty frame); [reflexivity|].
  assert (Hkeep : Forall (fun b => b = true) (map negb (duplicated frame))).
  { rewrite Forall_map. apply (Forall_impl _ (P := fun b => b = false));
      [|exact Hd]. now intros b ->. }
  assert (Hklen : List.length (map negb (duplicated frame)) = index_len frame)
    by now rewrite length_map, duplicated_length.
  assert (Hcount : List.length (filter (fun b => b) (map negb (duplicated frame)))
                   = List.length (map negb (duplicated frame))).
  { clear Hklen. induction Hkeep as [|b m Hb _ IH]; simpl; [reflexivity|].
    subst b. simpl. now rewrite IH. }
  rewrite Hcount, Hklen, select_all_columns; [now destruct frame|assumption|].
  unfold aligned in Hal. now rewrite Hklen.
Qed.

(** X5.  A table without repeated rows, without missing values and without
    text columns that parse as dates needs no cleaning: [clean] returns it
    as it is, with an empty list of actions and equal shapes. *)
Theorem clean_table_is_returned_unchanged
    (to_datetime : list (option string) -> option (list (option Z)))
    (frame : DataFrame) :
  NoDup (names frame) -> aligned frame -> rows_distinct frame ->
  (forall col s, In (col, s) (columns frame) -> isna_sum s = 0) ->
  (forall col cells, In (col, ObjCol cells) (columns frame) ->
     to_datetime cells = None) ->
  exists report,
    clean to_datetime (init frame) = Ok (frame, report)
    /\ CleaningReport.actions report = []
    /\ CleaningReport.cleaned_rows report = CleaningReport.original_rows report
    /\ CleaningReport.cleaned_cols report = CleaningReport.original_cols report.
Proof.
  intros Hnd Hal Hd Hnull Hobj.
  exists (cleaned_report to_datetime frame).
  pose proof (drop_duplicates_distinct frame Hal Hd) as Hdd.
  assert (Hclean : Forall (fun cs => isna_sum (snd cs) = 0) (columns frame)).
  { apply Forall_forall. intros [k v] Hin. exact (Hnull k v Hin). }
  destruct (treat_clean_columns (index_len frame) _ Hclean) as [Hcols Hacts].
  assert (Hconv : map (converted to_datetime) (columns frame) = columns frame).
  { rewrite <- (map_id (columns frame)) at 2. apply map_ext_in.
    intros [k v] Hin. unfold converted, detected. simpl.
    destruct v as [c|c|c]; try reflexivity.
    now rewrite (Hobj k c Hin). }
  assert (Hsame : cleaned to_datetime frame = frame).
  { unfold cleaned, imputed, deduplicated. rewrite Hdd. simpl.
    rewrite Hcols, Hconv. now destruct frame. }
  assert (Hda : dedup_actions frame = []).
  { unfold dedup_actions. rewrite Hdd. now rewrite Nat.ltb_irrefl. }
  split; [|split; [|split]].
  - rewrite (clean_eq to_datetime frame Hnd). now rewrite Hsame.
  - simpl. unfold deduplicated. now rewrite Hdd, Hacts, Hda.
  - change (index_len (cleaned to_datetime frame) = index_len frame).
    now rewrite Hsame.
  - change (List.length (columns (cleaned to_datetime frame))
            = List.length (columns frame)).
    now rewrite Hsame.
Qed.

Lemma clean_table_is_returned_unchanged_witness :
  NoDup (names Samples.doubled) /\ aligned Samples.doubled
  /\ rows_distinct Samples.doubled
  /\ (forall col s, In (col, s) (columns Samples.doubled) -> isna_sum s = 0)
  /\ (forall col cells, In (col, ObjCol cells) (columns Samples.doubled) ->
        IsoDate.to_datetime cells = None)
  /\ exists report,
       clean IsoDate.to_datetime (init Samples.doubled)
       = Ok (Samples.doubled, report)
       /\ CleaningReport.actions report = []
       /\ CleaningReport.cleaned_rows report = CleaningReport.original_rows report
       /\ CleaningReport.cleaned_cols report = CleaningReport.original_cols report.
Proof.
  assert (Hnd : NoDup (names Samples.doubled)) by distinct_labels.
  assert (Hal : aligned Samples.doubled) by (repeat constructor).
  assert (Hd : rows_distinct Samples.doubled)
    by (unfold rows_distinct; vm_compute; repeat constructor).
  assert (Hnull : forall col s, In (col, s) (columns Samples.doubled) ->
                                isna_sum s = 0).
  { intros col s Hin. simpl in Hin.
    repeat (destruct Hin as [[= <- <-]|Hin]; [reflexivity|]). destruct Hin. }
  assert (Hobj : forall col cells, In (col, ObjCol cells) (columns Samples.doubled) ->
                                   IsoDate.to_datetime cells = None).
  { intros col cells Hin. simpl in Hin.
    repeat (destruct Hin as [Hin|Hin]; [discriminate Hin|]). destruct Hin. }
  repeat (split; [assumption|]).
  exact (clean_table_is_returned_unchanged IsoDate.to_datetime Samples.doubled
           Hnd Hal Hd Hnull Hobj).
Defined.

End CleanerMore.

(** * Further properties of the statistics engine *)

Module StatsMore.
Import Pandas StatsEngine CleanerView Readings.

(** ** The overview *)

Lemma count_of_type_partition (column_types : TypeMap) :
  count_of_type numeric column_types
  + count_of_type categorical column_types
  + count_of_type datetime column_types
  = List.length column_types.
Proof.
  unfold count_of_type.
  induction column_types as [|[k ty] l IH]; simpl; [reflexivity|].
  destruct ty; simpl; lia.
Qed.

(** X6.  In the overview computed for a cleaned table, the row and column
    totals are those of the cleaning report, and the numeric, categorical
    and datetime counts add up to the column total. *)
Theorem overview_counts_partition_the_columns
    (to_datetime : list (option string) -> option (list (option Z)))
    (frame : DataFrame) :
  NoDup (names frame) ->
  exists cleaned_df report,
    DataCleaner.clean to_datetime (DataCleaner.init frame) = Ok (cleaned_df, report)
    /\ let overview :=
         _get_overview cleaned_df (CleaningReport.column_types report) in
       Overview.total_rows overview = CleaningReport.cleaned_rows report
       /\ Overview.total_columns overview = CleaningReport.cleaned_cols report
       /\ Overview.numeric_columns overview
          + Overview.categorical_columns overview
          + Overview.datetime_columns overview
          = Overview.total_columns overview.
Proof.
  intro Hnd. exists (cleaned to_datetime frame), (cleaned_report to_datetime frame).
  split; [now apply CleanerFacts.clean_eq|].
  cbv zeta. split; [reflexivity|]. split; [reflexivity|].
  unfold _get_overview. cbn [Overview.numeric_columns Overview.categorical_columns
                             Overview.datetime_columns Overview.total_columns].
  rewrite count_of_type_partition.
  unfold cleaned_report, cleaned. cbn [CleaningReport.column_types columns].
  now rewrite !length_map.
Qed.

Lemma overview_counts_partition_the_columns_witness :
  NoDup (names Samples.scenario_a)
  /\ exists cleaned_df report,
       DataCleaner.clean IsoDate.to_datetime (DataCleaner.init Samples.scenario_a)
       = Ok (cleaned_df, report)
       /\ let overview :=
            _get_overview cleaned_df (CleaningReport.column_types report) in
          Overview.total_rows overview = CleaningReport.cleaned_rows report
          /\ Overview.total_columns overview = CleaningReport.cleaned_cols report
          /\ Overview.numeric_columns overview
             + Overview.categorical_columns overview
             + Overview.datetime_columns overview
             = Overview.total_columns overview.
Proof.
  split.
  - CleanerFacts.distinct_labels.
  - apply (overview_counts_partition_the_columns IsoDate.to_datetime
             Samples.scenario_a).
    CleanerFacts.distinct_labels.
Defined.

(** ** The ranking of the correlations *)






Lemma firstn_sorted {A : Type} (R : A -> A -> Prop) n l :
  Sorted R l -> Sorted R (firstn n l).
Proof.
  revert l. induction n as [|n IH]; intros l Hs; [constructor|].
  destruct l as [|a l]; [constructor|]. simpl.
  apply Sorted_inv in Hs. destruct Hs as [Hs Hhd].
  constructor; [now apply IH|].
  destruct l as [|b l]; [rewrite firstn_nil; constructor|].
  destruct n; simpl; constructor. now apply HdRel_inv in Hhd.
Qed.


Section Ranking.
Variable sqrt : Q -> Q.








End Ranking.






End StatsMore.

(** * Further properties of the insight engine *)

Module InsightMore.
Import Pandas InsightEngine InsightView InsightFacts Readings.

(** ** The order of the observations *)

Lemma flat_map_short {A B : Type} (f : A -> list B) (l : list A) :
  (forall x, In x l -> List.length (f x) <= 1) ->
  List.length (flat_map f l) <= List.length l.
Proof.
  induction l as [|x l IH]; intro H; simpl; [lia|].
  rewrite length_app. specialize (H x (or_introl eq_refl)) as Hx.
  assert (List.length (flat_map f l) <= List.length l)
    by (apply IH; intros y Hy; apply H; now right).
  lia.
Qed.

Lemma flat_map_single {A B : Type} (f : A -> list B) (l : list A) :
  (forall x, In x l -> List.length (f x) = 1) ->
  List.length (flat_map f l) = List.length l.
Proof.
  induction l as [|x l IH]; intro H; simpl; [reflexivity|].
  rewrite length_app, (H x (or_introl eq_refl)), IH; [reflexivity|].
  intros y Hy. apply H. now right.
Qed.

Lemma flat_map_kind {A : Type} (kind : Insight -> bool)
    (f : A -> list Insight) (l : list A) :
  (forall x o, In o (f x) -> kind o = true) ->
  forallb kind (flat_map f l) = true.
Proof.
  intro H. apply forallb_forall. intros o Ho. apply in_flat_map in Ho.
  destruct Ho as (x & _ & Ho). exact (H x o Ho).
Qed.

Lemma numeric_emitted_short item : List.length (emitted numeric_rule item) <= 1.
Proof.
  unfold emitted, numeric_rule. simpl.
  destruct (float_gt (NumericStats.std (snd item)) 0); [|simpl; lia].
  destruct (float_div _ _) as [q|e]; simpl; [|lia].
  destruct (float_gt (float_mul q 100) 50); simpl; lia.
Qed.

Lemma categorical_emitted_single total_rows item :
  total_rows <> 0 ->
  List.length (emitted (categorical_rule total_rows) item) = 1.
Proof.
  intro Hn. unfold emitted, categorical_rule.
  destruct (total_rows =? 0) eqn:E; [apply Nat.eqb_eq in E; contradiction|].
  now destruct (Qltb 50 _).
Qed.

Lemma trend_emitted_short np_mean frame col :
  List.length (emitted (trend_rule np_mean frame) col) <= 1.
Proof.
  unfold emitted, trend_rule.
  destruct (getitem frame col) as [s|e]; simpl; [|lia].
  destruct (series_len s <? 3); [simpl; lia|].
  destruct s as [values|c|c]; simpl; try lia.
  destruct (Float64.gt _ _); [|simpl; lia].
  destruct (Float64.gt (Float64.abs _) _); simpl; lia.
Qed.

Lemma categorical_loop_rows total_rows items acc out :
  for_each (categorical_rule total_rows) items acc = Ok out ->
  items = [] \/ total_rows <> 0.
Proof.
  intro H. destruct items as [|item items]; [now left|]. right. intro Hz.
  subst total_rows. simpl in H. unfold categorical_rule in H. simpl in H.
  discriminate.
Qed.

(** The list that the insight engine returns, with the categorical
    observations spelled out. *)
Lemma generate_insights_shape
    (np_mean : list (option Q) -> Float64.t)
    (frame : DataFrame) (column_types : StatsEngine.TypeMap) (stats : Stats.t)
    (out : list Insight) :
  generate_insights np_mean frame column_types stats = Ok out ->
  exists variability trends correlation,
    out = firstn 7 (variability
                    ++ flat_map (emitted (categorical_rule
                                            (Overview.total_rows (Stats.overview stats))))
                         (Stats.categorical_stats stats)
                    ++ trends ++ correlation
                    ++ [DataQuality (Overview.total_rows (Stats.overview stats))
                                    (Overview.total_columns (Stats.overview stats))])
    /\ forallb is_variability variability = true
    /\ List.length variability <= List.length (Stats.numeric_stats stats)
    /\ forallb is_categorical_obs
         (flat_map (emitted (categorical_rule
                               (Overview.total_rows (Stats.overview stats))))
            (Stats.categorical_stats stats)) = true
    /\ List.length
         (flat_map (emitted (categorical_rule
                               (Overview.total_rows (Stats.overview stats))))
            (Stats.categorical_stats stats))
       = List.length (Stats.categorical_stats stats)
    /\ forallb is_trend trends = true
    /\ List.length trends <= 2
    /\ forallb is_correlation correlation = true
    /\ List.length correlation <= 1.
Proof.
  unfold generate_insights. intro H.
  destruct (_analyze_numeric_columns stats []) as [l1|e] eqn:E1;
    cbn [bind] in H; [|discriminate].
  destruct (_analyze_categorical_columns stats l1) as [l2|e] eqn:E2;
    cbn [bind] in H; [|discriminate].
  destruct (_analyze_trends np_mean frame column_types l2) as [l3|e] eqn:E3;
    cbn [bind] in H; [|discriminate].
  assert (Hout : out = firstn 7 (_analyze_data_quality stats
                                   (_analyze_correlations stats l3)))
    by (injection H; intro Hq; symmetry; exact Hq).
  clear H.
  pose proof (categorical_loop_rows _ _ _ _ E2) as Hrows.
  apply (for_each_emits _ numeric_rule_appends) in E1.
  apply (for_each_emits _ (categorical_rule_appends _)) in E2.
  apply (for_each_emits _ (trend_rule_appends np_mean frame)) in E3.
  rewrite app_nil_l in E1.
  set (variability := flat_map (emitted numeric_rule) (Stats.numeric_stats stats)) in *.
  set (categorical :=
         flat_map (emitted (categorical_rule
                              (Overview.total_rows (Stats.overview stats))))
                  (Stats.categorical_stats stats)) in *.
  set (trends := flat_map (emitted (trend_rule np_mean frame))
                   (firstn 2 (StatsEngine.cols_of_type numeric column_types))) in *.
  assert (Hcorr : exists correlation,
            _analyze_correlations stats l3 = l3 ++ correlation
            /\ forallb is_correlation correlation = true
            /\ List.length correlation <= 1).
  { unfold _analyze_correlations.
    destruct (top_correlations_of (Stats.correlations stats)) as [|strongest rest].
    - exists []. rewrite app_nil_r. repeat split. simpl. lia.
    - destruct (float_gt _ _).
      + eexists. split; [reflexivity|]. split; [reflexivity|]. simpl. lia.
      + exists []. rewrite app_nil_r. repeat split. simpl. lia. }
  destruct Hcorr as (correlation & Hc & Hkind & Hlen).
  exists variability, trends, correlation.
  split.
  { rewrite Hout. unfold _analyze_data_quality. rewrite Hc, E3, E2, E1.
    now rewrite <- !app_assoc. }
  split.
  { apply flat_map_kind. intros [col st] o Ho.
    destruct (numeric_emitted_shape _ _ _ Ho) as [_ [(? & ? & ? & ->)|(? & ? & ->)]];
      reflexivity. }
  split; [apply flat_map_short; intros x _; apply numeric_emitted_short|].
  split.
  { apply flat_map_kind. intros [col st] o Ho.
    destruct (categorical_emitted_shape _ _ _ _ Ho) as [(? & ? & ->)|(? & ? & ? & ->)];
      reflexivity. }
  split.
  { destruct Hrows as [Hnil|Hn].
    - unfold categorical. now rewrite Hnil.
    - apply flat_map_single. intros x _. now apply categorical_emitted_single. }
  split.
  { apply flat_map_kind. intros col o Ho.
    destruct (trend_emitted_shape _ _ _ _ Ho) as (? & ? & ->). reflexivity. }
  split.
  { etransitivity; [apply flat_map_short; intros x _; apply trend_emitted_short|].
    apply firstn_le_length. }
  split; assumption.
Qed.

(** X10.  Whenever the insight engine returns a list, the list is the first
    seven entries of: the variability observations (at most one per numeric
    statistics entry), then one observation per categorical statistics
    entry, then at most two trend observations, then at most one
    correlation observation, then the data-quality summary. *)
Theorem insights_follow_the_rule_order
    (np_mean : list (option Q) -> Float64.t)
    (frame : DataFrame) (column_types : StatsEngine.TypeMap) (stats : Stats.t)
    (out : list Insight) :
  generate_insights np_mean frame column_types stats = Ok out ->
  exists variability categorical trends correlation,
    out = firstn 7 (variability ++ categorical ++ trends ++ correlation
                    ++ [DataQuality (Overview.total_rows (Stats.overview stats))
                                    (Overview.total_columns (Stats.overview stats))])
    /\ forallb is_variability variability = true
    /\ List.length variability <= List.length (Stats.numeric_stats stats)
    /\ forallb is_categorical_obs categorical = true
    /\ List.length categorical = List.length (Stats.categorical_stats stats)
    /\ forallb is_trend trends = true
    /\ List.length trends <= 2
    /\ forallb is_correlation correlation = true
    /\ List.length correlation <= 1.
Proof.
  intro H.
  destruct (generate_insights_shape np_mean frame column_types stats out H)
    as (variability & trends & correlation & Hshape).
  exists variability,
    (flat_map (emitted (categorical_rule
                          (Overview.total_rows (Stats.overview stats))))
       (Stats.categorical_stats stats)),
    trends, correlation.
  exact Hshape.
Qed.

Lemma insights_follow_the_rule_order_witness :
  exists out,
    generate_insights Samples.mean64 Samples.doubled (Samples.all_numeric Samples.doubled)
      (StatsEngine.calculate_all Approx.sqrt Samples.doubled
         (Samples.all_numeric Samples.doubled)) = Ok out
    /\ exists variability categorical trends correlation,
         out = firstn 7 (variability ++ categorical ++ trends ++ correlation
                         ++ [DataQuality 4 3])
         /\ forallb is_variability variability = true
         /\ List.length variability <= 3
         /\ forallb is_categorical_obs categorical = true
         /\ List.length categorical = 0
         /\ forallb is_trend trends = true
         /\ List.length trends <= 2
         /\ forallb is_correlation correlation = true
         /\ List.length correlation <= 1.
Proof.
  eexists. split; [vm_compute; reflexivity|].
  apply (insights_follow_the_rule_order Samples.mean64 Samples.doubled
           (Samples.all_numeric Samples.doubled)
           (StatsEngine.calculate_all Approx.sqrt Samples.doubled
              (Samples.all_numeric Samples.doubled))).
  vm_compute. reflexivity.
Defined.

(** ** Division by zero *)

Lemma numeric_rule_cases acc item :
  if zero_mean_entry item
  then numeric_rule acc item = Raise ZeroDivisionError
  else exists acc', numeric_rule acc item = Ok acc'.
Proof.
  unfold zero_mean_entry, numeric_rule.
  destruct (float_gt (NumericStats.std (snd item)) 0); simpl; [|eauto].
  unfold float_div. destruct (NumericStats.mean (snd item)) as [m|]; simpl.
  - destruct (Qeq_bool m 0); simpl; [reflexivity|].
    destruct (float_gt _ 50); eauto.
  - eauto.
Qed.

Lemma numeric_loop_cases items :
  forall acc,
    if existsb zero_mean_entry items
    then for_each numeric_rule items acc = Raise ZeroDivisionError
    else exists out, for_each numeric_rule items acc = Ok out.
Proof.
  induction items as [|item items IH]; intro acc; simpl; [eauto|].
  pose proof (numeric_rule_cases acc item) as Hitem.
  destruct (zero_mean_entry item); simpl.
  - now rewrite Hitem.
  - destruct Hitem as [acc' ->]. simpl. apply IH.
Qed.

Lemma categorical_loop_cases total_rows items acc :
  if (total_rows =? 0) && negb (List.length items =? 0)
  then for_each (categorical_rule total_rows) items acc = Raise ZeroDivisionError
  else exists out, for_each (categorical_rule total_rows) items acc = Ok out.
Proof.
  destruct (total_rows =? 0) eqn:E; simpl.
  - destruct items as [|item items]; simpl; [eauto|].
    unfold categorical_rule at 1. now rewrite E.
  - apply for_each_ok. intros s x _. unfold categorical_rule. rewrite E.
    destruct (Qltb 50 _); eauto.
Qed.

Lemma generate_insights_cases
    (np_mean : list (option Q) -> Float64.t)
    (frame : DataFrame) (column_types : StatsEngine.TypeMap) (stats : Stats.t) :
  (forall col, In col (firstn 2 (StatsEngine.cols_of_type numeric column_types)) ->
     exists values, getitem frame col = Ok (NumCol values)) ->
  (divides_by_zero stats = true ->
   generate_insights np_mean frame column_types stats = Raise ZeroDivisionError)
  /\ (divides_by_zero stats = false ->
      exists out, generate_insights np_mean frame column_types stats = Ok out).
Proof.
  intro Hcols. unfold divides_by_zero, generate_insights,
    _analyze_numeric_columns, _analyze_categorical_columns.
  pose proof (numeric_loop_cases (Stats.numeric_stats stats) []) as Hnum.
  destruct (existsb zero_mean_entry (Stats.numeric_stats stats)); simpl.
  { rewrite Hnum. split; [reflexivity|discriminate]. }
  destruct Hnum as [l1 ->]. cbn [bind].
  pose proof (categorical_loop_cases (Overview.total_rows (Stats.overview stats))
                (Stats.categorical_stats stats) l1) as Hcat.
  destruct ((Overview.total_rows (Stats.overview stats) =? 0)
            && negb (List.length (Stats.categorical_stats stats) =? 0)).
  { rewrite Hcat. split; [reflexivity|discriminate]. }
  destruct Hcat as [l2 ->]. cbn [bind]. split; [discriminate|]. intros _.
  destruct (for_each_ok (trend_rule np_mean frame)
              (firstn 2 (StatsEngine.cols_of_type numeric column_types)))
    with (s := l2) as [l3 E3].
  { intros acc col Hin. unfold trend_rule.
    destruct (Hcols col Hin) as [values ->]. cbn [bind series_len].
    destruct (_ <? 3); [eauto|].
    destruct (Float64.gt _ _); [|eauto].
    destruct (Float64.gt (Float64.abs _) _); eauto. }
  unfold _analyze_trends. rewrite E3. cbn [bind]. eauto.
Qed.

(** X11.  When the first two numeric columns of the type map are numeric
    columns of the table, the insight engine raises exactly on a division
    by zero: it raises [ZeroDivisionError] when a numeric statistics entry
    has a positive standard deviation and a zero mean, or when the row
    count is zero and there are categorical statistics; otherwise it
    returns a list. *)
Theorem insight_engine_raises_exactly_on_zero_division
    (np_mean : list (option Q) -> Float64.t)
    (frame : DataFrame) (column_types : StatsEngine.TypeMap) (stats : Stats.t) :
  (forall col, In col (firstn 2 (StatsEngine.cols_of_type numeric column_types)) ->
     exists values, getitem frame col = Ok (NumCol values)) ->
  (divides_by_zero stats = true ->
   generate_insights np_mean frame column_types stats = Raise ZeroDivisionError)
  /\ (divides_by_zero stats = false ->
      exists out, generate_insights np_mean frame column_types stats = Ok out).
Proof. exact (generate_insights_cases np_mean frame column_types stats). Qed.

Lemma insight_engine_raises_exactly_on_zero_division_witness :
  (forall col,
      In col (firstn 2 (StatsEngine.cols_of_type numeric
                          (Samples.all_numeric MoreSamples.centred))) ->
      exists values, getitem MoreSamples.centred col = Ok (NumCol values))
  /\ divides_by_zero
       (StatsEngine.calculate_all Approx.sqrt MoreSamples.centred
          (Samples.all_numeric MoreSamples.centred)) = true
  /\ generate_insights Samples.mean64 MoreSamples.centred (Samples.all_numeric MoreSamples.centred)
       (StatsEngine.calculate_all Approx.sqrt MoreSamples.centred
          (Samples.all_numeric MoreSamples.centred))
     = Raise ZeroDivisionError.
Proof.
  assert (Hcols : forall col,
            In col (firstn 2 (StatsEngine.cols_of_type numeric
                                (Samples.all_numeric MoreSamples.centred))) ->
            exists values, getitem MoreSamples.centred col = Ok (NumCol values)).
  { intros col [<-|[]]. eexists. reflexivity. }
  assert (Hz : divides_by_zero
                 (StatsEngine.calculate_all Approx.sqrt MoreSamples.centred
                    (Samples.all_numeric MoreSamples.centred)) = true)
    by (vm_compute; reflexivity).
  split; [exact Hcols|]. split; [exact Hz|].
  exact (proj1 (insight_engine_raises_exactly_on_zero_division
                  Samples.mean64 MoreSamples.centred (Samples.all_numeric MoreSamples.centred)
                  _ Hcols) Hz).
Defined.

End InsightMore.

(** * More properties: the analysis endpoint *)

Module AnalysisMore.
Import Pandas DataCleaner CleanerView CleanerFacts InsightView Readings.

Lemma clean_report_shape to_datetime self cleaned_df report :
  clean to_datetime self = Ok (cleaned_df, report) ->
  CleaningReport.cleaned_rows report = index_len cleaned_df
  /\ CleaningReport.cleaned_cols report = List.length (columns cleaned_df).
Proof.
  unfold clean.
  destruct (_handle_missing_values _) as [s1|e1]; cbn [bind]; [|discriminate].
  destruct (_detect_column_types _ _) as [s2|e2]; cbn [bind]; [|discriminate].
  intros [= <- <-]. simpl. split; reflexivity.
Qed.

Lemma head_records_length frame rows :
  List.length (head_records frame rows) = Nat.min rows (len frame).
Proof.
  unfold head_records. now rewrite length_map, length_seq.
Qed.

Lemma head_records_keys frame rows :
  Forall (fun record => map fst record = names frame) (head_records frame rows).
Proof.
  unfold head_records. apply Forall_forall. intros record Hin.
  apply in_map_iff in Hin. destruct Hin as (i & <- & _).
  rewrite map_map. reflexivity.
Qed.

Section Analysis.
Variable to_datetime : list (option string) -> option (list (option Z)).
Variable sqrt : Q -> Q.
Variable np_mean : list (option Q) -> Float64.t.
Variable str_of : Exception -> string.
Variable Charts : Type.
Variable generate_all : DataFrame -> StatsEngine.TypeMap -> result Charts.

(** X13.  In a successful answer of the analysis endpoint the preview shows
    the cleaned table: at most ten records, as many as the cleaned table
    has rows when these are fewer, each with the columns of the preview in
    their order; its shape is the cleaned shape of the report, its column
    types are those of the report, and its columns are the keys of the type
    map. *)
Theorem preview_shows_the_cleaned_table (frame : DataFrame)
    (results : App.Results.t Charts) :
  NoDup (names frame) ->
  App.analyze_data to_datetime sqrt np_mean str_of Charts generate_all (Some frame) = Ok results ->
  let preview := App.Results.preview results in
  let report := App.Results.cleaning_report results in
  List.length (Preview.data preview)
  = Nat.min 10 (CleaningReport.cleaned_rows report)
  /\ Forall (fun record => map fst record = Preview.columns preview)
            (Preview.data preview)
  /\ Preview.shape preview
     = (CleaningReport.cleaned_rows report, CleaningReport.cleaned_cols report)
  /\ Preview.column_types preview = CleaningReport.column_types report
  /\ Preview.columns preview = map fst (CleaningReport.column_types report).
Proof.
  intros Hnd. unfold App.analyze_data. rewrite (clean_eq to_datetime frame Hnd).
  cbn [bind fst snd].
  destruct (generate_all _ _) as [charts|e]; cbn [bind];
    [|destruct e; discriminate].
  destruct (InsightEngine.generate_insights _ _ _) as [out|e]; cbn [bind];
    [|destruct e; discriminate].
  cbn [App.http_guard]. intros [= <-]. cbv zeta.
  cbn [App.Results.preview App.Results.cleaning_report get_preview
       Preview.data Preview.columns Preview.shape Preview.column_types df
       DataCleaner.column_types].
  split; [apply head_records_length|].
  split; [apply head_records_keys|].
  split; [reflexivity|]. split; [reflexivity|].
  unfold cleaned_report, cleaned, names.
  cbn [CleaningReport.column_types columns].
  now rewrite (tagged_keys to_datetime), (converted_keys to_datetime).
Qed.

End Analysis.

Lemma preview_shows_the_cleaned_table_witness :
  NoDup (names Samples.doubled)
  /\ exists results,
       App.analyze_data IsoDate.to_datetime Approx.sqrt Samples.mean64 Samples.exception_text unit Samples.no_charts
         (Some Samples.doubled) = Ok results
       /\ List.length (Preview.data (App.Results.preview results)) = 4
       /\ Preview.columns (App.Results.preview results) = ["x"; "y"; "z"].
Proof.
  assert (Hnd : NoDup (names Samples.doubled)) by distinct_labels.
  split; [exact Hnd|].
  destruct (App.analyze_data IsoDate.to_datetime Approx.sqrt Samples.mean64 Samples.exception_text unit Samples.no_charts
              (Some Samples.doubled)) as [results|e] eqn:E;
    [|vm_compute in E; discriminate E].
  exists results. split; [reflexivity|].
  destruct (preview_shows_the_cleaned_table IsoDate.to_datetime Approx.sqrt
              Samples.mean64 Samples.exception_text unit
              Samples.no_charts Samples.doubled results Hnd E)
    as (Hlen & _ & _ & _ & Hcols).
  assert (Hr : Ok results
               = App.analyze_data IsoDate.to_datetime Approx.sqrt Samples.mean64 Samples.exception_text unit
                   Samples.no_charts (Some Samples.doubled))
    by (symmetry; exact E).
  vm_compute in Hr.
  assert (Hres : results = _) by (injection Hr; intro Hq; exact Hq).
  rewrite Hlen, Hcols. rewrite Hres. split; reflexivity.
Defined.

End AnalysisMore.

(** * More properties: the helper functions of the application *)

Module HelperMore.
Import AppHelpers Readings.

Lemma rsplit_dot_none s : contains_char "."%char s = false -> rsplit_dot s = None.
Proof.
  induction s as [|c s IH]; cbn [contains_char rsplit_dot]; [reflexivity|].
  intro H. apply Bool.orb_false_iff in H. destruct H as [Hc Hs].
  rewrite (IH Hs). rewrite Ascii.eqb_sym. now rewrite Hc.
Qed.

Lemma rsplit_dot_app stem ext :
  contains_char "."%char ext = false ->
  rsplit_dot (stem ++ "." ++ ext)%string = Some (stem, ext).
Proof.
  intro H. induction stem as [|c stem IH]; cbn [append rsplit_dot].
  - rewrite (rsplit_dot_none ext H). now rewrite Ascii.eqb_refl.
  - cbn [append] in IH. now rewrite IH.
Qed.

Lemma contains_char_app c stem ext :
  contains_char c (stem ++ String c ext)%string = true.
Proof.
  induction stem as [|c' stem IH]; cbn [append contains_char].
  - now rewrite Ascii.eqb_refl.
  - rewrite IH. apply Bool.orb_true_r.
Qed.

(** X14.  A file name is accepted on its last extension only, compared
    without regard to ASCII case: for an extension without a dot, the name
    [stem.ext] is accepted exactly when [ext] in lower case is one of "csv",
    "xlsx" and "xls", whatever the stem is, and a name without a dot is
    rejected, even when it is one of these words. *)
Theorem allowed_file_checks_the_last_extension (stem ext : string) :
  contains_char "."%char ext = false ->
  (allowed_file (stem ++ "." ++ ext)%string = true
   <-> In (lower ext) ALLOWED_EXTENSIONS)
  /\ allowed_file ext = false.
Proof.
  intro H. split.
  - unfold allowed_file. rewrite (rsplit_dot_app stem ext H).
    change (stem ++ "." ++ ext)%string with (stem ++ String "."%char ext)%string.
    rewrite contains_char_app. cbn [andb]. rewrite existsb_exists. split.
    + intros (x & Hin & Hx). apply String.eqb_eq in Hx. now subst x.
    + intro Hin. exists (lower ext). split; [exact Hin|apply String.eqb_refl].
  - unfold allowed_file. now rewrite H.
Qed.

Lemma allowed_file_checks_the_last_extension_witness :
  contains_char "."%char "XLSX" = false
  /\ allowed_file "report.2024.XLSX" = true
  /\ allowed_file "XLSX" = false.
Proof.
  assert (H : contains_char "."%char "XLSX" = false) by reflexivity.
  split; [exact H|].
  destruct (allowed_file_checks_the_last_extension "report.2024" "XLSX" H)
    as [Hiff Hno].
  split; [|exact Hno].
  apply (proj2 Hiff). vm_compute. tauto.
Defined.

(** Induction on objects, through the values of dicts and the items of
    lists. *)
Lemma PyObj_nested_ind (P : PyObj -> Prop) :
  (forall items, Forall (fun kv => P (snd kv)) items -> P (PDict items)) ->
  (forall items, Forall P items -> P (PList items)) ->
  (forall f, P (PFloat f)) ->
  P PNone ->
  (forall s, P (PStr s)) ->
  (forall z, P (PInt z)) ->
  (forall b, P (PBool b)) ->
  (forall items, P (PTuple items)) ->
  forall obj, P obj.
Proof.
  intros HD HL HF HN HS HI HB HT.
  fix IH 1.
  intros [items|items|f| |s|z|b|items];
    [|
     |exact (HF f)|exact HN|exact (HS s)|exact (HI z)|exact (HB b)
     |exact (HT items)].
  - apply HD. induction items as [|[k v] items IHi]; constructor;
      [apply IH|exact IHi].
  - apply HL. induction items as [|v items IHi]; constructor;
      [apply IH|exact IHi].
Qed.

Lemma clean_nan_values_safe obj : json_safe (clean_nan_values obj) = true.
Proof.
  induction obj as [items IH|items IH|f| |s|z|b|items] using PyObj_nested_ind;
    simpl; try reflexivity.
  - rewrite forallb_forall. intros kv Hin. apply in_map_iff in Hin.
    destruct Hin as (kv' & <- & Hin). simpl.
    rewrite Forall_forall in IH. now apply IH.
  - rewrite forallb_forall. intros v Hin. apply in_map_iff in Hin.
    destruct Hin as (v' & <- & Hin).
    rewrite Forall_forall in IH. now apply IH.
  - destruct f; reflexivity.
Qed.

Lemma clean_nan_values_fixes_safe obj :
  json_safe obj = true -> clean_nan_values obj = obj.
Proof.
  induction obj as [items IH|items IH|f| |s|z|b|items] using PyObj_nested_ind;
    simpl; try reflexivity.
  - intro H. f_equal. rewrite forallb_forall in H. rewrite Forall_forall in IH.
    rewrite <- (map_id items) at 2. apply map_ext_in. intros [k v] Hin. simpl.
    f_equal. apply (IH _ Hin). exact (H _ Hin).
  - intro H. f_equal. rewrite forallb_forall in H. rewrite Forall_forall in IH.
    rewrite <- (map_id items) at 2. apply map_ext_in. intros v Hin.
    apply (IH _ Hin). exact (H _ Hin).
  - destruct f; simpl; intro H; try discriminate; reflexivity.
Qed.

(** X15.  [clean_nan_values] leaves no NaN and no infinity in the values of
    dicts and the items of lists, at any depth; it changes nothing in an
    object that has none, so applying it twice is the same as applying it
    once; it keeps the keys and the number of entries of a dict and the
    length of a list; and it does not look inside a tuple. *)
Theorem clean_nan_values_removes_every_special_float (obj : PyObj) :
  json_safe (clean_nan_values obj) = true
  /\ clean_nan_values (clean_nan_values obj) = clean_nan_values obj
  /\ (json_safe obj = true -> clean_nan_values obj = obj)
  /\ (forall items, obj = PDict items ->
        exists items',
          clean_nan_values obj = PDict items'
          /\ map fst items' = map fst items)
  /\ (forall items, obj = PList items ->
        exists items',
          clean_nan_values obj = PList items'
          /\ List.length items' = List.length items)
  /\ (forall items, obj = PTuple items -> clean_nan_values obj = obj).
Proof.
  split; [apply clean_nan_values_safe|].
  split; [apply clean_nan_values_fixes_safe, clean_nan_values_safe|].
  split; [apply clean_nan_values_fixes_safe|].
  split; [|split].
  - intros items ->. simpl. eexists. split; [reflexivity|].
    rewrite map_map. reflexivity.
  - intros items ->. simpl. eexists. split; [reflexivity|].
    apply length_map.
  - intros items ->. reflexivity.
Qed.

Lemma clean_nan_values_removes_every_special_float_witness :
  json_safe MoreSamples.raw_result = false
  /\ json_safe (clean_nan_values MoreSamples.raw_result) = true
  /\ clean_nan_values MoreSamples.raw_result
     = PDict [(PStr "std", PNone);
              (PStr "values", PList [PFloat (Finite 1); PNone; PNone]);
              (PStr "shape", PTuple [PInt 4; PInt 2])].
Proof.
  split; [reflexivity|].
  split; [exact (proj1 (clean_nan_values_removes_every_special_float
                          MoreSamples.raw_result))|].
  reflexivity.
Defined.

End HelperMore.

(** * More properties: the chart endpoint *)

Module ChartMore.
Import Pandas DataCleaner CleanerView CleanerFacts Readings.
Import PlotlyChartGenerator ChartEndpoint.

Lemma ColumnType_eqb_eq a b : ColumnType_eqb a b = true <-> a = b.
Proof.
  destruct a, b; simpl; split; intro H; try reflexivity; discriminate.
Qed.

Lemma type_is_other (column_types : StatsEngine.TypeMap) col ty :
  lookup col column_types <> Some ty -> type_is column_types col ty = false.
Proof.
  unfold type_is. destruct (lookup col column_types) as [ty'|]; [|reflexivity].
  intro H. destruct (ColumnType_eqb ty' ty) eqn:E; [|reflexivity].
  apply ColumnType_eqb_eq in E. now subst ty'.
Qed.

Lemma type_is_same (column_types : StatsEngine.TypeMap) col ty :
  lookup col column_types = Some ty -> type_is column_types col ty = true.
Proof.
  unfold type_is. intros ->. now apply ColumnType_eqb_eq.
Qed.

Section Guards.
Variable Figure : Type.
Variable figure : DataFrame -> StatsEngine.TypeMap -> string -> result Figure.

Lemma guarded_other ty frame (column_types : StatsEngine.TypeMap) col :
  lookup col column_types <> Some ty ->
  guarded Figure ty figure frame column_types col = Ok None.
Proof.
  intro H. unfold guarded. rewrite (type_is_other _ _ _ H).
  now destruct (has_column frame col).
Qed.

Lemma guarded_same ty frame (column_types : StatsEngine.TypeMap) col :
  has_column frame col = true ->
  lookup col column_types = Some ty ->
  guarded Figure ty figure frame column_types col
  = (fig <- figure frame column_types col ;; Ok (Some fig)).
Proof.
  intros Hc H. unfold guarded. now rewrite Hc, (type_is_same _ _ _ H).
Qed.

End Guards.

Lemma cleaned_has_typed_column to_datetime frame col ty :
  lookup col (CleaningReport.column_types (cleaned_report to_datetime frame))
  = Some ty ->
  has_column (cleaned to_datetime frame) col = true.
Proof.
  intro H. apply lookup_in in H. unfold has_column. apply existsb_exists.
  exists col. split; [|apply String.eqb_refl].
  unfold cleaned, names. cbn [columns]. rewrite (converted_keys to_datetime).
  rewrite <- (tagged_keys to_datetime).
  change col with (fst (col, ty)). now apply in_map.
Qed.

Section Endpoint.
Variable to_datetime : list (option string) -> option (list (option Z)).
Variable str_of : Exception -> string.
Variable Figure : Type.
Variable line_figure bar_figure histogram_figure box_figure pie_figure :
  DataFrame -> StatsEngine.TypeMap -> string -> result Figure.

(** X16.  The chart endpoint, on a table with distinct column labels and a
    column name that is not empty, answers by the chart type and the type
    the cleaner gave the column.  A chart type other than line, bar,
    histogram, box and pie is refused with 400 "Invalid chart type".  Line,
    histogram and box ask for a numeric column, bar and pie for a
    categorical one: when the column has another type or is not in the
    cleaned table (so, for a datetime column, a dropped column or an unknown
    name) the answer is 400 "Cannot generate ...".  When the type fits, the
    answer is the figure with the column name and the chart type; a figure
    that raises gives 400 "Cannot generate ..." for a pie and the guarded
    error otherwise. *)
Theorem chart_is_drawn_only_for_the_fitting_type
    (frame : DataFrame) (column_name chart_type : string) :
  NoDup (names frame) ->
  column_name <> "" ->
  exists cleaned_df report,
    clean to_datetime (init frame) = Ok (cleaned_df, report)
    /\ let column_types := CleaningReport.column_types report in
       let answer :=
         generate_plotly_chart to_datetime str_of Figure line_figure bar_figure
           histogram_figure box_figure pie_figure (Some frame)
           column_name chart_type in
       let figure :=
         figure_for line_figure bar_figure histogram_figure box_figure
           pie_figure chart_type cleaned_df column_types column_name in
       let refusal :=
         HTTPException 400
           (cannot_generate chart_type column_name
              (col_type_text column_types column_name)) in
       (required_type chart_type = None ->
        answer = Raise (HTTPException 400 "Invalid chart type"))
       /\ (forall ty, required_type chart_type = Some ty ->
             lookup column_name column_types <> Some ty ->
             answer = Raise refusal)
       /\ (forall ty, required_type chart_type = Some ty ->
             lookup column_name column_types = Some ty ->
             match figure with
             | Ok fig => answer = Ok (Response.mk fig column_name chart_type)
             | Raise e =>
                 answer = if String.eqb chart_type "pie" then Raise refusal
                          else App.http_guard str_of "Error generating chart" (Raise e)
             end).
Proof.
  intros Hnd Hname.
  exists (cleaned to_datetime frame), (cleaned_report to_datetime frame).
  split; [now apply clean_eq|]. cbv zeta.
  set (types := CleaningReport.column_types (cleaned_report to_datetime frame)).
  unfold generate_plotly_chart.
  apply String.eqb_neq in Hname. rewrite Hname.
  rewrite (clean_eq to_datetime frame Hnd). cbn [bind fst snd]. fold types.
  unfold required_type, figure_for,
    generate_line_chart, generate_bar_chart, generate_histogram,
    generate_box_plot, generate_pie_chart.
  destruct (String.eqb chart_type "line") eqn:E1;
    [|destruct (String.eqb chart_type "bar") eqn:E2;
      [|destruct (String.eqb chart_type "histogram") eqn:E3;
        [|destruct (String.eqb chart_type "box") eqn:E4;
          [|destruct (String.eqb chart_type "pie") eqn:E5]]]].
  all: cbv beta iota.
  all: split; [intro H; try discriminate H; reflexivity|].
  all: split.
  all: try (intros ty H; discriminate H).
  all: try (intros ty [= <-] Hty; rewrite (guarded_other _ _ _ _ _ _ Hty);
            reflexivity).
  all: intros ty [= <-] Hty;
    rewrite (guarded_same _ _ _ _ _ _
               (cleaned_has_typed_column _ _ _ _ Hty) Hty);
    match goal with
    | H : String.eqb _ _ = true |- _ => apply String.eqb_eq in H; rewrite H
    end;
    match goal with
    | |- match ?r with _ => _ end => destruct r as [fig|e]
    end; reflexivity.
Qed.

End Endpoint.

Lemma chart_is_drawn_only_for_the_fitting_type_witness :
  NoDup (names Samples.scenario_a)
  /\ "category" <> ""
  /\ generate_plotly_chart IsoDate.to_datetime Samples.exception_text string MoreSamples.named_figure
       MoreSamples.named_figure MoreSamples.named_figure
       MoreSamples.named_figure MoreSamples.named_figure
       (Some Samples.scenario_a) "category" "histogram"
     = Raise (HTTPException 400
                (cannot_generate "histogram" "category" "categorical")).
Proof.
  assert (Hnd : NoDup (names Samples.scenario_a)) by distinct_labels.
  assert (Hname : "category" <> "") by discriminate.
  split; [exact Hnd|]. split; [exact Hname|].
  destruct (chart_is_drawn_only_for_the_fitting_type IsoDate.to_datetime
              Samples.exception_text string
              MoreSamples.named_figure MoreSamples.named_figure
              MoreSamples.named_figure MoreSamples.named_figure
              MoreSamples.named_figure Samples.scenario_a
              "category" "histogram" Hnd Hname)
    as (cleaned_df & report & Hclean & _ & Hother & _).
  rewrite (clean_eq IsoDate.to_datetime Samples.scenario_a Hnd) in Hclean.
  assert (Hrep : report = cleaned_report IsoDate.to_datetime Samples.scenario_a)
    by (injection Hclean; intros Hq _; symmetry; exact Hq).
  subst report.
  rewrite (Hother numeric eq_refl); [reflexivity|].
  vm_compute. discriminate.
Defined.

End ChartMore.

(** * More properties: the assistant's helpers *)

Module AgentMore.
Import Pandas DataCleaner CleanerView CleanerFacts Readings.
Import AgentEngine ToolRegistry.

(** X17.  For a data context with a type map, the suggested questions are
    the two opening questions, one question on the first numeric column, one
    on the first two numeric columns when there are two, one on the first
    categorical column, and the two closing questions, cut after the
    sixth: there are between four and six of them, the question on
    anomalies is always among them, and the question on patterns is left
    out exactly when the type map has two numeric columns and a categorical
    one. *)
Theorem suggested_questions_are_cut_after_six
    (ctx : DataContext.t) (column_types : StatsEngine.TypeMap) :
  DataContext.column_types ctx = Some column_types ->
  let numeric_cols := StatsEngine.cols_of_type numeric column_types in
  let categorical_cols := StatsEngine.cols_of_type categorical column_types in
  let questions := generate_suggested_questions (Some ctx) in
  List.length questions
  = Nat.min 6 (4 + Nat.min 2 (List.length numeric_cols)
                 + Nat.min 1 (List.length categorical_cols))
  /\ firstn 2 questions
     = ["Give me an overview of this dataset";
        "What are the key insights from this data?"]
  /\ In "Are there any anomalies or outliers?" questions
  /\ (In "What patterns can you find in this data?" questions
      <-> List.length numeric_cols < 2 \/ List.length categorical_cols = 0).
Proof.
  intro Hctx. cbv zeta. unfold generate_suggested_questions. rewrite Hctx.
  destruct (StatsEngine.cols_of_type numeric column_types)
    as [|first [|second rest]];
    destruct (StatsEngine.cols_of_type categorical column_types)
      as [|label labels];
    cbn [app firstn List.length Nat.min Nat.add];
    (split; [reflexivity|]); (split; [reflexivity|]); split.
  all: try (cbn [In]; tauto).
  all: try (split; [intros _; cbn [List.length]; lia|intros _; cbn [In]; tauto]).
  split; [|cbn [List.length]; intros [H|H]; [lia|discriminate H]].
  cbn [In append]. intros [H|[H|[H|[H|[H|[H|[]]]]]]]; discriminate H.
Qed.

Lemma suggested_questions_are_cut_after_six_witness :
  let ctx :=
    DataContext.mk "sales.csv" 10 ["id"; "category"]
      (Some [("id", numeric); ("price", numeric); ("category", categorical)])
      None in
  DataContext.column_types ctx
  = Some [("id", numeric); ("price", numeric); ("category", categorical)]
  /\ List.length (generate_suggested_questions (Some ctx)) = 6
  /\ ~ In "What patterns can you find in this data?"
         (generate_suggested_questions (Some ctx)).
Proof.
  cbv zeta. split; [reflexivity|].
  destruct (suggested_questions_are_cut_after_six
              (DataContext.mk "sales.csv" 10 ["id"; "category"]
                 (Some [("id", numeric); ("price", numeric);
                        ("category", categorical)]) None)
              _ eq_refl) as (Hlen & _ & _ & Hpat).
  split; [exact Hlen|].
  intro Hin. apply (proj1 Hpat) in Hin. vm_compute in Hin.
  destruct Hin as [Hin|Hin]; [lia|discriminate Hin].
Defined.






End AgentMore.

(** * More properties: the shares of the categorical observations *)

Module ShareMore.
Import Pandas StatsEngine InsightEngine InsightView Readings.






















End ShareMore.
